(** * SD-JWT fixture generator: a shallow embedding of [scripts/generate.py]

    The script drives the three engines of the SD-JWT library (Issuer, Holder,
    Verifier) over one test case and writes the artifacts of the run to disk.
    This development embeds

    - the Python values the script manipulates (YAML-loaded data, ordered
      dictionaries, [dict.update], [dict.get], truthiness, [==]);
    - [generate_test_case_data] and its inner callback [cb_get_issuer_key],
      over an interface that stands for the imported [sd_jwt] package;
    - the engines themselves, which are not part of the script, as the
      specification describes them.

    Logging ([logger.info]) and argument parsing are left out: a run is one
    call of [generate_test_case_data] on given settings, and the main block
    is modelled from the parsed arguments on. *)

From Stdlib Require Import String Ascii List ZArith Bool Lia Arith Permutation.
Import ListNotations.
Open Scope string_scope.
Open Scope list_scope.

Set Warnings "-register-all".

(* ================================================================== *)
(** ** Python values *)
(* ================================================================== *)

(** Values as YAML and JSON loading produce them.  A dictionary keeps its
    insertion order, so it is an association list; a well-formed dictionary
    has no repeated key ([wf_pyval]). *)
Inductive pyval : Type :=
| PyNone
| PyBool (b : bool)
| PyInt (n : Z)
| PyStr (s : string)
| PyList (xs : list pyval)
| PyDict (kvs : list (string * pyval)).

Definition dict := list (string * pyval).

Section PyvalInduction.
Variable P : pyval -> Prop.
Hypothesis HNone : P PyNone.
Hypothesis HBool : forall b, P (PyBool b).
Hypothesis HInt : forall n, P (PyInt n).
Hypothesis HStr : forall s, P (PyStr s).
Hypothesis HList : forall xs, Forall P xs -> P (PyList xs).
Hypothesis HDict : forall kvs, Forall (fun kv => P (snd kv)) kvs -> P (PyDict kvs).

Fixpoint pyval_rect' (v : pyval) : P v :=
  match v with
  | PyNone => HNone
  | PyBool b => HBool b
  | PyInt n => HInt n
  | PyStr s => HStr s
  | PyList xs =>
      HList xs
        ((fix go (l : list pyval) : Forall P l :=
            match l with
            | [] => Forall_nil _
            | x :: r => Forall_cons x (pyval_rect' x) (go r)
            end) xs)
  | PyDict kvs =>
      HDict kvs
        ((fix go (l : list (string * pyval)) : Forall (fun kv => P (snd kv)) l :=
            match l with
            | [] => Forall_nil _
            | kv :: r => Forall_cons kv (pyval_rect' (snd kv)) (go r)
            end) kvs)
  end.
End PyvalInduction.

(** *** Association lists with Python's dictionary operations *)

Section Assoc.
Context {V : Type}.

(** [d.get(k)]: the value stored under [k], if any. *)
Fixpoint dict_get (k : string) (d : list (string * V)) : option V :=
  match d with
  | [] => None
  | (k', v) :: r => if String.eqb k k' then Some v else dict_get k r
  end.

(** [d[k] = v]: overwrite in place when [k] is present, append otherwise. *)
Fixpoint dict_set (k : string) (v : V) (d : list (string * V)) : list (string * V) :=
  match d with
  | [] => [(k, v)]
  | (k', v') :: r =>
      if String.eqb k k' then (k', v) :: r else (k', v') :: dict_set k v r
  end.

(** [d.update(e)]: the entries of [e], in order, stored into [d]. *)
Definition dict_update (d e : list (string * V)) : list (string * V) :=
  fold_left (fun acc kv => dict_set (fst kv) (snd kv) acc) e d.

Definition dict_keys (d : list (string * V)) : list string := map fst d.

Definition has_key (k : string) (d : list (string * V)) : bool :=
  match dict_get k d with Some _ => true | None => false end.
End Assoc.

(** Keys without repetition, as a boolean test. *)
Fixpoint nodup_keys (ks : list string) : bool :=
  match ks with
  | [] => true
  | k :: r => negb (existsb (String.eqb k) r) && nodup_keys r
  end.

(** A value is well formed when no dictionary inside it repeats a key: every
    value Python can hold satisfies it. *)
Fixpoint wf_pyval (v : pyval) : bool :=
  match v with
  | PyList xs => forallb wf_pyval xs
  | PyDict kvs =>
      nodup_keys (map fst kvs) && forallb (fun kv => wf_pyval (snd kv)) kvs
  | _ => true
  end.

(** Python truthiness: [None], [False], [0], the empty string and the empty
    containers are falsy. *)
Definition truthy (v : pyval) : bool :=
  match v with
  | PyNone => false
  | PyBool b => b
  | PyInt n => negb (Z.eqb n 0)
  | PyStr s => negb (String.eqb s "")
  | PyList xs => match xs with [] => false | _ => true end
  | PyDict kvs => match kvs with [] => false | _ => true end
  end.

(** Python's [==].  Booleans compare with integers by value, lists
    elementwise, dictionaries as mappings: same size and every entry of the
    left one found on the right with an equal value, whatever the order. *)
Fixpoint py_eq (a b : pyval) : bool :=
  match a, b with
  | PyNone, PyNone => true
  | PyBool x, PyBool y => Bool.eqb x y
  | PyBool x, PyInt y => Z.eqb (Z.b2z x) y
  | PyInt x, PyBool y => Z.eqb x (Z.b2z y)
  | PyInt x, PyInt y => Z.eqb x y
  | PyStr x, PyStr y => String.eqb x y
  | PyList xs, PyList ys =>
      (fix go (l : list pyval) (r : list pyval) : bool :=
         match l, r with
         | [], [] => true
         | x :: l', y :: r' => py_eq x y && go l' r'
         | _, _ => false
         end) xs ys
  | PyDict xs, PyDict ys =>
      Nat.eqb (length xs) (length ys)
      && forallb (fun kv =>
                    match dict_get (fst kv) ys with
                    | Some w => py_eq (snd kv) w
                    | None => false
                    end) xs
  | _, _ => false
  end.

(* ================================================================== *)
(** ** Exceptions *)
(* ================================================================== *)

(** The error taxonomy of the engines (specification, section 7, with the
    failures named in the component descriptions). *)
Inductive sd_error : Type :=
| EncodingError
| InvalidSignatureError
| UnresolvedDigestError
| DuplicateDigestError
| ExpiredCredentialError
| NotYetValidError
| HolderBindingError
| MissingBindingError
| PolicyError
| SigningError
| UnknownClaimSelectedError
| MissingBindingKeyError.

(** What a run can raise.  [Exception text subject] is the f-string
    [f"{text}{subject}"] of the callback, kept unformatted.  [NotModelled] is
    no exception of Python: it marks the one place where a run leaves the
    values above, a dictionary that would get a key that is not a string.
    The text of a [TypeError] or [ValueError] is a label for the kind of
    error, not Python's message. *)
Inductive exn : Type :=
| KeyError (k : string)
| TypeError (what : string)
| ValueError (what : string)
| Exception (text : string) (subject : pyval)
| SystemExit (msg : string)
| AttributeError (name : string)
| EngineError (e : sd_error)
| NotModelled (what : string).

Inductive result (A : Type) : Type :=
| Ok (a : A)
| Raise (e : exn).
Arguments Ok {A} a.
Arguments Raise {A} e.

Definition bind {A B : Type} (m : result A) (f : A -> result B) : result B :=
  match m with
  | Ok a => f a
  | Raise e => Raise e
  end.

Declare Scope py_scope.
Delimit Scope py_scope with py.
Notation "x <- m ;; k" := (bind m (fun x => k))
  (at level 61, m at next level, right associativity) : py_scope.
Open Scope py_scope.

(** [obj[k]] on a value: [KeyError] when the key is missing, [TypeError] when
    the value is not a mapping. *)
Definition py_getitem (v : pyval) (k : string) : result pyval :=
  match v with
  | PyDict d =>
      match dict_get k d with
      | Some x => Ok x
      | None => Raise (KeyError k)
      end
  | _ => Raise (TypeError "not subscriptable")
  end.

(** A value as a dictionary key.  Lists and dictionaries are unhashable;
    numbers, booleans and [None] are keys in Python, which the dictionaries
    here, keyed by strings, cannot hold. *)
Definition dict_key (k : pyval) : result string :=
  match k with
  | PyStr s => Ok s
  | PyList _ | PyDict _ => Raise (TypeError "unhashable type")
  | PyNone | PyBool _ | PyInt _ =>
      Raise (NotModelled "a dictionary key that is not a string")
  end.

(** One element of the sequence given to [dict.update]: it is turned into a
    sequence, which must have two items, the key and the value.  A list gives
    its items, a string its characters, a dictionary its keys. *)
Definition update_pair (element : pyval) : result (string * pyval) :=
  match element with
  | PyList [k; v] => key <- dict_key k ;; Ok (key, v)
  | PyStr (String a (String b EmptyString)) =>
      Ok (String a EmptyString, PyStr (String b EmptyString))
  | PyDict [(k1, _); (k2, _)] => Ok (k1, PyStr k2)
  | PyList _ | PyStr _ | PyDict _ =>
      Raise (ValueError "dictionary update sequence element has not length 2")
  | PyNone | PyBool _ | PyInt _ =>
      Raise (TypeError "cannot convert dictionary update sequence element to a sequence")
  end.

(** The elements in order; the first one that fails ends the update. *)
Fixpoint update_sequence (xs : list pyval) : result (list (string * pyval)) :=
  match xs with
  | [] => Ok []
  | x :: rest =>
      kv <- update_pair x ;;
      kvs <- update_sequence rest ;;
      Ok (kv :: kvs)
  end.

(** The entries [d.update(x)] stores, in the order it stores them: those of
    a mapping, or the pairs of a sequence.  A string is the sequence of its
    characters, each of length one; a number, a boolean or [None] is not
    iterable. *)
Definition update_pairs (x : pyval) : result (list (string * pyval)) :=
  match x with
  | PyDict kvs => Ok kvs
  | PyList xs => update_sequence xs
  | PyStr EmptyString => Ok []
  | PyStr _ =>
      Raise (ValueError "dictionary update sequence element has not length 2")
  | PyNone | PyBool _ | PyInt _ => Raise (TypeError "object is not iterable")
  end.

(** [d.get(k, False)]. *)
Definition get_or_false (d : dict) (k : string) : pyval :=
  match dict_get k d with
  | Some v => v
  | None => PyBool false
  end.

(** [d.get(k)], whose default is [None]. *)
Definition get_or_none (d : dict) (k : string) : pyval :=
  match dict_get k d with
  | Some v => v
  | None => PyNone
  end.

(* ================================================================== *)
(** ** The data the engines exchange *)
(* ================================================================== *)

(** Key material is opaque to the script: it only moves keys around. *)
Definition jwk := string.

(** A position in a claim tree: member names and array indices from the
    root. *)
Inductive step : Type :=
| Key (k : string)
| Idx (i : nat).

Definition path := list step.

(** Modelled from the spec: the Claim Tree as the signed payload carries it
    (sections 3 and 9: a tagged variant of object, array, scalar and
    placeholder).  [PVal] is a value carried verbatim; [PObj plain sd] is an
    object whose placeholders form the list [sd] next to its plain members;
    [PHole d] is the placeholder that stands in for a hidden array element. *)
Inductive ptree : Type :=
| PVal (v : pyval)
| PArr (items : list ptree)
| PObj (plain : list (string * ptree)) (sd : list string)
| PHole (d : string).

(** Modelled from the spec: a Disclosure (section 3): salt, claim name (absent
    for an array element) and claim value.  Its digest is recomputed from
    these three whenever it is needed. *)
Record disclosure : Type := {
  d_salt : string;
  d_key : option string;
  d_value : pyval
}.

(** Modelled from the spec: the payload of the Signed Object: the claim tree
    with placeholders, the digest-algorithm identifier and, when
    holder binding was requested, the Holder's public key. *)
Record sd_payload : Type := {
  p_claims : ptree;
  p_sd_alg : string;
  p_cnf : option jwk
}.

(** Modelled from the spec: the payload of the Holder-Binding Object. *)
Record hb_payload : Type := {
  hb_nonce : pyval;
  hb_aud : pyval;
  hb_iat : Z
}.

Inductive jwt_body : Type :=
| BodySD (p : sd_payload)
| BodyHB (h : hb_payload).

(** Modelled from the spec: a signed object in its three parts (section 6):
    header with the algorithm identifier, payload, signature.  The base64url
    and JSON text of each part is represented by what it decodes to. *)
Record jws : Type := {
  jws_alg : string;
  jws_body : jwt_body;
  jws_sig : string
}.

(** Modelled from the spec: a combined artifact (section 6),
    [SignedObject ('~' Disclosure)* ('~' HolderBindingObject)?], represented
    by its segments; [None] is the trailing empty segment. *)
Record combined : Type := {
  c_sd_jwt : jws;
  c_disclosures : list disclosure;
  c_hb_jwt : option jws
}.

Definition digest_index := list (string * disclosure).

(** The attributes of the engine objects that the script reads. *)
Record issuer_obj : Type := {
  sd_jwt_payload : sd_payload;
  serialized_sd_jwt : jws;
  combined_sd_jwt_iid : combined;
  decoy_digests : list string;
  ii_disclosures : list disclosure
}.

Record holder_obj : Type := {
  h_sd_jwt : jws;
  _hash_to_decoded_disclosure : digest_index;
  _hash_to_disclosure : digest_index;
  holder_binding_jwt_payload : option hb_payload;
  serialized_holder_binding_jwt : option jws;
  combined_presentation : option combined
}.

Record verifier_obj : Type := {
  verified_claims : pyval
}.

(** What [get_jwk] hands back: the demo keys by name. *)
Record demo_keys : Type := {
  issuer_key : jwk;
  holder_key : jwk;
  issuer_public_key : jwk
}.

(** The first element of an artifact tuple: whatever the script hands to the
    formatter. *)
Inductive artifact_data : Type :=
| DataNone
| DataJson (v : pyval)
| DataPayload (p : sd_payload)
| DataJws (j : jws)
| DataCombined (c : combined)
| DataHbPayload (h : hb_payload)
| DataDigests (ds : list string)
| DataMarkdown (s : string).

Definition opt_data {A : Type} (f : A -> artifact_data) (o : option A) : artifact_data :=
  match o with
  | Some a => f a
  | None => DataNone
  end.

(** A value of the [_artifacts] dictionary.  The script only ever stores
    3-tuples; [ItemNone] is the [None] its write loop tests for. *)
Inductive artifact_item : Type :=
| ItemNone
| ItemTuple (data : artifact_data) (description : string) (ftype : string).

(** The imported [sd_jwt] package, as the script uses it.  The class
    attribute [SDJWTIssuer.unsafe_randomness] is visible to the constructor,
    so it is its first argument here.  [load_yaml_example] stands for the
    test case files as they are during a run: what the loader returns for a
    path, or what it raises, a missing file included.  The input files are
    thus not among the [files] of the process state below, which holds what
    the script writes; a state may lack a directory whose test case file
    the loader can read, which no real file system does. *)
Record Library : Type := {
  get_jwk : pyval -> bool -> pyval -> result demo_keys;
  load_yaml_example : list string -> result dict;
  SDJWTIssuer : bool -> dict -> jwk -> option jwk -> pyval -> result issuer_obj;
  SDJWTHolder : combined -> result holder_obj;
  create_presentation :
    holder_obj -> pyval -> option pyval -> option pyval -> option jwk ->
    result holder_obj;
  SDJWTVerifier :
    combined -> (pyval -> result jwk) -> option pyval -> option pyval ->
    result verifier_obj;
  get_verified_payload : verifier_obj -> result pyval;
  format_for_example : artifact_data -> string -> string;
  format_for_testcase : artifact_data -> string -> string;
  markdown_disclosures : digest_index -> digest_index -> string;
  markdown_decoy_digests : list string -> string
}.

(* ================================================================== *)
(** ** The process state of a run *)
(* ================================================================== *)

(** A file path by its components.  An absolute path starts with the empty
    component, the root, as [show_fpath] prints it. *)
Definition fpath := list string.

Definition fpath_eqb (p q : fpath) : bool :=
  if list_eq_dec string_dec p q then true else false.

(** [Path.parent]. *)
Definition parent (p : fpath) : fpath := removelast p.

Definition show_fpath (p : fpath) : string := String.concat "/" p.

(** One call into an engine, with the arguments it receives. *)
Inductive call : Type :=
| IssuerCall (unsafe : bool) (claims : dict) (ik : jwk) (hk : option jwk)
             (add_decoy_claims : pyval)
| HolderCall (artifact : combined)
| PresentationCall (disclosed : pyval) (nonce aud : option pyval) (hk : option jwk)
| VerifierCall (presentation : combined) (cb : pyval -> result jwk)
               (expected_aud expected_nonce : option pyval).

(** What outlives a call of [generate_test_case_data]: the class attribute
    [SDJWTIssuer.unsafe_randomness], the file system, and the engine calls
    made so far (oldest first). *)
Record world : Type := {
  unsafe_randomness : bool;
  directories : list fpath;
  files : list (fpath * string);
  calls : list call
}.

(** State and exceptions: a raise keeps the state reached so far. *)
Definition M (A : Type) : Type := world -> result A * world.

Definition ret {A : Type} (a : A) : M A := fun w => (Ok a, w).

Definition bindM {A B : Type} (m : M A) (f : A -> M B) : M B :=
  fun w =>
    match m w with
    | (Ok a, w') => f a w'
    | (Raise e, w') => (Raise e, w')
    end.

Definition lift {A : Type} (r : result A) : M A := fun w => (r, w).

Declare Scope run_scope.
Delimit Scope run_scope with run.
Notation "x <~ m ;; k" := (bindM m (fun x => k))
  (at level 61, m at next level, right associativity) : run_scope.
Notation "m ;;; k" := (bindM m (fun _ => k))
  (at level 61, right associativity) : run_scope.
Open Scope run_scope.

Definition set_unsafe_randomness (b : bool) : M unit :=
  fun w => (Ok tt, {| unsafe_randomness := b;
                      directories := directories w;
                      files := files w;
                      calls := calls w |}).

Definition record_call (c : call) : world -> world :=
  fun w => {| unsafe_randomness := unsafe_randomness w;
              directories := directories w;
              files := files w;
              calls := calls w ++ [c] |}.

(** [Path.exists] on a directory. *)
Definition dir_exists (p : fpath) : M bool :=
  fun w => (Ok (existsb (fpath_eqb p) (directories w)), w).

Fixpoint store_file (p : fpath) (content : string) (fs : list (fpath * string))
  : list (fpath * string) :=
  match fs with
  | [] => [(p, content)]
  | (q, c) :: r =>
      if fpath_eqb p q then (q, content) :: r else (q, c) :: store_file p content r
  end.

Fixpoint read_file (p : fpath) (fs : list (fpath * string)) : option string :=
  match fs with
  | [] => None
  | (q, c) :: r => if fpath_eqb p q then Some c else read_file p r
  end.

(** [open(p, "w")] followed by [f.write(content)]. *)
Definition write_file (p : fpath) (content : string) : M unit :=
  fun w => (Ok tt, {| unsafe_randomness := unsafe_randomness w;
                      directories := directories w;
                      files := store_file p content (files w);
                      calls := calls w |}).

(** Reading an attribute that has not been set. *)
Definition attr {A : Type} (name : string) (o : option A) : result A :=
  match o with
  | Some a => Ok a
  | None => Raise (AttributeError name)
  end.

(* ================================================================== *)
(** ** [generate_test_case_data] *)
(* ================================================================== *)

Section Script.
Variable lib : Library.
(** The module-level [settings], loaded once by the main block. *)
Variable settings : pyval.

(** Lines 36-42: the registered claims from the settings, then
    [claims.update(testcase["user_claims"])]. *)
Definition claims_of (testcase : dict) : result dict :=
  identifiers <- py_getitem settings "identifiers" ;;
  issuer <- py_getitem identifiers "issuer" ;;
  iat <- py_getitem settings "iat" ;;
  exp <- py_getitem settings "exp" ;;
  user_claims <- py_getitem (PyDict testcase) "user_claims" ;;
  pairs <- update_pairs user_claims ;;
  Ok (dict_update [("iss", issuer); ("iat", iat); ("exp", exp)] pairs).

(** Lines 71-76.  The closure reads [claims] and [demo_keys] of the
    enclosing call. *)
Definition cb_get_issuer_key (claims : dict) (keys : demo_keys) (issuer : pyval)
  : result jwk :=
  iss <- py_getitem (PyDict claims) "iss" ;;
  if py_eq issuer iss
  then Ok (issuer_public_key keys)
  else Raise (Exception "Unknown issuer: " issuer).

(** [x if testcase.get("holder_binding", False) else None], the lookup of
    [x] being made only when the flag is truthy. *)
Definition if_holder_binding {A : Type} (testcase : dict) (x : result A)
  : result (option A) :=
  if truthy (get_or_false testcase "holder_binding")
  then (a <- x ;; Ok (Some a))%py
  else Ok None.

Definition verifier_id : result pyval :=
  identifiers <- py_getitem settings "identifiers" ;;
  py_getitem identifiers "verifier".

(** Lines 45-51. *)
Definition issue (testcase : dict) (keys : demo_keys) (claims : dict)
  : M issuer_obj :=
  set_unsafe_randomness true ;;;
  hk <~ lift (if_holder_binding testcase (Ok (holder_key keys))) ;;
  fun w =>
    let use_decoys := get_or_false testcase "add_decoy_claims" in
    let unsafe := unsafe_randomness w in
    (SDJWTIssuer lib unsafe claims (issuer_key keys) hk use_decoys,
     record_call (IssuerCall unsafe claims (issuer_key keys) hk use_decoys) w).

(** Lines 55-65. *)
Definition present (testcase : dict) (keys : demo_keys) (artifact : combined)
  : M holder_obj :=
  sdjwt_at_holder <~
    (fun w => (SDJWTHolder lib artifact, record_call (HolderCall artifact) w)) ;;
  disclosed <~ lift (py_getitem (PyDict testcase) "holder_disclosed_claims") ;;
  nonce <~ lift (if_holder_binding testcase
                   (py_getitem settings "holder_binding_nonce")) ;;
  aud <~ lift (if_holder_binding testcase verifier_id) ;;
  hk <~ lift (if_holder_binding testcase (Ok (holder_key keys))) ;;
  fun w =>
    (create_presentation lib sdjwt_at_holder disclosed nonce aud hk,
     record_call (PresentationCall disclosed nonce aud hk) w).

(** Lines 78-88. *)
Definition verify (testcase : dict) (keys : demo_keys) (claims : dict)
           (presentation : combined) : M pyval :=
  aud <~ lift (if_holder_binding testcase verifier_id) ;;
  nonce <~ lift (if_holder_binding testcase
                   (py_getitem settings "holder_binding_nonce")) ;;
  sdjwt_at_verifier <~
    (fun w =>
       (SDJWTVerifier lib presentation (cb_get_issuer_key claims keys) aud nonce,
        record_call
          (VerifierCall presentation (cb_get_issuer_key claims keys) aud nonce) w)) ;;
  lift (get_verified_payload lib sdjwt_at_verifier).

(** Lines 92-157: the [_artifacts] dictionary, in insertion order. *)
Definition _artifacts (testcase : dict) (type : string)
           (sdjwt_at_issuer : issuer_obj) (sdjwt_at_holder : holder_obj)
           (presentation : combined) (verified : pyval)
  : result (list (string * artifact_item)) :=
  user_claims <- py_getitem (PyDict testcase) "user_claims" ;;
  let use_decoys := get_or_false testcase "add_decoy_claims" in
  let base :=
    [ ("user_claims", ItemTuple (DataJson user_claims) "User Claims" "json");
      ("sd_jwt_payload",
       ItemTuple (DataPayload (sd_jwt_payload sdjwt_at_issuer))
                 "Payload of the SD-JWT" "json");
      ("sd_jwt_serialized",
       ItemTuple (DataJws (serialized_sd_jwt sdjwt_at_issuer))
                 "Serialized SD-JWT" "txt");
      ("combined_issuance",
       ItemTuple (DataCombined (combined_sd_jwt_iid sdjwt_at_issuer))
                 "Combined SD-JWT and Disclosures" "txt");
      ("hb_jwt_payload",
       ItemTuple (if truthy (get_or_none testcase "holder_binding")
                  then opt_data DataHbPayload
                         (holder_binding_jwt_payload sdjwt_at_holder)
                  else DataNone)
                 "Payload of the Holder Binding JWT" "json");
      ("hb_jwt_serialized",
       ItemTuple (opt_data DataJws (serialized_holder_binding_jwt sdjwt_at_holder))
                 "Serialized Holder Binding JWT" "txt");
      ("combined_presentation",
       ItemTuple (DataCombined presentation)
                 "Combined representation of SD-JWT and HS-Disclosures" "txt");
      ("verified_contents",
       ItemTuple (DataJson verified)
                 "Verified released contents of the SD-JWT" "json") ] in
  let with_disclosures :=
    if String.eqb type "example"
    then dict_set "disclosures"
           (ItemTuple
              (DataMarkdown
                 (markdown_disclosures lib
                    (_hash_to_decoded_disclosure sdjwt_at_holder)
                    (_hash_to_disclosure sdjwt_at_holder)))
              "Payloads of the II-Disclosures" "md") base
    else base in
  Ok (if truthy use_decoys
      then if String.eqb type "example"
           then dict_set "decoy_digests"
                  (ItemTuple
                     (DataMarkdown
                        (markdown_decoy_digests lib (decoy_digests sdjwt_at_issuer)))
                     "Decoy Claims" "md") with_disclosures
           else dict_set "decoy_digests"
                  (ItemTuple (DataDigests (decoy_digests sdjwt_at_issuer))
                             "Decoy Claims" "json") with_disclosures
      else with_disclosures).

Definition formatter (type : string) : artifact_data -> string -> string :=
  if String.eqb type "example"
  then format_for_example lib
  else format_for_testcase lib.

(** Lines 172-179: the write loop. *)
Fixpoint write_artifacts (output_dir : fpath) (type : string)
         (items : list (string * artifact_item)) : M unit :=
  match items with
  | [] => ret tt
  | (key, data_item) :: rest =>
      match data_item with
      | ItemNone => write_artifacts output_dir type rest
      | ItemTuple data _ ftype =>
          write_file (output_dir ++ [(key ++ "." ++ ftype)%string])
                     (formatter type data ftype) ;;;
          write_artifacts output_dir type rest
      end
  end.

(** Lines 28-179. *)
Definition generate_test_case_data (testcase_path : fpath) (type : string)
  : M unit :=
  seed <~ lift (py_getitem settings "random_seed") ;;
  key_settings <~ lift (py_getitem settings "key_settings") ;;
  keys <~ lift (get_jwk lib key_settings true seed) ;;
  testcase <~ lift (load_yaml_example lib testcase_path) ;;
  claims <~ lift (claims_of testcase) ;;
  sdjwt_at_issuer <~ issue testcase keys claims ;;
  sdjwt_at_holder <~ present testcase keys (combined_sd_jwt_iid sdjwt_at_issuer) ;;
  presentation <~ lift (attr "combined_presentation"
                          (combined_presentation sdjwt_at_holder)) ;;
  verified <~ verify testcase keys claims presentation ;;
  items <~ lift (_artifacts testcase type sdjwt_at_issuer sdjwt_at_holder
                   presentation verified) ;;
  let output_dir := parent testcase_path in
  found <~ dir_exists output_dir ;;
  if found
  then write_artifacts output_dir type items
  else lift (Raise (SystemExit ("Output directory '" ++ show_fpath output_dir
                                  ++ "' does not exist.")%string)).
End Script.

(* ================================================================== *)
(** ** The engines, from the specification *)
(* ================================================================== *)

(** The external primitives the engines call into (specification, section 1:
    black-box services): the randomness source, the digest function over a
    Disclosure's salt, name and value, the signature scheme, and the clock
    checks. *)
Record Primitives : Type := {
  (** the salt source; the flag is [SDJWTIssuer.unsafe_randomness] *)
  random_stream : bool -> nat -> string;
  (** [hash(base64url(json([salt, key?, value])))] *)
  digest_of : string -> option string -> pyval -> string;
  pub_of : jwk -> jwk;
  sign : jwk -> jwt_body -> string;
  sig_verify : jwk -> jwt_body -> string -> bool;
  (** [exp] not passed and [iat] sane under the configured tolerance;
      [None] when the payload passes *)
  temporal_check : ptree -> option sd_error;
  (** the Holder's clock when it signs, and the Verifier's freshness test *)
  hb_time : Z;
  hb_fresh : Z -> bool
}.

(** The configuration surface (specification, section 6): digest and
    signature algorithm identifiers, which paths are selectively disclosable,
    how many decoys go where, and when a Disclosure matches the Holder's
    selection.  The policy classifies the paths it is asked about, so it
    cannot name a path that the claim tree lacks, and a selection that no
    Disclosure matches selects nothing. *)
Record Config : Type := {
  sd_alg : string;
  sign_alg : string;
  policy : path -> bool;
  decoy_count : path -> nat;
  matches_selection : pyval -> option string -> pyval -> bool
}.

(** What issuing a subtree produces: the subtree with placeholders, the
    Disclosures and the decoy digests in generation order, and the next
    unused position of the randomness source. *)
Record issued : Type := {
  i_tree : ptree;
  i_disclosures : list disclosure;
  i_decoys : list string;
  i_next : nat
}.

Definition registered (k : string) : bool :=
  existsb (String.eqb k) ["iss"; "iat"; "exp"].

Section Engines.
Variable P : Primitives.
Variable cfg : Config.

(** Modelled from the spec: [digestOf] (section 4.1), a pure function of
    salt, name and value. *)
Definition digest (d : disclosure) : string :=
  digest_of P (d_salt d) (d_key d) (d_value d).

(** Modelled from the spec: [buildIndex] (section 4.1): a digest met twice
    aborts with [DuplicateDigestError]. *)
Fixpoint build_index (ds : list disclosure) : result digest_index :=
  match ds with
  | [] => Ok []
  | d :: r =>
      I <- build_index r ;;
      if has_key (digest d) I
      then Raise (EngineError DuplicateDigestError)
      else Ok ((digest d, d) :: I)
  end.

Section Issuer.
(** The randomness mode and whether decoys were asked for. *)
Variable unsafe : bool.
Variable with_decoys : bool.

Definition draw (n : nat) : string := random_stream P unsafe n.

Definition decoys_at (p : path) : nat :=
  if with_decoys then decoy_count cfg p else 0.

(** Modelled from the spec: a Decoy Digest (section 3), computed over a
    random salt and a random value: two draws each. *)
Fixpoint make_decoys (count n : nat) : list string * nat :=
  match count with
  | O => ([], n)
  | S c =>
      let d := digest_of P (draw n) None (PyStr (draw (S n))) in
      let (r, n') := make_decoys c (S (S n)) in
      (d :: r, n')
  end.

(** The elements of an array, in order: an element the policy selects
    becomes a placeholder in place, any other is issued recursively. *)
Definition issue_items_with (rec : path -> pyval -> nat -> issued) (p : path)
  : nat -> list pyval -> nat ->
    list ptree * list disclosure * list string * nat :=
  fix go (i : nat) (l : list pyval) (n : nat) :=
    match l with
    | [] => ([], [], [], n)
    | x :: l' =>
        if policy cfg (p ++ [Idx i])
        then
          let d := {| d_salt := draw n; d_key := None; d_value := x |} in
          let '(ts, ds, dcs, n') := go (S i) l' (S n) in
          (PHole (digest d) :: ts, d :: ds, dcs, n')
        else
          let o := rec (p ++ [Idx i]) x n in
          let '(ts, ds, dcs, n') := go (S i) l' (i_next o) in
          (i_tree o :: ts, i_disclosures o ++ ds, i_decoys o ++ dcs, n')
    end.

(** The members of an object, in order: a member the policy selects
    leaves the plain members and its digest joins the placeholder
    list. *)
Definition issue_members_with (rec : path -> pyval -> nat -> issued) (p : path)
  : list (string * pyval) -> nat ->
    list (string * ptree) * list string * list disclosure * list string * nat :=
  fix go (l : list (string * pyval)) (n : nat) :=
    match l with
    | [] => ([], [], [], [], n)
    | (k, x) :: l' =>
        if policy cfg (p ++ [Key k])
        then
          let d := {| d_salt := draw n; d_key := Some k; d_value := x |} in
          let '(plain, sd, ds, dcs, n') := go l' (S n) in
          (plain, digest d :: sd, d :: ds, dcs, n')
        else
          let o := rec (p ++ [Key k]) x n in
          let '(plain, sd, ds, dcs, n') := go l' (i_next o) in
          ((k, i_tree o) :: plain, sd,
           i_disclosures o ++ ds, i_decoys o ++ dcs, n')
    end.

(** Modelled from the spec: the Issuer's traversal (section 4.2).  A
    selected claim is replaced as a whole: its Disclosure carries the
    claim's value, a fresh salt is drawn for it, and the traversal goes
    on in the claims that stay plain.  Decoys come after the real
    placeholders of the object or array they are placed in. *)
Fixpoint issue_value (p : path) (v : pyval) (n : nat) : issued :=
  match v with
  | PyList xs =>
      let '(ts, ds, dcs, n1) := issue_items_with issue_value p 0 xs n in
      let (decoys, n2) := make_decoys (decoys_at p) n1 in
      {| i_tree := PArr (ts ++ map PHole decoys);
         i_disclosures := ds;
         i_decoys := dcs ++ decoys;
         i_next := n2 |}
  | PyDict kvs =>
      let '(plain, sd, ds, dcs, n1) := issue_members_with issue_value p kvs n in
      let (decoys, n2) := make_decoys (decoys_at p) n1 in
      {| i_tree := PObj plain (sd ++ decoys);
         i_disclosures := ds;
         i_decoys := dcs ++ decoys;
         i_next := n2 |}
  | _ => {| i_tree := PVal v; i_disclosures := []; i_decoys := []; i_next := n |}
  end.

Definition issue_items := issue_items_with issue_value.
Definition issue_members := issue_members_with issue_value.

(** Modelled from the spec: the final payload (section 4.2): registered
    claims, then plain claims, then placeholders.  The registered claims
    [iss], [iat] and [exp] are carried as they are. *)
Definition issue_claims (claims : dict) : issued :=
  let reg := filter (fun kv => registered (fst kv)) claims in
  let rest := filter (fun kv => negb (registered (fst kv))) claims in
  let '(plain, sd, ds, dcs, n1) := issue_members [] rest 0 in
  let (decoys, n2) := make_decoys (decoys_at []) n1 in
  {| i_tree := PObj (map (fun kv => (fst kv, PVal (snd kv))) reg ++ plain)
                    (sd ++ decoys);
     i_disclosures := ds;
     i_decoys := dcs ++ decoys;
     i_next := n2 |}.
End Issuer.

(** Modelled from the spec: the Issuer Engine (section 4.2): issue the
    claims, embed the digest-algorithm identifier and the Holder's public
    key when one is given, sign, and combine with the Disclosures. *)
Definition spec_issuer (unsafe : bool) (claims : dict) (ik : jwk)
           (hk : option jwk) (add_decoy_claims : pyval) : result issuer_obj :=
  let o := issue_claims unsafe (truthy add_decoy_claims) claims in
  let payload := {| p_claims := i_tree o;
                    p_sd_alg := sd_alg cfg;
                    p_cnf := option_map (pub_of P) hk |} in
  let signed := {| jws_alg := sign_alg cfg;
                   jws_body := BodySD payload;
                   jws_sig := sign P ik (BodySD payload) |} in
  Ok {| sd_jwt_payload := payload;
        serialized_sd_jwt := signed;
        combined_sd_jwt_iid := {| c_sd_jwt := signed;
                                  c_disclosures := i_disclosures o;
                                  c_hb_jwt := None |};
        decoy_digests := i_decoys o;
        ii_disclosures := i_disclosures o |}.

(** Modelled from the spec: the Holder Engine's parse (section 4.3): the
    Signed Object and the full Disclosure set, keyed by digest; the
    signature is not checked here. *)
Definition spec_holder (artifact : combined) : result holder_obj :=
  let index := map (fun d => (digest d, d)) (c_disclosures artifact) in
  Ok {| h_sd_jwt := c_sd_jwt artifact;
        _hash_to_decoded_disclosure := index;
        _hash_to_disclosure := index;
        holder_binding_jwt_payload := None;
        serialized_holder_binding_jwt := None;
        combined_presentation := None |}.

Definition or_none (o : option pyval) : pyval :=
  match o with
  | Some v => v
  | None => PyNone
  end.

(** Modelled from the spec: [create_presentation] (section 4.3): keep the
    Disclosures that match the selection, in issuance order; when the
    credential carries the Holder's key, sign a Holder-Binding Object over
    nonce, audience and issued-at, which needs the Holder's key. *)
Definition spec_create_presentation (h : holder_obj) (disclosed : pyval)
           (nonce aud : option pyval) (hk : option jwk) : result holder_obj :=
  let selected :=
    filter (fun d => matches_selection cfg disclosed (d_key d) (d_value d))
           (map snd (_hash_to_decoded_disclosure h)) in
  match jws_body (h_sd_jwt h) with
  | BodyHB _ => Raise (EngineError EncodingError)
  | BodySD payload =>
      match p_cnf payload with
      | None =>
          Ok {| h_sd_jwt := h_sd_jwt h;
                _hash_to_decoded_disclosure := _hash_to_decoded_disclosure h;
                _hash_to_disclosure := _hash_to_disclosure h;
                holder_binding_jwt_payload := None;
                serialized_holder_binding_jwt := None;
                combined_presentation :=
                  Some {| c_sd_jwt := h_sd_jwt h;
                          c_disclosures := selected;
                          c_hb_jwt := None |} |}
      | Some _ =>
          match hk with
          | None => Raise (EngineError MissingBindingKeyError)
          | Some k =>
              let body := {| hb_nonce := or_none nonce;
                             hb_aud := or_none aud;
                             hb_iat := hb_time P |} in
              let signed := {| jws_alg := sign_alg cfg;
                               jws_body := BodyHB body;
                               jws_sig := sign P k (BodyHB body) |} in
              Ok {| h_sd_jwt := h_sd_jwt h;
                    _hash_to_decoded_disclosure := _hash_to_decoded_disclosure h;
                    _hash_to_disclosure := _hash_to_disclosure h;
                    holder_binding_jwt_payload := Some body;
                    serialized_holder_binding_jwt := Some signed;
                    combined_presentation :=
                      Some {| c_sd_jwt := h_sd_jwt h;
                              c_disclosures := selected;
                              c_hb_jwt := Some signed |} |}
          end
      end
  end.

Section Verifier.
Variable index : digest_index.

(** The elements of a payload array: a placeholder with an entry in the
    index yields the disclosed element, one without yields nothing. *)
Definition resolve_items_with (rec : ptree -> result pyval)
  : list ptree -> result (list pyval) :=
  fix go (l : list ptree) :=
    match l with
    | [] => Ok []
    | PHole d :: r =>
        match dict_get d index with
        | Some disc =>
            match d_key disc with
            | None => (rest <- go r ;; Ok (d_value disc :: rest))%py
            | Some _ => Raise (EngineError EncodingError)
            end
        | None => go r
        end
    | t :: r => (v <- rec t ;; rest <- go r ;; Ok (v :: rest))%py
    end.

Definition resolve_members_with (rec : ptree -> result pyval)
  : list (string * ptree) -> result (list (string * pyval)) :=
  fix go (l : list (string * ptree)) :=
    match l with
    | [] => Ok []
    | (k, t) :: r => (v <- rec t ;; rest <- go r ;; Ok ((k, v) :: rest))%py
    end.

(** The placeholder list of an object: each digest with an entry in the
    index yields the member it discloses. *)
Fixpoint resolve_sd (sd : list string) : result (list (string * pyval)) :=
  match sd with
  | [] => Ok []
  | d :: r =>
      match dict_get d index with
      | Some disc =>
          match d_key disc with
          | Some k => (rest <- resolve_sd r ;; Ok ((k, d_value disc) :: rest))%py
          | None => Raise (EngineError EncodingError)
          end
      | None => resolve_sd r
      end
  end.

(** Modelled from the spec: the Verifier's walk (section 4.4, step 5):
    every placeholder that the index resolves is replaced by the
    Disclosure's value; a placeholder without an entry (a claim the
    Holder withheld, or a decoy) contributes nothing, as the scenario of
    section 8 with a withheld [family_name] requires. *)
Fixpoint resolve (t : ptree) : result pyval :=
  match t with
  | PVal v => Ok v
  | PHole _ => Raise (EngineError EncodingError)
  | PArr items =>
      (xs <- resolve_items_with resolve items ;; Ok (PyList xs))%py
  | PObj plain sd =>
      (members <- resolve_members_with resolve plain ;;
       disclosed <- resolve_sd sd ;;
       Ok (PyDict (dict_update members disclosed)))%py
  end.

Definition resolve_items := resolve_items_with resolve.
Definition resolve_members := resolve_members_with resolve.
End Verifier.

(** Every placeholder of a payload tree, decoys included. *)
Fixpoint placeholders (t : ptree) : list string :=
  match t with
  | PVal _ => []
  | PHole d => [d]
  | PArr items => flat_map placeholders items
  | PObj plain sd => flat_map (fun kt => placeholders (snd kt)) plain ++ sd
  end.

(** The [iss] claim of a payload that is not verified yet; [None] when
    there is none. *)
Definition unverified_issuer (t : ptree) : pyval :=
  match t with
  | PObj plain _ =>
      match dict_get "iss" plain with
      | Some (PVal v) => v
      | _ => PyNone
      end
  | _ => PyNone
  end.

Definition is_some {A : Type} (o : option A) : bool :=
  match o with Some _ => true | None => false end.

(** Step 6 of the Verifier: the Holder-Binding Object, when there is one
    or when the caller's expected audience or nonce asks for one. *)
Definition check_holder_binding (payload : sd_payload) (hb : option jws)
           (expected_aud expected_nonce : option pyval) : result unit :=
  match hb with
  | None =>
      if is_some expected_aud || is_some expected_nonce
      then Raise (EngineError MissingBindingError)
      else Ok tt
  | Some signed =>
      match p_cnf payload, jws_body signed with
      | Some hpk, BodyHB body =>
          if sig_verify P hpk (BodyHB body) (jws_sig signed)
             && py_eq (hb_nonce body) (or_none expected_nonce)
             && py_eq (hb_aud body) (or_none expected_aud)
             && hb_fresh P (hb_iat body)
          then Ok tt
          else Raise (EngineError HolderBindingError)
      | _, _ => Raise (EngineError HolderBindingError)
      end
  end.

(** Modelled from the spec: the Verifier Engine (section 4.4), steps 1 to
    6 in order.  A Disclosure whose digest is no placeholder of the payload
    is rejected with [UnresolvedDigestError]. *)
Definition spec_verifier (presentation : combined) (cb : pyval -> result jwk)
           (expected_aud expected_nonce : option pyval) : result verifier_obj :=
  let signed := c_sd_jwt presentation in
  match jws_body signed with
  | BodyHB _ => Raise (EngineError EncodingError)
  | BodySD payload =>
      (issuer_pk <- cb (unverified_issuer (p_claims payload)) ;;
       if negb (sig_verify P issuer_pk (BodySD payload) (jws_sig signed))
       then Raise (EngineError InvalidSignatureError)
       else
         match temporal_check P (p_claims payload) with
         | Some e => Raise (EngineError e)
         | None =>
             index <- build_index (c_disclosures presentation) ;;
             claims <- resolve index (p_claims payload) ;;
             if negb (forallb
                        (fun entry =>
                           existsb (String.eqb (fst entry))
                                   (placeholders (p_claims payload)))
                        index)
             then Raise (EngineError UnresolvedDigestError)
             else
               _ <- check_holder_binding payload (c_hb_jwt presentation)
                      expected_aud expected_nonce ;;
               Ok {| verified_claims := claims |}
         end)%py
  end.

Definition spec_get_verified_payload (v : verifier_obj) : result pyval :=
  Ok (verified_claims v).

(** The engines in place of those of [tools], whose key, YAML and
    formatting helpers are kept. *)
Definition with_spec_engines (tools : Library) : Library :=
  {| get_jwk := get_jwk tools;
     load_yaml_example := load_yaml_example tools;
     SDJWTIssuer := spec_issuer;
     SDJWTHolder := spec_holder;
     create_presentation := spec_create_presentation;
     SDJWTVerifier := spec_verifier;
     get_verified_payload := spec_get_verified_payload;
     format_for_example := format_for_example tools;
     format_for_testcase := format_for_testcase tools;
     markdown_disclosures := markdown_disclosures tools;
     markdown_decoy_digests := markdown_decoy_digests tools |}.

(** *** What a presentation discloses

    The claim set a Verifier is expected to hand back for claims [v] when
    the Holder's selection is [disclosed]: plain claims stay, a selectively
    disclosable claim stays when its Disclosure matches the selection and
    is absent otherwise. *)
Section View.
Variable disclosed : pyval.

Definition view_items_with (rec : path -> pyval -> pyval) (p : path)
  : nat -> list pyval -> list pyval :=
  fix go (i : nat) (l : list pyval) :=
    match l with
    | [] => []
    | x :: r =>
        if policy cfg (p ++ [Idx i])
        then if matches_selection cfg disclosed None x
             then x :: go (S i) r
             else go (S i) r
        else rec (p ++ [Idx i]) x :: go (S i) r
    end.

Definition view_plain_with (rec : path -> pyval -> pyval) (p : path)
  : list (string * pyval) -> list (string * pyval) :=
  fix go (l : list (string * pyval)) :=
    match l with
    | [] => []
    | (k, x) :: r =>
        if policy cfg (p ++ [Key k])
        then go r
        else (k, rec (p ++ [Key k]) x) :: go r
    end.

Fixpoint view_disclosed (p : path) (l : list (string * pyval))
  : list (string * pyval) :=
  match l with
  | [] => []
  | (k, x) :: r =>
      if policy cfg (p ++ [Key k]) && matches_selection cfg disclosed (Some k) x
      then (k, x) :: view_disclosed p r
      else view_disclosed p r
  end.

Fixpoint view (p : path) (v : pyval) : pyval :=
  match v with
  | PyList xs => PyList (view_items_with view p 0 xs)
  | PyDict kvs =>
      PyDict (dict_update (view_plain_with view p kvs) (view_disclosed p kvs))
  | _ => v
  end.

Definition view_items := view_items_with view.
Definition view_plain := view_plain_with view.

Definition view_claims (claims : dict) : pyval :=
  let reg := filter (fun kv => registered (fst kv)) claims in
  let rest := filter (fun kv => negb (registered (fst kv))) claims in
  PyDict (dict_update (reg ++ view_plain [] rest) (view_disclosed [] rest)).
End View.
End Engines.

(* ================================================================== *)
(** ** The engine calls of a run *)
(* ================================================================== *)

Section Trace.
Variable lib : Library.
Variable settings : pyval.
Variable testcase : dict.
Variable keys : demo_keys.
Variable claims : dict.

(** The Holder's key, handed over only when the test case asks for holder
    binding. *)
Definition binding_key : option jwk :=
  if truthy (get_or_false testcase "holder_binding")
  then Some (holder_key keys)
  else None.

Definition issuer_call : call :=
  IssuerCall true claims (issuer_key keys) binding_key
             (get_or_false testcase "add_decoy_claims").

(** The engine calls a run can have made, by how far it got.  Each call is
    listed with the arguments it received and, for the calls before it, the
    results they returned. *)
Inductive pipeline_trace : list call -> Prop :=
| reached_issuer :
    pipeline_trace [issuer_call]
| reached_holder io :
    SDJWTIssuer lib true claims (issuer_key keys) binding_key
                (get_or_false testcase "add_decoy_claims") = Ok io ->
    pipeline_trace [issuer_call; HolderCall (combined_sd_jwt_iid io)]
| reached_presentation io h disclosed nonce aud :
    SDJWTIssuer lib true claims (issuer_key keys) binding_key
                (get_or_false testcase "add_decoy_claims") = Ok io ->
    SDJWTHolder lib (combined_sd_jwt_iid io) = Ok h ->
    py_getitem (PyDict testcase) "holder_disclosed_claims" = Ok disclosed ->
    if_holder_binding testcase (py_getitem settings "holder_binding_nonce")
      = Ok nonce ->
    if_holder_binding testcase (verifier_id settings) = Ok aud ->
    pipeline_trace [issuer_call; HolderCall (combined_sd_jwt_iid io);
                    PresentationCall disclosed nonce aud binding_key]
| reached_verifier io h disclosed nonce aud h' presentation :
    SDJWTIssuer lib true claims (issuer_key keys) binding_key
                (get_or_false testcase "add_decoy_claims") = Ok io ->
    SDJWTHolder lib (combined_sd_jwt_iid io) = Ok h ->
    py_getitem (PyDict testcase) "holder_disclosed_claims" = Ok disclosed ->
    if_holder_binding testcase (py_getitem settings "holder_binding_nonce")
      = Ok nonce ->
    if_holder_binding testcase (verifier_id settings) = Ok aud ->
    create_presentation lib h disclosed nonce aud binding_key = Ok h' ->
    combined_presentation h' = Some presentation ->
    pipeline_trace [issuer_call; HolderCall (combined_sd_jwt_iid io);
                    PresentationCall disclosed nonce aud binding_key;
                    VerifierCall presentation (cb_get_issuer_key claims keys)
                                 aud nonce].

(** Lines 46-88 as a whole: what they end with, the verified claim set or
    the exception that stopped them, against the engine calls made.  Every
    stage is named with the value it received from the stage before, and a
    stage is left out only when the one before it raised. *)
Inductive pipeline_run : result pyval -> list call -> Prop :=
| issuer_raised e :
    SDJWTIssuer lib true claims (issuer_key keys) binding_key
                (get_or_false testcase "add_decoy_claims") = Raise e ->
    pipeline_run (Raise e) [issuer_call]
| holder_raised io e :
    SDJWTIssuer lib true claims (issuer_key keys) binding_key
                (get_or_false testcase "add_decoy_claims") = Ok io ->
    SDJWTHolder lib (combined_sd_jwt_iid io) = Raise e ->
    pipeline_run (Raise e) [issuer_call; HolderCall (combined_sd_jwt_iid io)]
| arguments_raised io h e :
    SDJWTIssuer lib true claims (issuer_key keys) binding_key
                (get_or_false testcase "add_decoy_claims") = Ok io ->
    SDJWTHolder lib (combined_sd_jwt_iid io) = Ok h ->
    (disclosed <- py_getitem (PyDict testcase) "holder_disclosed_claims" ;;
     nonce <- if_holder_binding testcase
                (py_getitem settings "holder_binding_nonce") ;;
     aud <- if_holder_binding testcase (verifier_id settings) ;;
     Ok (disclosed, nonce, aud)) = Raise e ->
    pipeline_run (Raise e) [issuer_call; HolderCall (combined_sd_jwt_iid io)]
| presentation_raised io h disclosed nonce aud e :
    SDJWTIssuer lib true claims (issuer_key keys) binding_key
                (get_or_false testcase "add_decoy_claims") = Ok io ->
    SDJWTHolder lib (combined_sd_jwt_iid io) = Ok h ->
    py_getitem (PyDict testcase) "holder_disclosed_claims" = Ok disclosed ->
    if_holder_binding testcase (py_getitem settings "holder_binding_nonce")
      = Ok nonce ->
    if_holder_binding testcase (verifier_id settings) = Ok aud ->
    (h' <- create_presentation lib h disclosed nonce aud binding_key ;;
     attr "combined_presentation" (combined_presentation h')) = Raise e ->
    pipeline_run (Raise e)
                 [issuer_call; HolderCall (combined_sd_jwt_iid io);
                  PresentationCall disclosed nonce aud binding_key]
| verifier_raised io h disclosed nonce aud h' presentation e :
    SDJWTIssuer lib true claims (issuer_key keys) binding_key
                (get_or_false testcase "add_decoy_claims") = Ok io ->
    SDJWTHolder lib (combined_sd_jwt_iid io) = Ok h ->
    py_getitem (PyDict testcase) "holder_disclosed_claims" = Ok disclosed ->
    if_holder_binding testcase (py_getitem settings "holder_binding_nonce")
      = Ok nonce ->
    if_holder_binding testcase (verifier_id settings) = Ok aud ->
    create_presentation lib h disclosed nonce aud binding_key = Ok h' ->
    combined_presentation h' = Some presentation ->
    (v <- SDJWTVerifier lib presentation (cb_get_issuer_key claims keys)
            aud nonce ;;
     get_verified_payload lib v) = Raise e ->
    pipeline_run (Raise e)
                 [issuer_call; HolderCall (combined_sd_jwt_iid io);
                  PresentationCall disclosed nonce aud binding_key;
                  VerifierCall presentation (cb_get_issuer_key claims keys)
                               aud nonce]
| verifier_returned io h disclosed nonce aud h' presentation v verified :
    SDJWTIssuer lib true claims (issuer_key keys) binding_key
                (get_or_false testcase "add_decoy_claims") = Ok io ->
    SDJWTHolder lib (combined_sd_jwt_iid io) = Ok h ->
    py_getitem (PyDict testcase) "holder_disclosed_claims" = Ok disclosed ->
    if_holder_binding testcase (py_getitem settings "holder_binding_nonce")
      = Ok nonce ->
    if_holder_binding testcase (verifier_id settings) = Ok aud ->
    create_presentation lib h disclosed nonce aud binding_key = Ok h' ->
    combined_presentation h' = Some presentation ->
    SDJWTVerifier lib presentation (cb_get_issuer_key claims keys) aud nonce
      = Ok v ->
    get_verified_payload lib v = Ok verified ->
    pipeline_run (Ok verified)
                 [issuer_call; HolderCall (combined_sd_jwt_iid io);
                  PresentationCall disclosed nonce aud binding_key;
                  VerifierCall presentation (cb_get_issuer_key claims keys)
                               aud nonce].

(** The files the write loop leaves, from those it found. *)
Fixpoint store_artifacts (output_dir : fpath) (type : string)
         (items : list (string * artifact_item)) (fs : list (fpath * string))
  : list (fpath * string) :=
  match items with
  | [] => fs
  | (key, ItemNone) :: rest => store_artifacts output_dir type rest fs
  | (key, ItemTuple data _ ftype) :: rest =>
      store_artifacts output_dir type rest
        (store_file (output_dir ++ [(key ++ "." ++ ftype)%string])
                    (formatter lib type data ftype) fs)
  end.

(** A run that went through: every stage with the value it produced. *)
Record completed (testcase_path : fpath) (type : string) (w w' : world)
  : Prop := {
  run_jwk : exists seed key_settings,
      py_getitem settings "random_seed" = Ok seed
      /\ py_getitem settings "key_settings" = Ok key_settings
      /\ get_jwk lib key_settings true seed = Ok keys;
  run_testcase : load_yaml_example lib testcase_path = Ok testcase;
  run_claims : claims_of settings testcase = Ok claims;
  run_stages : exists io h disclosed nonce aud h' presentation v verified items,
      SDJWTIssuer lib true claims (issuer_key keys) binding_key
                  (get_or_false testcase "add_decoy_claims") = Ok io
      /\ SDJWTHolder lib (combined_sd_jwt_iid io) = Ok h
      /\ py_getitem (PyDict testcase) "holder_disclosed_claims" = Ok disclosed
      /\ if_holder_binding testcase (py_getitem settings "holder_binding_nonce")
         = Ok nonce
      /\ if_holder_binding testcase (verifier_id settings) = Ok aud
      /\ create_presentation lib h disclosed nonce aud binding_key = Ok h'
      /\ combined_presentation h' = Some presentation
      /\ SDJWTVerifier lib presentation (cb_get_issuer_key claims keys) aud nonce
         = Ok v
      /\ get_verified_payload lib v = Ok verified
      /\ _artifacts lib testcase type io h' presentation verified = Ok items
      /\ existsb (fpath_eqb (parent testcase_path)) (directories w) = true
      /\ w' = {| unsafe_randomness := true;
                 directories := directories w;
                 files := store_artifacts (parent testcase_path) type items
                                          (files w);
                 calls := calls w ++
                          [issuer_call; HolderCall (combined_sd_jwt_iid io);
                           PresentationCall disclosed nonce aud binding_key;
                           VerifierCall presentation
                                        (cb_get_issuer_key claims keys)
                                        aud nonce] |}
}.
End Trace.

(* ================================================================== *)
(** ** Standing assumptions on the primitives *)
(* ================================================================== *)

(** What the engines rely on from the services they call into: salts are
    fresh, digests over different salts differ, a signature verifies under
    the matching public key, and verification happens inside the validity
    window and while the Holder's binding is fresh. *)
Record PrimitivesOk (P : Primitives) : Prop := {
  fresh_salts :
    forall unsafe i j, random_stream P unsafe i = random_stream P unsafe j -> i = j;
  collision_free :
    forall s k v s' k' v', digest_of P s k v = digest_of P s' k' v' -> s = s';
  signatures_verify :
    forall k body, sig_verify P (pub_of P k) body (sign P k body) = true;
  within_validity :
    forall t, temporal_check P t = None;
  binding_fresh :
    hb_fresh P (hb_time P) = true
}.

Section Bookkeeping.
Variable P : Primitives.
Variable cfg : Config.

(** The Holder's choice on one Disclosure. *)
Definition selected (disclosed : pyval) (d : disclosure) : bool :=
  matches_selection cfg disclosed (d_key d) (d_value d).

(** An index that holds exactly the selected Disclosures of [ds], each
    under its digest, and nothing under the decoys [dcs]. *)
Definition agrees (disclosed : pyval) (index : digest_index)
           (ds : list disclosure) (dcs : list string) : Prop :=
  (forall d, In d ds ->
             dict_get (digest P d) index
             = if selected disclosed d then Some d else None)
  /\ (forall x, In x dcs -> dict_get x index = None).

(** Every digest of [l] was computed over a salt drawn at a position in
    [n, n'). *)
Definition stamped (unsafe : bool) (n n' : nat) (l : list string) : Prop :=
  forall x, In x l ->
            exists i k v, n <= i < n' /\ x = digest_of P (draw P unsafe i) k v.

(** The digests an issuance generated: real ones, then decoys. *)
Definition generated (ds : list disclosure) (dcs : list string) : list string :=
  map (digest P) ds ++ dcs.
End Bookkeeping.

(** Digests generated from position [n] up to [n'], without repetition. *)
Definition wellgen (P : Primitives) (unsafe : bool) (n n' : nat) (l : list string)
  : Prop :=
  n <= n' /\ stamped P unsafe n n' l /\ NoDup l.

(** A plain top-level claim of a payload, by name. *)
Definition payload_claim (p : sd_payload) (k : string) : option ptree :=
  match p_claims p with
  | PObj plain _ => dict_get k plain
  | _ => None
  end.

(** The three engines in sequence, from claims to verified claims. *)
Definition issue_present_verify (P : Primitives) (cfg : Config) (unsafe : bool)
           (claims : dict) (ik : jwk) (hk : option jwk)
           (add_decoy_claims disclosed : pyval) (nonce aud : option pyval)
           (cb : pyval -> result jwk) : result pyval :=
  io <- spec_issuer P cfg unsafe claims ik hk add_decoy_claims ;;
  h <- spec_holder P (combined_sd_jwt_iid io) ;;
  h' <- spec_create_presentation P cfg h disclosed nonce aud hk ;;
  presentation <- attr "combined_presentation" (combined_presentation h') ;;
  v <- spec_verifier P presentation cb aud nonce ;;
  spec_get_verified_payload v.

(** A call that carries nothing of holder binding: no Holder key, no nonce,
    no audience. *)
Definition binding_free (c : call) : Prop :=
  match c with
  | IssuerCall _ _ _ hk _ => hk = None
  | HolderCall _ => True
  | PresentationCall _ nonce aud hk => nonce = None /\ aud = None /\ hk = None
  | VerifierCall _ _ expected_aud expected_nonce =>
      expected_aud = None /\ expected_nonce = None
  end.

(* ================================================================== *)
(** ** The claims as the specification words them *)
(* ================================================================== *)

(** The registered claims always carry the values of the settings: the
    wording of the specification for the claim set handed to the Issuer. *)
Definition registered_claims_from_settings : Prop :=
  forall (settings : pyval) (testcase claims : dict) (identifiers issuer iat exp : pyval),
    claims_of settings testcase = Ok claims ->
    py_getitem settings "identifiers" = Ok identifiers ->
    py_getitem identifiers "issuer" = Ok issuer ->
    py_getitem settings "iat" = Ok iat ->
    py_getitem settings "exp" = Ok exp ->
    dict_get "iss" claims = Some issuer
    /\ dict_get "iat" claims = Some iat
    /\ dict_get "exp" claims = Some exp.

(** No process-wide flag is touched: a run leaves the class attribute as it
    found it. *)
Definition no_process_wide_state : Prop :=
  forall (lib : Library) (settings : pyval) (testcase_path : fpath) (type : string)
         (w w' : world) (r : result unit),
    generate_test_case_data lib settings testcase_path type w = (r, w') ->
    unsafe_randomness w' = unsafe_randomness w.

(* ================================================================== *)
(** ** A small instance to run the definitions on *)
(* ================================================================== *)

Module Demo.
Fixpoint unary (n : nat) : string :=
  match n with
  | O => EmptyString
  | S m => String "a"%char (unary m)
  end.

(** Salts count in unary, a digest is its salt behind a hash sign, and a
    signature is the signing key. *)
Definition primitives : Primitives :=
  {| random_stream := fun unsafe n => String (if unsafe then "u" else "r")%char (unary n);
     digest_of := fun salt _ _ => String "#"%char salt;
     pub_of := fun k => k;
     sign := fun k _ => k;
     sig_verify := fun pk _ s => String.eqb pk s;
     temporal_check := fun _ => None;
     hb_time := 0%Z;
     hb_fresh := fun _ => true |}.

Definition step_eqb (a b : step) : bool :=
  match a, b with
  | Key x, Key y => String.eqb x y
  | Idx i, Idx j => Nat.eqb i j
  | _, _ => false
  end.

Fixpoint path_eqb (p q : path) : bool :=
  match p, q with
  | [], [] => true
  | a :: p', b :: q' => step_eqb a b && path_eqb p' q'
  | _, _ => false
  end.

(** [given_name], [family_name] and the second nationality are selectively
    disclosable; two decoys at the top, one in every array and nested
    object. *)
Definition config : Config :=
  {| sd_alg := "sha-256";
     sign_alg := "ES256";
     policy := fun p =>
                 existsb (path_eqb p)
                         [[Key "given_name"]; [Key "family_name"];
                          [Key "nationalities"; Idx 1]];
     decoy_count := fun p => match p with [] => 2 | _ => 1 end;
     matches_selection := fun disclosed k _ =>
                            match k, disclosed with
                            | Some name, PyDict d => truthy (get_or_false d name)
                            | _, _ => true
                            end |}.

(** A selection that every Disclosure matches. *)
Definition everything : Config :=
  {| sd_alg := sd_alg config;
     sign_alg := sign_alg config;
     policy := policy config;
     decoy_count := decoy_count config;
     matches_selection := fun _ _ _ => true |}.

Definition keys : demo_keys :=
  {| issuer_key := "issuer-key";
     holder_key := "holder-key";
     issuer_public_key := "issuer-key" |}.

Definition settings : pyval :=
  PyDict [("random_seed", PyInt 0);
          ("key_settings", PyDict [("key_size", PyInt 256)]);
          ("identifiers", PyDict [("issuer", PyStr "https://example.com/issuer");
                                  ("verifier", PyStr "https://example.com/verifier")]);
          ("iat", PyInt 1683000000);
          ("exp", PyInt 1883000000);
          ("holder_binding_nonce", PyStr "1234567890")].

Definition user_claims : dict :=
  [("sub", PyStr "u1");
   ("given_name", PyStr "Alice");
   ("family_name", PyStr "Doe");
   ("nationalities", PyList [PyStr "US"; PyStr "DE"])].

(** Without holder binding, with decoys, [given_name] disclosed. *)
Definition testcase : dict :=
  [("user_claims", PyDict user_claims);
   ("holder_disclosed_claims", PyDict [("given_name", PyBool true)]);
   ("add_decoy_claims", PyBool true)].

(** With holder binding, and an [iss] of the test case's own. *)
Definition testcase_own_iss : dict :=
  [("user_claims", PyDict (("iss", PyStr "https://other.example") :: user_claims));
   ("holder_disclosed_claims", PyDict [("given_name", PyBool true)]);
   ("holder_binding", PyBool true)].

Definition tools_for (tc : dict) : Library :=
  {| get_jwk := fun _ _ _ => Ok keys;
     load_yaml_example := fun _ => Ok tc;
     SDJWTIssuer := fun _ _ _ _ _ => Raise (EngineError SigningError);
     SDJWTHolder := fun _ => Raise (EngineError EncodingError);
     create_presentation := fun _ _ _ _ _ => Raise (EngineError EncodingError);
     SDJWTVerifier := fun _ _ _ _ => Raise (EngineError EncodingError);
     get_verified_payload := fun _ => Raise (EngineError EncodingError);
     format_for_example := fun _ ftype => ftype;
     format_for_testcase := fun _ ftype => ftype;
     markdown_disclosures := fun _ _ => "disclosures";
     markdown_decoy_digests := fun _ => "decoys" |}.

Definition library (tc : dict) : Library :=
  with_spec_engines primitives config (tools_for tc).

Definition testcase_path : fpath := ["testcases"; "demo"; "specification.yml"].

(** A fresh process: the flag is off, the output directory exists. *)
Definition start : world :=
  {| unsafe_randomness := false;
     directories := [["testcases"; "demo"]];
     files := [];
     calls := [] |}.

Definition claims : dict :=
  [("iss", PyStr "https://example.com/issuer");
   ("iat", PyInt 1683000000);
   ("exp", PyInt 1883000000)] ++ user_claims.

(** The scenario of the specification, section 8: [given_name] and
    [family_name] are disclosable and the Holder discloses the first. *)
Definition scenario_claims : dict :=
  [("iss", PyStr "issuer1");
   ("sub", PyStr "u1");
   ("given_name", PyStr "Alice");
   ("family_name", PyStr "Doe")].

Definition scenario_selection : pyval := PyDict [("given_name", PyBool true)].

(** A callback that knows [issuer1] under the given key. *)
Definition scenario_cb (known : jwk) (issuer : pyval) : result jwk :=
  if py_eq issuer (PyStr "issuer1")
  then Ok known
  else Raise (Exception "Unknown issuer: " issuer).

(** The scenario's presentation, and the same with the salt of its one
    Disclosure altered. *)
Definition scenario_presentation : result combined :=
  (io <- spec_issuer primitives config true scenario_claims "issuer-key" None
                     (PyBool true) ;;
   h <- spec_holder primitives (combined_sd_jwt_iid io) ;;
   h' <- spec_create_presentation primitives config h scenario_selection
                                  None None None ;;
   attr "combined_presentation" (combined_presentation h'))%py.

Definition alter_salt (d : disclosure) : disclosure :=
  {| d_salt := String "x"%char (d_salt d);
     d_key := d_key d;
     d_value := d_value d |}.

Definition tampered (c : combined) : combined :=
  {| c_sd_jwt := c_sd_jwt c;
     c_disclosures := map alter_salt (c_disclosures c);
     c_hb_jwt := c_hb_jwt c |}.
End Demo.

(** The files an [_artifacts] dictionary stands for: name and content, in
    the order the loop writes them. *)
Fixpoint files_of (lib : Library) (type : string)
         (items : list (string * artifact_item)) : list (string * string) :=
  match items with
  | [] => []
  | (key, ItemNone) :: rest => files_of lib type rest
  | (key, ItemTuple data _ ftype) :: rest =>
      ((key ++ "." ++ ftype)%string, formatter lib type data ftype)
        :: files_of lib type rest
  end.


(* ================================================================== *)
(** ** The command-line block and the loop over test cases *)
(* ================================================================== *)

(** What the main block takes from outside the script: [load_yaml_settings]
    of the package, and the matches of [basedir.glob("*/specification.yml")]
    as the file system lists them. *)
Record Host : Type := {
  load_yaml_settings : fpath -> result pyval;
  glob_specifications : world -> fpath -> list fpath
}.

(** [args] as [parser.parse_args()] returns it: the type, which the parser
    restricts to [testcase] and [example], and the directory names. *)
Record arguments : Type := {
  arg_type : string;
  arg_directories : list string
}.

(** The pieces of a path string between slashes. *)
Fixpoint components (s : string) : list string :=
  match s with
  | EmptyString => [EmptyString]
  | String c r =>
      if Ascii.eqb c "/"
      then EmptyString :: components r
      else match components r with
           | [] => [String c EmptyString]
           | x :: xs => String c x :: xs
           end
  end.

(** The components [pathlib] keeps: empty pieces and single dots go. *)
Definition path_parts (s : string) : fpath :=
  filter (fun c => negb (String.eqb c "" || String.eqb c ".")) (components s).

Definition is_absolute (s : string) : bool :=
  match s with
  | String c _ => Ascii.eqb c "/"
  | EmptyString => false
  end.

(** The root of an absolute path string: exactly two leading slashes are
    kept as they are, any other number is one root. *)
Definition root_of (s : string) : fpath :=
  match s with
  | String a (String b EmptyString) =>
      if Ascii.eqb a "/" && Ascii.eqb b "/" then [""; ""] else [""]
  | String a (String b (String c _)) =>
      if Ascii.eqb a "/" && Ascii.eqb b "/" && negb (Ascii.eqb c "/")
      then [""; ""] else [""]
  | _ => [""]
  end.

(** [base / s]: an absolute [s] replaces [base], root included. *)
Definition join_path (base : fpath) (s : string) : fpath :=
  if is_absolute s then root_of s ++ path_parts s else base ++ path_parts s.

(** A path without [..], so that its components name the directories it
    goes through. *)
Definition no_dotdot (p : fpath) : bool := negb (existsb (String.eqb "..") p).

(** [Path.exists]: a directory or a file. *)
Definition path_exists (p : fpath) : M bool :=
  fun w => (Ok (existsb (fpath_eqb p) (directories w)
                || is_some (read_file p (files w))), w).

(** Lines 221-224: the test case files, from the directories given on the
    command line or, without any, from the glob. *)
Definition case_paths (host : Host) (basedir : fpath) (args : arguments)
           (w : world) : list fpath :=
  match arg_directories args with
  | [] => glob_specifications host w basedir
  | ds => map (fun d => join_path basedir d ++ ["specification.yml"]) ds
  end.

(** Lines 229-231: [generate_test_case_data] on each test case file in turn;
    an exception ends the loop. *)
Fixpoint run_cases (lib : Library) (settings : pyval) (type : string)
         (cases : list fpath) : M unit :=
  match cases with
  | [] => ret tt
  | case_path :: rest =>
      generate_test_case_data lib settings case_path type ;;;
      run_cases lib settings type rest
  end.

(** Lines 215-231: the main block after argument parsing, run in the
    directory [basedir]. *)
Definition main (lib : Library) (host : Host) (basedir : fpath)
           (args : arguments) : M unit :=
  let settings_file := basedir ++ ["settings.yml"] in
  found <~ path_exists settings_file ;;
  if negb found
  then lift (Raise (SystemExit ("Settings file '" ++ show_fpath settings_file
                                  ++ "' does not exist.")%string))
  else
    fun w =>
      (settings <~ lift (load_yaml_settings host settings_file) ;;
       run_cases lib settings (arg_type args) (case_paths host basedir args w)) w.

(* ================================================================== *)
(** ** Vocabulary for statements about runs *)
(* ================================================================== *)

(** The same process state with the class attribute at another value. *)
Definition with_flag (b : bool) (w : world) : world :=
  {| unsafe_randomness := b;
     directories := directories w;
     files := files w;
     calls := calls w |}.

(** The names of the files a run writes, in the order it writes them. *)
Definition artifact_file_names (type : string) (use_decoys : bool) : list string :=
  ["user_claims.json"; "sd_jwt_payload.json"; "sd_jwt_serialized.txt";
   "combined_issuance.txt"; "hb_jwt_payload.json"; "hb_jwt_serialized.txt";
   "combined_presentation.txt"; "verified_contents.json"]
    ++ (if String.eqb type "example" then ["disclosures.md"] else [])
    ++ (if use_decoys
        then [if String.eqb type "example"
              then "decoy_digests.md" else "decoy_digests.json"]
        else []).

(** The stages of a run before the first engine call went through: keys,
    test case and claims. *)
Definition prepared (lib : Library) (settings : pyval) (testcase_path : fpath)
           (keys : demo_keys) (testcase claims : dict) : Prop :=
  (exists seed key_settings,
      py_getitem settings "random_seed" = Ok seed
      /\ py_getitem settings "key_settings" = Ok key_settings
      /\ get_jwk lib key_settings true seed = Ok keys)
  /\ load_yaml_example lib testcase_path = Ok testcase
  /\ claims_of settings testcase = Ok claims.

(** The Holder of a run after [create_presentation]: the object that call
    returned, on the Holder built from the [combined_sd_jwt_iid] of the
    Issuer the run constructed. *)
Definition presented (lib : Library) (settings : pyval) (testcase_path : fpath)
           (testcase : dict) (sdjwt_at_holder : holder_obj) : Prop :=
  exists keys claims io h disclosed nonce aud,
    prepared lib settings testcase_path keys testcase claims
    /\ SDJWTIssuer lib true claims (issuer_key keys) (binding_key testcase keys)
                   (get_or_false testcase "add_decoy_claims") = Ok io
    /\ SDJWTHolder lib (combined_sd_jwt_iid io) = Ok h
    /\ py_getitem (PyDict testcase) "holder_disclosed_claims" = Ok disclosed
    /\ if_holder_binding testcase (py_getitem settings "holder_binding_nonce")
       = Ok nonce
    /\ if_holder_binding testcase (verifier_id settings) = Ok aud
    /\ create_presentation lib h disclosed nonce aud (binding_key testcase keys)
       = Ok sdjwt_at_holder.

(** Membership in a list of keys. *)
Definition key_in (ks : list string) (k : string) : bool :=
  existsb (String.eqb k) ks.

Module DemoRuns.
(** A test case file without [user_claims], and one without
    [holder_disclosed_claims]. *)
Definition testcase_no_claims : dict :=
  [("holder_disclosed_claims", PyDict [("given_name", PyBool true)])].

Definition testcase_no_selection : dict :=
  [("user_claims", PyDict Demo.user_claims)].

(** The engines of the small instance with a Verifier that rejects. *)
Definition rejecting (tc : dict) : Library :=
  {| get_jwk := get_jwk (Demo.library tc);
     load_yaml_example := load_yaml_example (Demo.library tc);
     SDJWTIssuer := SDJWTIssuer (Demo.library tc);
     SDJWTHolder := SDJWTHolder (Demo.library tc);
     create_presentation := create_presentation (Demo.library tc);
     SDJWTVerifier := fun _ _ _ _ => Raise (EngineError InvalidSignatureError);
     get_verified_payload := get_verified_payload (Demo.library tc);
     format_for_example := format_for_example (Demo.library tc);
     format_for_testcase := format_for_testcase (Demo.library tc);
     markdown_disclosures := markdown_disclosures (Demo.library tc);
     markdown_decoy_digests := markdown_decoy_digests (Demo.library tc) |}.

(** The engines of the small instance over test case files by path: the
    one in [work/a] is complete, any other lacks [user_claims]. *)
Definition by_path : Library :=
  {| get_jwk := get_jwk (Demo.library Demo.testcase);
     load_yaml_example :=
       fun p => if fpath_eqb p ["work"; "a"; "specification.yml"]
                then Ok Demo.testcase
                else Ok testcase_no_claims;
     SDJWTIssuer := SDJWTIssuer (Demo.library Demo.testcase);
     SDJWTHolder := SDJWTHolder (Demo.library Demo.testcase);
     create_presentation := create_presentation (Demo.library Demo.testcase);
     SDJWTVerifier := SDJWTVerifier (Demo.library Demo.testcase);
     get_verified_payload := get_verified_payload (Demo.library Demo.testcase);
     format_for_example := format_for_example (Demo.library Demo.testcase);
     format_for_testcase := format_for_testcase (Demo.library Demo.testcase);
     markdown_disclosures := markdown_disclosures (Demo.library Demo.testcase);
     markdown_decoy_digests := markdown_decoy_digests (Demo.library Demo.testcase) |}.

(** The settings of the small instance without the nonce. *)
Definition settings_without_nonce : pyval :=
  PyDict [("random_seed", PyInt 0);
          ("key_settings", PyDict [("key_size", PyInt 256)]);
          ("identifiers", PyDict [("issuer", PyStr "https://example.com/issuer");
                                  ("verifier", PyStr "https://example.com/verifier")]);
          ("iat", PyInt 1683000000);
          ("exp", PyInt 1883000000)].

(** A working directory with a settings file and two test case
    directories. *)
Definition basedir : fpath := ["work"].

Definition host : Host :=
  {| load_yaml_settings := fun _ => Ok Demo.settings;
     glob_specifications := fun _ base =>
                              [base ++ ["a"; "specification.yml"];
                               base ++ ["b"; "specification.yml"]] |}.

Definition start : world :=
  {| unsafe_randomness := false;
     directories := [["work"]; ["work"; "a"]; ["work"; "b"]];
     files := [(["work"; "settings.yml"], "settings");
               (["work"; "notes.txt"], "keep me")];
     calls := [] |}.

(** The same without the settings file. *)
Definition start_without_settings : world :=
  {| unsafe_randomness := false;
     directories := [["work"]; ["work"; "a"]];
     files := [(["work"; "notes.txt"], "keep me")];
     calls := [] |}.
(** A process state without the directory of the small instance's test
    case file. *)
Definition start_without_directory : world :=
  {| unsafe_randomness := false;
     directories := [["elsewhere"]];
     files := [(["elsewhere"; "notes.txt"], "keep me")];
     calls := [] |}.

End DemoRuns.

(* ================================================================== *)
(** ** Dictionaries: lookups after [dict_set] and [dict_update] *)
(* ================================================================== *)

Section AssocFacts.
Context {V : Type}.
Implicit Types (d e : list (string * V)) (k : string) (v : V).

Lemma dict_get_set_same k v d : dict_get k (dict_set k v d) = Some v.
Proof.
  induction d as [|[k' v'] r IH]; simpl.
  - now rewrite String.eqb_refl.
  - destruct (String.eqb k k') eqn:E; simpl; rewrite E; auto.
Qed.

Lemma dict_get_set_other k k' v d :
  k <> k' -> dict_get k (dict_set k' v d) = dict_get k d.
Proof.
  intros Hne. induction d as [|[k0 v0] r IH]; simpl.
  - apply String.eqb_neq in Hne. now rewrite Hne.
  - destruct (String.eqb k' k0) eqn:E; simpl.
    + apply String.eqb_eq in E. subst k0.
      apply String.eqb_neq in Hne. now rewrite Hne.
    + now rewrite IH.
Qed.

Lemma dict_get_set k k' v d :
  dict_get k (dict_set k' v d)
  = if String.eqb k k' then Some v else dict_get k d.
Proof.
  destruct (String.eqb k k') eqn:E.
  - apply String.eqb_eq in E. subst. apply dict_get_set_same.
  - apply String.eqb_neq in E. now apply dict_get_set_other.
Qed.

Lemma dict_get_not_in k d : ~ In k (map fst d) -> dict_get k d = None.
Proof.
  induction d as [|[k' v'] r IH]; simpl; intros H; auto.
  destruct (String.eqb k k') eqn:E.
  - apply String.eqb_eq in E. subst. tauto.
  - apply IH. tauto.
Qed.

Lemma dict_get_in k v d :
  NoDup (map fst d) -> In (k, v) d -> dict_get k d = Some v.
Proof.
  induction d as [|[k' v'] r IH]; simpl; intros Hnd Hin; [tauto|].
  inversion Hnd as [|? ? Hnotin Hnd']; subst.
  destruct Hin as [Heq|Hin].
  - inversion Heq; subst. now rewrite String.eqb_refl.
  - destruct (String.eqb k k') eqn:E.
    + apply String.eqb_eq in E. subst k'.
      exfalso. apply Hnotin. change k with (fst (k, v)). now apply in_map.
    + auto.
Qed.

Lemma dict_get_some_in k v d : dict_get k d = Some v -> In (k, v) d.
Proof.
  induction d as [|[k' v'] r IH]; simpl; intros H; [discriminate|].
  destruct (String.eqb k k') eqn:E.
  - apply String.eqb_eq in E. inversion H; subst. now left.
  - right. auto.
Qed.

Lemma dict_set_keys_in k k' v d :
  In k (map fst (dict_set k' v d)) <-> k = k' \/ In k (map fst d).
Proof.
  induction d as [|[k0 v0] r IH]; simpl.
  - intuition.
  - destruct (String.eqb k' k0) eqn:E; simpl.
    + apply String.eqb_eq in E. subst. intuition.
    + rewrite IH. intuition.
Qed.

(** [d.update(e)] on a key: the entry of [e] when it has one, the old
    entry otherwise. *)
Lemma dict_get_update k d e :
  NoDup (map fst e) ->
  dict_get k (dict_update d e)
  = match dict_get k e with
    | Some v => Some v
    | None => dict_get k d
    end.
Proof.
  unfold dict_update. revert d.
  induction e as [|[k' v'] r IH]; simpl; intros d Hnd; auto.
  inversion Hnd as [|? ? Hnotin Hnd']; subst.
  rewrite IH by assumption.
  destruct (String.eqb k k') eqn:E.
  - apply String.eqb_eq in E. subst k'.
    rewrite (dict_get_not_in k r Hnotin). apply dict_get_set_same.
  - destruct (dict_get k r); auto.
    apply dict_get_set_other. now apply String.eqb_neq.
Qed.

Lemma dict_get_app k d e :
  dict_get k (d ++ e)
  = match dict_get k d with
    | Some v => Some v
    | None => dict_get k e
    end.
Proof.
  induction d as [|[k' v'] r IH]; simpl; auto.
  now destruct (String.eqb k k').
Qed.

(** [d.update(e)] on a key, whatever [e] repeats: the last entry of [e]
    under the key when it has one, the old entry otherwise. *)
Lemma dict_get_update_last k d e :
  dict_get k (dict_update d e)
  = match dict_get k (rev e) with
    | Some v => Some v
    | None => dict_get k d
    end.
Proof.
  unfold dict_update. revert d.
  induction e as [|[k' v'] r IH]; simpl; intros d; auto.
  rewrite IH, dict_get_app.
  destruct (dict_get k (rev r)); auto.
  simpl. rewrite dict_get_set. now destruct (String.eqb k k').
Qed.

Lemma dict_set_fresh k v d :
  ~ In k (map fst d) -> dict_set k v d = d ++ [(k, v)].
Proof.
  induction d as [|[k' v'] r IH]; simpl; intros H; auto.
  destruct (String.eqb k k') eqn:E.
  - apply String.eqb_eq in E. subst. tauto.
  - rewrite IH by tauto. reflexivity.
Qed.

(** Updating with entries under new, distinct keys appends them. *)
Lemma dict_update_fresh d e :
  NoDup (map fst e) ->
  (forall k, In k (map fst e) -> ~ In k (map fst d)) ->
  dict_update d e = d ++ e.
Proof.
  unfold dict_update. revert d.
  induction e as [|[k v] r IH]; simpl; intros d Hnd Hdisj.
  - now rewrite app_nil_r.
  - inversion Hnd as [|? ? Hnotin Hnd']; subst.
    rewrite dict_set_fresh by (apply Hdisj; now left).
    rewrite IH; auto.
    + now rewrite <- app_assoc.
    + intros k' Hin. rewrite map_app, in_app_iff. simpl.
      intros [H|[H|[]]].
      * apply (Hdisj k'); auto.
      * subst. tauto.
Qed.
End AssocFacts.

Lemma nodup_keys_NoDup ks : nodup_keys ks = true <-> NoDup ks.
Proof.
  induction ks as [|k r IH]; simpl.
  - split; [constructor|reflexivity].
  - rewrite andb_true_iff, negb_true_iff, IH. split.
    + intros [Hex Hnd]. constructor; auto.
      intros Hin. assert (existsb (String.eqb k) r = true) as E.
      { apply existsb_exists. exists k. split; auto. apply String.eqb_refl. }
      congruence.
    + intros H. inversion H as [|? ? Hnotin Hnd]; subst. split; auto.
      destruct (existsb (String.eqb k) r) eqn:E; auto.
      apply existsb_exists in E. destruct E as [x [Hin Hx]].
      apply String.eqb_eq in Hx. subst. tauto.
Qed.

(** On the values Python can hold, [==] is reflexive. *)
Lemma py_eq_refl v : wf_pyval v = true -> py_eq v v = true.
Proof.
  induction v as [| b | n | s | xs IH | kvs IH] using pyval_rect'; simpl; intros Hwf; auto.
  - apply Bool.eqb_reflx.
  - apply Z.eqb_refl.
  - apply String.eqb_refl.
  - induction xs as [|x r IHr]; auto.
    simpl in Hwf. apply andb_true_iff in Hwf. destruct Hwf as [Hx Hr].
    inversion IH; subst. rewrite H1 by assumption. simpl. auto.
  - apply andb_true_iff in Hwf. destruct Hwf as [Hnd Hall].
    apply nodup_keys_NoDup in Hnd.
    rewrite Nat.eqb_refl. simpl.
    apply forallb_forall. intros [k v] Hin. simpl.
    rewrite (dict_get_in k v kvs Hnd Hin).
    rewrite Forall_forall in IH. apply (IH (k, v) Hin).
    rewrite forallb_forall in Hall. apply (Hall (k, v) Hin).
Qed.

(* ================================================================== *)
(** ** Running the script *)
(* ================================================================== *)

Lemma if_holder_binding_key testcase keys :
  if_holder_binding testcase (Ok (holder_key keys))
  = Ok (binding_key testcase keys).
Proof.
  unfold if_holder_binding, binding_key.
  now destruct (truthy (get_or_false testcase "holder_binding")).
Qed.

Lemma write_artifacts_spec lib output_dir type items w :
  write_artifacts lib output_dir type items w
  = (Ok tt, {| unsafe_randomness := unsafe_randomness w;
               directories := directories w;
               files := store_artifacts lib output_dir type items (files w);
               calls := calls w |}).
Proof.
  revert w. induction items as [|[key item] rest IH]; intros w; simpl.
  - now destruct w.
  - destruct item as [|data desc ftype].
    + apply IH.
    + unfold bindM, write_file. simpl. now rewrite IH.
Qed.

(** A run that returns went through every stage. *)
Lemma run_ok_inv lib settings testcase_path type w w' :
  generate_test_case_data lib settings testcase_path type w = (Ok tt, w') ->
  exists testcase keys claims,
    completed lib settings testcase keys claims testcase_path type w w'.
Proof.
  unfold generate_test_case_data, bindM, lift. intros H.
  destruct (py_getitem settings "random_seed") as [seed|] eqn:Hseed; [|discriminate].
  destruct (py_getitem settings "key_settings") as [ks|] eqn:Hks; [|discriminate].
  destruct (get_jwk lib ks true seed) as [keys|] eqn:Hkeys; [|discriminate].
  destruct (load_yaml_example lib testcase_path) as [testcase|] eqn:Hload;
    [|discriminate].
  destruct (claims_of settings testcase) as [claims|] eqn:Hclaims; [|discriminate].
  unfold issue, present, verify, bindM, lift, set_unsafe_randomness in H.
  simpl in H. rewrite !if_holder_binding_key in H. simpl in H.
  destruct (SDJWTIssuer lib true claims (issuer_key keys)
              (binding_key testcase keys)
              (get_or_false testcase "add_decoy_claims")) as [io|] eqn:Hio;
    [|discriminate].
  destruct (SDJWTHolder lib (combined_sd_jwt_iid io)) as [h|] eqn:Hh;
    [|discriminate].
  simpl in H.
  destruct (match dict_get "holder_disclosed_claims" testcase with
            | Some x => Ok x
            | None => Raise (KeyError "holder_disclosed_claims")
            end) as [disclosed|] eqn:Hsel; [|discriminate].
  destruct (if_holder_binding testcase (py_getitem settings "holder_binding_nonce"))
    as [nonce|] eqn:Hnonce; [|discriminate].
  destruct (if_holder_binding testcase (verifier_id settings)) as [aud|] eqn:Haud;
    [|discriminate].
  simpl in H.
  destruct (create_presentation lib h disclosed nonce aud
              (binding_key testcase keys)) as [h'|] eqn:Hh'; [|discriminate].
  destruct (combined_presentation h') as [presentation|] eqn:Hpres;
    [|discriminate].
  simpl in H.
  destruct (SDJWTVerifier lib presentation (cb_get_issuer_key claims keys) aud nonce)
    as [v|] eqn:Hv; [|discriminate].
  simpl in H.
  destruct (get_verified_payload lib v) as [verified|] eqn:Hverified;
    [|discriminate].
  destruct (_artifacts lib testcase type io h' presentation verified)
    as [items|] eqn:Hitems; [|discriminate].
  unfold dir_exists in H. simpl in H.
  destruct (existsb (fpath_eqb (parent testcase_path)) (directories w)) eqn:Hdir;
    [|discriminate].
  rewrite write_artifacts_spec in H. simpl in H.
  exists testcase, keys, claims. constructor; auto.
  - exists seed, ks. auto.
  - exists io, h, disclosed, nonce, aud, h', presentation, v, verified, items.
    unfold record_call in H. simpl in H. rewrite <- !app_assoc in H. simpl in H.
    inversion H. unfold issuer_call. repeat split; auto.
Qed.

(* ================================================================== *)
(** ** The Verifier's walk over an issued tree *)
(* ================================================================== *)

Section WalkFacts.
Variable P : Primitives.
Variable cfg : Config.
Variable unsafe with_decoys : bool.
Variable disclosed : pyval.
Variable index : digest_index.

Let issue_value' := issue_value P cfg unsafe with_decoys.
Let issue_items' := issue_items P cfg unsafe with_decoys.
Let issue_members' := issue_members P cfg unsafe with_decoys.

Lemma issue_value_list p xs n :
  issue_value' p (PyList xs) n
  = let '(ts, ds, dcs, n1) := issue_items' p 0 xs n in
    let (decoys, n2) := make_decoys P unsafe (decoys_at cfg with_decoys p) n1 in
    {| i_tree := PArr (ts ++ map PHole decoys);
       i_disclosures := ds;
       i_decoys := dcs ++ decoys;
       i_next := n2 |}.
Proof. reflexivity. Qed.

Lemma issue_value_dict p kvs n :
  issue_value' p (PyDict kvs) n
  = let '(plain, sd, ds, dcs, n1) := issue_members' p kvs n in
    let (decoys, n2) := make_decoys P unsafe (decoys_at cfg with_decoys p) n1 in
    {| i_tree := PObj plain (sd ++ decoys);
       i_disclosures := ds;
       i_decoys := dcs ++ decoys;
       i_next := n2 |}.
Proof. reflexivity. Qed.

Lemma issue_items_cons p i x l n :
  issue_items' p i (x :: l) n
  = if policy cfg (p ++ [Idx i])
    then
      let d := {| d_salt := draw P unsafe n; d_key := None; d_value := x |} in
      let '(ts, ds, dcs, n') := issue_items' p (S i) l (S n) in
      (PHole (digest P d) :: ts, d :: ds, dcs, n')
    else
      let o := issue_value' (p ++ [Idx i]) x n in
      let '(ts, ds, dcs, n') := issue_items' p (S i) l (i_next o) in
      (i_tree o :: ts, i_disclosures o ++ ds, i_decoys o ++ dcs, n').
Proof. reflexivity. Qed.

Lemma issue_members_cons p k x l n :
  issue_members' p ((k, x) :: l) n
  = if policy cfg (p ++ [Key k])
    then
      let d := {| d_salt := draw P unsafe n; d_key := Some k; d_value := x |} in
      let '(plain, sd, ds, dcs, n') := issue_members' p l (S n) in
      (plain, digest P d :: sd, d :: ds, dcs, n')
    else
      let o := issue_value' (p ++ [Key k]) x n in
      let '(plain, sd, ds, dcs, n') := issue_members' p l (i_next o) in
      ((k, i_tree o) :: plain, sd,
       i_disclosures o ++ ds, i_decoys o ++ dcs, n').
Proof. reflexivity. Qed.

(** Issuing never leaves a bare placeholder at the root of a subtree. *)
Lemma issue_value_not_hole p v n d : i_tree (issue_value' p v n) <> PHole d.
Proof.
  destruct v; try (simpl; discriminate).
  - rewrite issue_value_list.
    destruct (issue_items' p 0 xs n) as [[[ts ds] dcs] n1].
    destruct (make_decoys P unsafe (decoys_at cfg with_decoys p) n1).
    simpl. discriminate.
  - rewrite issue_value_dict.
    destruct (issue_members' p kvs n) as [[[[plain sd] ds] dcs] n1].
    destruct (make_decoys P unsafe (decoys_at cfg with_decoys p) n1).
    simpl. discriminate.
Qed.

Lemma resolve_items_cons t r :
  (forall d, t <> PHole d) ->
  resolve_items index (t :: r)
  = (v <- resolve index t ;; rest <- resolve_items index r ;; Ok (v :: rest))%py.
Proof.
  intros Hnh. destruct t; try reflexivity. now destruct (Hnh d).
Qed.

Lemma resolve_items_hole d r :
  resolve_items index (PHole d :: r)
  = match dict_get d index with
    | Some disc =>
        match d_key disc with
        | None => (rest <- resolve_items index r ;; Ok (d_value disc :: rest))%py
        | Some _ => Raise (EngineError EncodingError)
        end
    | None => resolve_items index r
    end.
Proof. reflexivity. Qed.

(** Placeholders that the index does not know leave no element. *)
Lemma resolve_items_unknown ts dcs :
  (forall x, In x dcs -> dict_get x index = None) ->
  resolve_items index (ts ++ map PHole dcs) = resolve_items index ts.
Proof.
  intros Hnone. induction ts as [|t r IH]; simpl.
  - induction dcs as [|x dcs IH]; auto.
    simpl map. rewrite resolve_items_hole.
    rewrite (Hnone x) by now left.
    apply IH. intros y Hy. apply Hnone. now right.
  - destruct t; try (change (resolve_items index (?a :: ?b))
                       with (v <- resolve index a ;;
                             rest <- resolve_items index b ;; Ok (v :: rest))%py;
                     now rewrite IH).
Qed.

Lemma resolve_sd_unknown sd dcs :
  (forall x, In x dcs -> dict_get x index = None) ->
  resolve_sd index (sd ++ dcs) = resolve_sd index sd.
Proof.
  intros Hnone. induction sd as [|d r IH]; simpl.
  - induction dcs as [|x dcs IH]; auto.
    simpl. rewrite (Hnone x) by now left.
    apply IH. intros y Hy. apply Hnone. now right.
  - now rewrite IH.
Qed.

Lemma agrees_app ds1 dcs1 ds2 dcs2 :
  agrees P cfg disclosed index (ds1 ++ ds2) (dcs1 ++ dcs2) ->
  agrees P cfg disclosed index ds1 dcs1
  /\ agrees P cfg disclosed index ds2 dcs2.
Proof.
  intros [Hd Hx]. repeat split; intros; (apply Hd || apply Hx);
    apply in_or_app; auto.
Qed.

Lemma agrees_decoys ds dcs decoys :
  agrees P cfg disclosed index ds (dcs ++ decoys) ->
  agrees P cfg disclosed index ds dcs
  /\ (forall x, In x decoys -> dict_get x index = None).
Proof.
  intros [Hd Hx]. repeat split; auto; intros; apply Hx; apply in_or_app; auto.
Qed.

(** What the walk must return on one issued subtree. *)
Let walks (v : pyval) : Prop :=
  forall p n,
    agrees P cfg disclosed index
           (i_disclosures (issue_value' p v n)) (i_decoys (issue_value' p v n)) ->
    resolve index (i_tree (issue_value' p v n)) = Ok (view cfg disclosed p v).

Lemma resolve_issue_items xs :
  Forall walks xs ->
  forall p i n ts ds dcs n',
    issue_items' p i xs n = (ts, ds, dcs, n') ->
    agrees P cfg disclosed index ds dcs ->
    resolve_items index ts = Ok (view_items cfg disclosed p i xs).
Proof.
  induction xs as [|x l IHl]; intros IH p i n ts ds dcs n' E Hag.
  - inversion E; subst. reflexivity.
  - inversion IH as [|? ? Hx Hl]; subst.
    rewrite issue_items_cons in E.
    unfold view_items. simpl. fold (view_items cfg disclosed).
    destruct (policy cfg (p ++ [Idx i])).
    + simpl in E.
      destruct (issue_items' p (S i) l (S n)) as [[[ts0 ds0] dcs0] n0] eqn:E0.
      inversion E; subst. rewrite resolve_items_hole.
      destruct Hag as [Hd Hx'].
      rewrite (Hd _ (or_introl eq_refl)). unfold selected. simpl.
      assert (agrees P cfg disclosed index ds0 dcs) as Hag0.
      { split; intros; [apply Hd; now right|now apply Hx']. }
      rewrite (IHl Hl _ _ _ _ _ _ _ E0 Hag0).
      destruct (matches_selection cfg disclosed None x); reflexivity.
    + simpl in E.
      destruct (issue_items' p (S i) l
                  (i_next (issue_value' (p ++ [Idx i]) x n)))
        as [[[ts0 ds0] dcs0] n0] eqn:E0.
      inversion E; subst.
      apply agrees_app in Hag. destruct Hag as [Hag1 Hag2].
      rewrite resolve_items_cons by (intros d; apply issue_value_not_hole).
      rewrite (Hx _ _ Hag1). simpl.
      rewrite (IHl Hl _ _ _ _ _ _ _ E0 Hag2). reflexivity.
Qed.

Lemma resolve_issue_members kvs :
  Forall (fun kv => walks (snd kv)) kvs ->
  forall p n plain sd ds dcs n',
    issue_members' p kvs n = (plain, sd, ds, dcs, n') ->
    agrees P cfg disclosed index ds dcs ->
    resolve_members index plain = Ok (view_plain cfg disclosed p kvs)
    /\ resolve_sd index sd = Ok (view_disclosed cfg disclosed p kvs).
Proof.
  induction kvs as [|[k x] l IHl]; intros IH p n plain sd ds dcs n' E Hag.
  - inversion E; subst. split; reflexivity.
  - inversion IH as [|? ? Hx Hl]; subst. simpl in Hx.
    rewrite issue_members_cons in E.
    unfold view_plain. simpl. fold (view_plain cfg disclosed).
    destruct (policy cfg (p ++ [Key k])).
    + simpl in E.
      destruct (issue_members' p l (S n)) as [[[[pl0 sd0] ds0] dcs0] n0] eqn:E0.
      inversion E; subst.
      destruct Hag as [Hd Hx'].
      assert (agrees P cfg disclosed index ds0 dcs) as Hag0.
      { split; intros; [apply Hd; now right|now apply Hx']. }
      destruct (IHl Hl _ _ _ _ _ _ _ E0 Hag0) as [Hp Hs].
      split; auto. simpl.
      rewrite (Hd _ (or_introl eq_refl)). unfold selected. simpl.
      rewrite Hs.
      destruct (matches_selection cfg disclosed (Some k) x); reflexivity.
    + simpl in E.
      destruct (issue_members' p l
                  (i_next (issue_value' (p ++ [Key k]) x n)))
        as [[[[pl0 sd0] ds0] dcs0] n0] eqn:E0.
      inversion E; subst.
      apply agrees_app in Hag. destruct Hag as [Hag1 Hag2].
      destruct (IHl Hl _ _ _ _ _ _ _ E0 Hag2) as [Hp Hs].
      split; auto.
      change (resolve_members index ((k, ?t) :: ?r))
        with (v <- resolve index t ;;
              rest <- resolve_members index r ;; Ok ((k, v) :: rest))%py.
      rewrite (Hx _ _ Hag1). simpl. rewrite Hp. reflexivity.
Qed.

(** The walk over an issued subtree returns what the presentation
    discloses of it, whenever the index agrees with the issuance. *)
Lemma resolve_issue_value v : walks v.
Proof.
  induction v as [| b | z | s | xs IH | kvs IH] using pyval_rect';
    intros p n Hag; try reflexivity.
  - rewrite issue_value_list in *.
    destruct (issue_items' p 0 xs n) as [[[ts ds] dcs] n1] eqn:E.
    destruct (make_decoys P unsafe (decoys_at cfg with_decoys p) n1)
      as [decoys n2].
    simpl in *. apply agrees_decoys in Hag.
    destruct Hag as [Hag1 Hdec].
    fold (resolve_items index (ts ++ map PHole decoys)).
    rewrite resolve_items_unknown by assumption.
    rewrite (resolve_issue_items xs IH _ _ _ _ _ _ _ E Hag1). reflexivity.
  - rewrite issue_value_dict in *.
    destruct (issue_members' p kvs n) as [[[[plain sd] ds] dcs] n1] eqn:E.
    destruct (make_decoys P unsafe (decoys_at cfg with_decoys p) n1)
      as [decoys n2].
    simpl in *. apply agrees_decoys in Hag.
    destruct Hag as [Hag1 Hdec].
    destruct (resolve_issue_members kvs IH _ _ _ _ _ _ _ E Hag1) as [Hp Hs].
    fold (resolve_members index plain). rewrite Hp. simpl.
    rewrite resolve_sd_unknown by assumption.
    rewrite Hs. reflexivity.
Qed.

Lemma resolve_members_verbatim (reg : list (string * pyval)) plain members :
  resolve_members index plain = Ok members ->
  resolve_members index (map (fun kv => (fst kv, PVal (snd kv))) reg ++ plain)
  = Ok (reg ++ members).
Proof.
  intros H. induction reg as [|[k v] r IH]; simpl; auto.
  change (resolve_members_with (resolve index) ?l)
    with (resolve_members index l).
  rewrite IH. reflexivity.
Qed.

(** The walk over issued claims returns what the presentation discloses. *)
Lemma resolve_issue_claims claims :
  agrees P cfg disclosed index
         (i_disclosures (issue_claims P cfg unsafe with_decoys claims))
         (i_decoys (issue_claims P cfg unsafe with_decoys claims)) ->
  resolve index (i_tree (issue_claims P cfg unsafe with_decoys claims))
  = Ok (view_claims cfg disclosed claims).
Proof.
  unfold issue_claims, view_claims.
  set (reg := filter (fun kv => registered (fst kv)) claims).
  set (rest := filter (fun kv => negb (registered (fst kv))) claims).
  fold issue_members'.
  destruct (issue_members' [] rest 0) as [[[[plain sd] ds] dcs] n1] eqn:E.
  destruct (make_decoys P unsafe (decoys_at cfg with_decoys []) n1)
    as [decoys n2].
  simpl. intros Hag. apply agrees_decoys in Hag. destruct Hag as [Hag1 Hdec].
  assert (Forall (fun kv => walks (snd kv)) rest) as Hall.
  { apply Forall_forall. intros kv _. apply resolve_issue_value. }
  destruct (resolve_issue_members rest Hall _ _ _ _ _ _ _ E Hag1) as [Hp Hs].
  fold (resolve_members index
          (map (fun kv => (fst kv, PVal (snd kv))) reg ++ plain)).
  rewrite (resolve_members_verbatim reg plain _ Hp). simpl.
  rewrite resolve_sd_unknown by assumption.
  rewrite Hs. reflexivity.
Qed.
End WalkFacts.

(* ================================================================== *)
(** ** The digests of an issuance are pairwise distinct *)
(* ================================================================== *)

Section GenerationFacts.
Variable P : Primitives.
Variable cfg : Config.
Variable unsafe with_decoys : bool.
Hypothesis Hok : PrimitivesOk P.

Let issue_value' := issue_value P cfg unsafe with_decoys.
Let issue_items' := issue_items P cfg unsafe with_decoys.
Let issue_members' := issue_members P cfg unsafe with_decoys.

Lemma digest_draw_inj i j k v k' v' :
  digest_of P (draw P unsafe i) k v = digest_of P (draw P unsafe j) k' v' ->
  i = j.
Proof.
  intros H. apply (collision_free P Hok) in H.
  now apply (fresh_salts P Hok) in H.
Qed.

Lemma wellgen_nil n : wellgen P unsafe n n [].
Proof.
  repeat split; auto. - intros x []. - constructor.
Qed.

Lemma wellgen_one n k v :
  wellgen P unsafe n (S n) [digest_of P (draw P unsafe n) k v].
Proof.
  repeat split; auto.
  - intros x [<-|[]]. exists n, k, v. split; [lia|reflexivity].
  - constructor; [intros []|constructor].
Qed.

Lemma wellgen_widen n m m' n' l :
  n <= m -> m' <= n' -> wellgen P unsafe m m' l -> wellgen P unsafe n n' l.
Proof.
  intros H1 H2 (Hle & Hst & Hnd). repeat split; auto; [lia|].
  intros x Hx. destruct (Hst x Hx) as (i & k & v & Hi & E).
  exists i, k, v. split; [lia|assumption].
Qed.

Lemma wellgen_app n m n' l1 l2 :
  wellgen P unsafe n m l1 -> wellgen P unsafe m n' l2 ->
  wellgen P unsafe n n' (l1 ++ l2).
Proof.
  intros (Hle1 & Hst1 & Hnd1) (Hle2 & Hst2 & Hnd2). repeat split; [lia| |].
  - intros x Hx. apply in_app_or in Hx. destruct Hx as [Hx|Hx].
    + destruct (Hst1 x Hx) as (i & k & v & Hi & E).
      exists i, k, v. split; [lia|assumption].
    + destruct (Hst2 x Hx) as (i & k & v & Hi & E).
      exists i, k, v. split; [lia|assumption].
  - apply NoDup_app; auto.
    intros x Hx1 Hx2.
    destruct (Hst1 x Hx1) as (i & k & v & Hi & E1).
    destruct (Hst2 x Hx2) as (j & k' & v' & Hj & E2).
    rewrite E1 in E2. apply digest_draw_inj in E2. lia.
Qed.

Lemma wellgen_perm n n' l l' :
  Permutation l l' -> wellgen P unsafe n n' l -> wellgen P unsafe n n' l'.
Proof.
  intros Hp (Hle & Hst & Hnd). repeat split; auto.
  - intros x Hx. apply Hst. apply Permutation_sym in Hp.
    now apply (Permutation_in _ Hp).
  - now apply (Permutation_NoDup Hp).
Qed.

Lemma generated_app ds1 dcs1 ds2 dcs2 :
  Permutation (generated P ds1 dcs1 ++ generated P ds2 dcs2)
              (generated P (ds1 ++ ds2) (dcs1 ++ dcs2)).
Proof.
  unfold generated. rewrite map_app, <- !app_assoc.
  apply Permutation_app_head.
  rewrite !app_assoc. apply Permutation_app_tail. apply Permutation_app_comm.
Qed.

Lemma make_decoys_wellgen count :
  forall n decoys n',
    make_decoys P unsafe count n = (decoys, n') ->
    wellgen P unsafe n n' decoys.
Proof.
  induction count as [|c IH]; intros n decoys n' E; simpl in E.
  - inversion E; subst. apply wellgen_nil.
  - destruct (make_decoys P unsafe c (S (S n))) as [r m] eqn:Er.
    inversion E; subst.
    change (?d :: r) with ([d] ++ r).
    apply wellgen_app with (m := S (S n)).
    + apply wellgen_widen with (m := n) (m' := S n); auto.
      apply wellgen_one.
    + now apply IH.
Qed.

(** Issuing a subtree draws fresh salts for all it generates. *)
Lemma issue_value_wellgen v :
  forall p n,
    wellgen P unsafe n (i_next (issue_value' p v n))
            (generated P (i_disclosures (issue_value' p v n))
                         (i_decoys (issue_value' p v n))).
Proof.
  induction v as [| b | z | s | xs IH | kvs IH] using pyval_rect';
    intros p n; try apply wellgen_nil.
  - unfold issue_value'. rewrite issue_value_list.
    assert (forall i n ts ds dcs n',
               issue_items' p i xs n = (ts, ds, dcs, n') ->
               wellgen P unsafe n n' (generated P ds dcs)) as Hitems.
    { clear n. induction xs as [|x l IHl]; intros i n ts ds dcs n' E.
      - inversion E; subst. apply wellgen_nil.
      - inversion IH as [|? ? Hx Hl]; subst.
        unfold issue_items' in E. rewrite issue_items_cons in E.
        destruct (policy cfg (p ++ [Idx i])); simpl in E.
        + destruct (issue_items P cfg unsafe with_decoys p (S i) l (S n))
            as [[[ts0 ds0] dcs0] n0] eqn:E0.
          inversion E; subst. unfold generated. simpl.
          change (?d :: ?r) with ([d] ++ r).
          apply wellgen_app with (m := S n); [apply wellgen_one|].
          apply (IHl Hl _ _ _ _ _ _ E0).
        + destruct (issue_items P cfg unsafe with_decoys p (S i) l
                      (i_next (issue_value P cfg unsafe with_decoys
                                 (p ++ [Idx i]) x n)))
            as [[[ts0 ds0] dcs0] n0] eqn:E0.
          inversion E; subst.
          eapply wellgen_perm; [apply generated_app|].
          eapply wellgen_app; [apply Hx|].
          apply (IHl Hl _ _ _ _ _ _ E0). }
    fold issue_items'.
    destruct (issue_items' p 0 xs n) as [[[ts ds] dcs] n1] eqn:E.
    destruct (make_decoys P unsafe (decoys_at cfg with_decoys p) n1)
      as [decoys n2] eqn:Ed.
    simpl. unfold generated. rewrite app_assoc.
    eapply wellgen_app; [apply (Hitems _ _ _ _ _ _ E)|].
    now apply make_decoys_wellgen with (count := decoys_at cfg with_decoys p).
  - unfold issue_value'. rewrite issue_value_dict.
    assert (forall n plain sd ds dcs n',
               issue_members' p kvs n = (plain, sd, ds, dcs, n') ->
               wellgen P unsafe n n' (generated P ds dcs)) as Hmembers.
    { clear n. induction kvs as [|[k x] l IHl]; intros n plain sd ds dcs n' E.
      - inversion E; subst. apply wellgen_nil.
      - inversion IH as [|? ? Hx Hl]; subst. simpl in Hx.
        unfold issue_members' in E. rewrite issue_members_cons in E.
        destruct (policy cfg (p ++ [Key k])); simpl in E.
        + destruct (issue_members P cfg unsafe with_decoys p l (S n))
            as [[[[pl0 sd0] ds0] dcs0] n0] eqn:E0.
          inversion E; subst. unfold generated. simpl.
          change (?d :: ?r) with ([d] ++ r).
          apply wellgen_app with (m := S n); [apply wellgen_one|].
          apply (IHl Hl _ _ _ _ _ _ E0).
        + destruct (issue_members P cfg unsafe with_decoys p l
                      (i_next (issue_value P cfg unsafe with_decoys
                                 (p ++ [Key k]) x n)))
            as [[[[pl0 sd0] ds0] dcs0] n0] eqn:E0.
          inversion E; subst.
          eapply wellgen_perm; [apply generated_app|].
          eapply wellgen_app; [apply Hx|].
          apply (IHl Hl _ _ _ _ _ _ E0). }
    fold issue_members'.
    destruct (issue_members' p kvs n) as [[[[plain sd] ds] dcs] n1] eqn:E.
    destruct (make_decoys P unsafe (decoys_at cfg with_decoys p) n1)
      as [decoys n2] eqn:Ed.
    simpl. unfold generated. rewrite app_assoc.
    eapply wellgen_app; [apply (Hmembers _ _ _ _ _ _ E)|].
    now apply make_decoys_wellgen with (count := decoys_at cfg with_decoys p).
Qed.
End GenerationFacts.

(* ================================================================== *)
(** ** Every Disclosure has its placeholder in the payload *)
(* ================================================================== *)

Section PlaceholderFacts.
Variable P : Primitives.
Variable cfg : Config.
Variable unsafe with_decoys : bool.

Let issue_value' := issue_value P cfg unsafe with_decoys.
Let issue_items' := issue_items P cfg unsafe with_decoys.
Let issue_members' := issue_members P cfg unsafe with_decoys.

Lemma issue_value_placeholders v :
  forall p n d,
    In d (i_disclosures (issue_value' p v n)) ->
    In (digest P d) (placeholders (i_tree (issue_value' p v n))).
Proof.
  induction v as [| b | z | s | xs IH | kvs IH] using pyval_rect';
    intros p n d; try (simpl; tauto).
  - unfold issue_value'. rewrite issue_value_list.
    assert (forall i n ts ds dcs n',
               issue_items' p i xs n = (ts, ds, dcs, n') ->
               forall d, In d ds -> In (digest P d) (flat_map placeholders ts))
      as Hitems.
    { clear n d. induction xs as [|x l IHl]; intros i n ts ds dcs n' E d Hd.
      - inversion E; subst. destruct Hd.
      - inversion IH as [|? ? Hx Hl]; subst.
        unfold issue_items' in E. rewrite issue_items_cons in E.
        destruct (policy cfg (p ++ [Idx i])); simpl in E.
        + destruct (issue_items P cfg unsafe with_decoys p (S i) l (S n))
            as [[[ts0 ds0] dcs0] n0] eqn:E0.
          inversion E; subst. simpl. destruct Hd as [<-|Hd]; [now left|].
          right. apply (IHl Hl _ _ _ _ _ _ E0 d Hd).
        + destruct (issue_items P cfg unsafe with_decoys p (S i) l
                      (i_next (issue_value P cfg unsafe with_decoys
                                 (p ++ [Idx i]) x n)))
            as [[[ts0 ds0] dcs0] n0] eqn:E0.
          inversion E; subst. simpl. apply in_or_app.
          apply in_app_or in Hd. destruct Hd as [Hd|Hd].
          * left. now apply Hx.
          * right. apply (IHl Hl _ _ _ _ _ _ E0 d Hd). }
    fold issue_items'.
    destruct (issue_items' p 0 xs n) as [[[ts ds] dcs] n1] eqn:E.
    destruct (make_decoys P unsafe (decoys_at cfg with_decoys p) n1)
      as [decoys n2].
    simpl. intros Hd. rewrite flat_map_app. apply in_or_app. left.
    apply (Hitems _ _ _ _ _ _ E d Hd).
  - unfold issue_value'. rewrite issue_value_dict.
    assert (forall n plain sd ds dcs n',
               issue_members' p kvs n = (plain, sd, ds, dcs, n') ->
               forall d, In d ds ->
                         In (digest P d)
                            (flat_map (fun kt => placeholders (snd kt)) plain ++ sd))
      as Hmembers.
    { clear n d. induction kvs as [|[k x] l IHl];
        intros n plain sd ds dcs n' E d Hd.
      - inversion E; subst. destruct Hd.
      - inversion IH as [|? ? Hx Hl]; subst. simpl in Hx.
        unfold issue_members' in E. rewrite issue_members_cons in E.
        destruct (policy cfg (p ++ [Key k])); simpl in E.
        + destruct (issue_members P cfg unsafe with_decoys p l (S n))
            as [[[[pl0 sd0] ds0] dcs0] n0] eqn:E0.
          inversion E; subst. apply in_or_app.
          destruct Hd as [<-|Hd]; [right; now left|].
          specialize (IHl Hl _ _ _ _ _ _ E0 d Hd).
          apply in_app_or in IHl. destruct IHl; [now left|right; now right].
        + destruct (issue_members P cfg unsafe with_decoys p l
                      (i_next (issue_value P cfg unsafe with_decoys
                                 (p ++ [Key k]) x n)))
            as [[[[pl0 sd0] ds0] dcs0] n0] eqn:E0.
          inversion E; subst. simpl. rewrite <- app_assoc. apply in_or_app.
          apply in_app_or in Hd. destruct Hd as [Hd|Hd].
          * left. now apply Hx.
          * right. apply (IHl Hl _ _ _ _ _ _ E0 d Hd). }
    fold issue_members'.
    destruct (issue_members' p kvs n) as [[[[plain sd] ds] dcs] n1] eqn:E.
    destruct (make_decoys P unsafe (decoys_at cfg with_decoys p) n1)
      as [decoys n2].
    simpl. intros Hd. rewrite app_assoc. apply in_or_app. left.
    apply (Hmembers _ _ _ _ _ _ E d Hd).
Qed.
End PlaceholderFacts.

(* ================================================================== *)
(** ** The index of a presentation *)
(* ================================================================== *)

Section IndexFacts.
Variable P : Primitives.
Variable keep : disclosure -> bool.

Let entry (d : disclosure) : string * disclosure := (digest P d, d).

Lemma index_miss x ds :
  ~ In x (map (digest P) ds) ->
  dict_get x (map entry (filter keep ds)) = None.
Proof.
  induction ds as [|d r IH]; simpl; intros Hx; auto.
  destruct (keep d); simpl; [|apply IH; tauto].
  destruct (String.eqb x (digest P d)) eqn:E.
  - apply String.eqb_eq in E. exfalso. apply Hx. now left.
  - apply IH. tauto.
Qed.

Lemma index_lookup d ds :
  NoDup (map (digest P) ds) -> In d ds ->
  dict_get (digest P d) (map entry (filter keep ds))
  = if keep d then Some d else None.
Proof.
  induction ds as [|d0 r IH]; simpl; intros Hnd Hin; [tauto|].
  inversion Hnd as [|? ? Hnotin Hnd']; subst.
  destruct Hin as [->|Hin].
  - destruct (keep d) eqn:Ek; simpl.
    + now rewrite String.eqb_refl.
    + now apply index_miss.
  - destruct (keep d0); simpl; auto.
    destruct (String.eqb (digest P d) (digest P d0)) eqn:E; auto.
    apply String.eqb_eq in E. exfalso. apply Hnotin. rewrite <- E.
    now apply in_map.
Qed.

Lemma filter_digests_NoDup ds :
  NoDup (map (digest P) ds) -> NoDup (map (digest P) (filter keep ds)).
Proof.
  induction ds as [|d r IH]; simpl; intros Hnd; auto.
  inversion Hnd as [|? ? Hnotin Hnd']; subst.
  destruct (keep d); simpl; auto.
  constructor; auto.
  intros Hin. apply Hnotin. apply in_map_iff in Hin.
  destruct Hin as (d' & E & Hin). apply filter_In in Hin.
  rewrite <- E. apply in_map. tauto.
Qed.

(** Without a repeated digest, [build_index] keeps every Disclosure. *)
Lemma build_index_ok ds :
  NoDup (map (digest P) ds) -> build_index P ds = Ok (map entry ds).
Proof.
  induction ds as [|d r IH]; simpl; intros Hnd; auto.
  inversion Hnd as [|? ? Hnotin Hnd']; subst.
  rewrite IH by assumption. simpl. unfold has_key.
  replace (map entry r) with (map entry (filter (fun _ => true) r)).
  - rewrite dict_get_not_in; auto.
    rewrite map_map. simpl.
    replace (filter (fun _ => true) r) with r; auto.
    clear. induction r; simpl; congruence.
  - f_equal. clear. induction r; simpl; congruence.
Qed.
End IndexFacts.

(* ================================================================== *)
(** ** Issued claims *)
(* ================================================================== *)

Section ClaimsFacts.
Variable P : Primitives.
Variable cfg : Config.
Variable unsafe with_decoys : bool.

Let rest_of (claims : dict) := filter (fun kv => negb (registered (fst kv))) claims.
Let reg_of (claims : dict) := filter (fun kv => registered (fst kv)) claims.

(** Issuing the claims is issuing the object of the claims that are not
    registered, with the registered ones put in front as they are. *)
Lemma issue_claims_as_value claims :
  let o := issue_value P cfg unsafe with_decoys [] (PyDict (rest_of claims)) 0 in
  let c := issue_claims P cfg unsafe with_decoys claims in
  i_disclosures c = i_disclosures o
  /\ i_decoys c = i_decoys o
  /\ i_next c = i_next o
  /\ exists plain sd,
      i_tree o = PObj plain sd
      /\ i_tree c
         = PObj (map (fun kv => (fst kv, PVal (snd kv))) (reg_of claims) ++ plain) sd
      /\ forall k, In k (map fst plain) -> In k (map fst (rest_of claims)).
Proof.
  unfold issue_claims. rewrite issue_value_dict.
  fold (rest_of claims). fold (reg_of claims).
  assert (forall l p n plain sd ds dcs n',
             issue_members P cfg unsafe with_decoys p l n
             = (plain, sd, ds, dcs, n') ->
             forall k, In k (map fst plain) -> In k (map fst l)) as Hkeys.
  { induction l as [|[k x] l IHl]; intros p n plain sd ds dcs n' E k0 Hk.
    - inversion E; subst. destruct Hk.
    - rewrite issue_members_cons in E.
      destruct (policy cfg (p ++ [Key k])); simpl in E.
      + destruct (issue_members P cfg unsafe with_decoys p l (S n))
          as [[[[pl0 sd0] ds0] dcs0] n0] eqn:E0.
        inversion E; subst. right. eapply IHl; eauto.
      + destruct (issue_members P cfg unsafe with_decoys p l
                    (i_next (issue_value P cfg unsafe with_decoys
                               (p ++ [Key k]) x n)))
          as [[[[pl0 sd0] ds0] dcs0] n0] eqn:E0.
        inversion E; subst. simpl in Hk. destruct Hk as [<-|Hk]; [now left|].
        right. eapply IHl; eauto. }
  destruct (issue_members P cfg unsafe with_decoys [] (rest_of claims) 0)
    as [[[[plain sd] ds] dcs] n1] eqn:E.
  destruct (make_decoys P unsafe (decoys_at cfg with_decoys []) n1)
    as [decoys n2].
  simpl. repeat split; auto.
  exists plain, (sd ++ decoys). repeat split; auto.
  eapply Hkeys; eauto.
Qed.

Lemma registered_get k (claims : dict) :
  registered k = true -> dict_get k (reg_of claims) = dict_get k claims.
Proof.
  intros Hk. unfold reg_of.
  induction claims as [|[k' v] r IH]; simpl; auto.
  destruct (registered k') eqn:Er; simpl.
  - destruct (String.eqb k k'); auto.
  - destruct (String.eqb k k') eqn:E; auto.
    apply String.eqb_eq in E. congruence.
Qed.

Lemma rest_keys_unregistered k (claims : dict) :
  In k (map fst (rest_of claims)) -> registered k = false.
Proof.
  unfold rest_of. intros H. apply in_map_iff in H.
  destruct H as ([k' v] & <- & Hin). apply filter_In in Hin.
  destruct Hin as [_ Hn]. simpl in *. now apply negb_true_iff.
Qed.

Lemma dict_get_app_verbatim k (reg : dict) (plain : list (string * ptree)) :
  dict_get k (map (fun kv => (fst kv, PVal (snd kv))) reg ++ plain)
  = match dict_get k reg with
    | Some v => Some (PVal v)
    | None => dict_get k plain
    end.
Proof.
  induction reg as [|[k' v] r IH]; simpl; auto.
  destruct (String.eqb k k'); auto.
Qed.

(** The issuer the Verifier reads off the payload is the [iss] claim. *)
Lemma unverified_issuer_issued claims :
  unverified_issuer (i_tree (issue_claims P cfg unsafe with_decoys claims))
  = get_or_none claims "iss".
Proof.
  destruct (issue_claims_as_value claims)
    as (_ & _ & _ & plain & sd & _ & -> & Hkeys).
  unfold unverified_issuer, get_or_none.
  rewrite dict_get_app_verbatim, registered_get by reflexivity.
  destruct (dict_get "iss" claims); auto.
  rewrite dict_get_not_in; auto.
  intros Hin. apply Hkeys in Hin. apply rest_keys_unregistered in Hin.
  discriminate.
Qed.

Lemma placeholders_verbatim (reg : dict) plain sd :
  placeholders (PObj (map (fun kv => (fst kv, PVal (snd kv))) reg ++ plain) sd)
  = placeholders (PObj plain sd).
Proof.
  simpl. f_equal. induction reg as [|[k v] r IH]; simpl; auto.
Qed.

Lemma issue_claims_placeholders claims d :
  In d (i_disclosures (issue_claims P cfg unsafe with_decoys claims)) ->
  In (digest P d)
     (placeholders (i_tree (issue_claims P cfg unsafe with_decoys claims))).
Proof.
  destruct (issue_claims_as_value claims)
    as (-> & _ & _ & plain & sd & Ho & -> & _).
  rewrite placeholders_verbatim, <- Ho.
  apply issue_value_placeholders.
Qed.

Lemma issue_claims_wellgen claims :
  PrimitivesOk P ->
  wellgen P unsafe 0 (i_next (issue_claims P cfg unsafe with_decoys claims))
          (generated P (i_disclosures (issue_claims P cfg unsafe with_decoys claims))
                       (i_decoys (issue_claims P cfg unsafe with_decoys claims))).
Proof.
  intros Hok.
  destruct (issue_claims_as_value claims) as (-> & -> & -> & _).
  now apply issue_value_wellgen.
Qed.
End ClaimsFacts.

(** The payload the Issuer signs carries the registered claims as they are
    in the claim set. *)
Lemma issued_registered_claims P cfg unsafe claims ik hk add_decoy_claims io k :
  spec_issuer P cfg unsafe claims ik hk add_decoy_claims = Ok io ->
  registered k = true ->
  payload_claim (sd_jwt_payload io) k = option_map PVal (dict_get k claims).
Proof.
  unfold spec_issuer. intros H Hk. inversion H; subst; clear H.
  unfold payload_claim. simpl.
  destruct (issue_claims_as_value P cfg unsafe (truthy add_decoy_claims) claims)
    as (_ & _ & _ & plain & sd & _ & -> & Hkeys).
  rewrite dict_get_app_verbatim, registered_get by assumption.
  destruct (dict_get k claims); auto.
  apply dict_get_not_in. intros Hin. apply Hkeys in Hin.
  apply rest_keys_unregistered in Hin. congruence.
Qed.

(* ================================================================== *)
(** ** Issue, present, verify *)
(* ================================================================== *)

#[local] Arguments check_holder_binding : simpl never.

Section Pipeline.
Variable P : Primitives.
Variable cfg : Config.
Hypothesis Hok : PrimitivesOk P.

Lemma map_snd_entries (ds : list disclosure) :
  map snd (map (fun d => (digest P d, d)) ds) = ds.
Proof. induction ds; simpl; congruence. Qed.

(** The index of the selected Disclosures agrees with the issuance they
    come from. *)
Lemma presentation_agrees unsafe with_decoys disclosed claims :
  let o := issue_claims P cfg unsafe with_decoys claims in
  agrees P cfg disclosed
         (map (fun d => (digest P d, d))
              (filter (selected cfg disclosed) (i_disclosures o)))
         (i_disclosures o) (i_decoys o)
  /\ NoDup (map (digest P) (filter (selected cfg disclosed) (i_disclosures o)))
  /\ (forall x, In x (i_decoys o) -> ~ In x (map (digest P) (i_disclosures o))).
Proof.
  intros o.
  destruct (issue_claims_wellgen P cfg unsafe with_decoys claims Hok)
    as (_ & _ & Hnd).
  fold o in Hnd. unfold generated in Hnd.
  assert (NoDup (map (digest P) (i_disclosures o))) as Hnd1
      by (eapply NoDup_app_remove_r; eauto).
  assert (forall x, In x (i_decoys o) -> ~ In x (map (digest P) (i_disclosures o)))
    as Hdisj.
  { intros x Hx Hin. revert Hnd Hx Hin. generalize (map (digest P) (i_disclosures o)).
    intros l. induction l as [|a l IH]; simpl; intros Hnd Hx Hin; [tauto|].
    inversion Hnd as [|? ? Hnotin Hnd']; subst.
    destruct Hin as [->|Hin]; auto.
    apply Hnotin. apply in_or_app. now right. }
  repeat split; auto.
  - intros d Hd. now apply index_lookup.
  - intros x Hx. apply index_miss. now apply Hdisj.
  - now apply filter_digests_NoDup.
Qed.

(** The three engines in sequence: whatever the claims, the policy, the
    decoys and the selection, verification returns what the presentation
    discloses of the claims. *)
Lemma spec_pipeline unsafe claims ik hk add_decoy_claims disclosed nonce aud cb :
  cb (get_or_none claims "iss") = Ok (pub_of P ik) ->
  match hk with
  | None => nonce = None /\ aud = None
  | Some _ => wf_pyval (or_none nonce) = true /\ wf_pyval (or_none aud) = true
  end ->
  exists io h h' presentation,
    spec_issuer P cfg unsafe claims ik hk add_decoy_claims = Ok io
    /\ spec_holder P (combined_sd_jwt_iid io) = Ok h
    /\ spec_create_presentation P cfg h disclosed nonce aud hk = Ok h'
    /\ combined_presentation h' = Some presentation
    /\ spec_verifier P presentation cb aud nonce
       = Ok {| verified_claims := view_claims cfg disclosed claims |}
    /\ c_disclosures presentation
       = filter (selected cfg disclosed) (ii_disclosures io)
    /\ _hash_to_decoded_disclosure h'
       = map (fun d => (digest P d, d)) (ii_disclosures io)
    /\ (forall x, In x (decoy_digests io) ->
                  ~ In x (map (digest P) (ii_disclosures io)))
    /\ is_some (c_hb_jwt presentation) = is_some hk
    /\ decoy_digests io
       = i_decoys (issue_claims P cfg unsafe (truthy add_decoy_claims) claims).
Proof.
  intros Hcb Hbinding.
  unfold spec_issuer.
  set (o := issue_claims P cfg unsafe (truthy add_decoy_claims) claims).
  set (payload := {| p_claims := i_tree o; p_sd_alg := sd_alg cfg;
                     p_cnf := option_map (pub_of P) hk |}).
  set (signed := {| jws_alg := sign_alg cfg; jws_body := BodySD payload;
                    jws_sig := sign P ik (BodySD payload) |}).
  destruct (presentation_agrees unsafe (truthy add_decoy_claims) disclosed claims)
    as (Hag & Hnd & Hdisj).
  fold o in Hag, Hnd, Hdisj.
  set (chosen := filter (selected cfg disclosed) (i_disclosures o)) in *.
  assert (spec_verifier P {| c_sd_jwt := signed; c_disclosures := chosen;
                             c_hb_jwt := None |} cb None None
          = Ok {| verified_claims := view_claims cfg disclosed claims |}
          /\ forall hb,
              check_holder_binding P payload (Some hb) aud nonce = Ok tt ->
              spec_verifier P {| c_sd_jwt := signed; c_disclosures := chosen;
                                 c_hb_jwt := Some hb |} cb aud nonce
              = Ok {| verified_claims := view_claims cfg disclosed claims |})
    as [Hplain Hbound].
  { assert (forallb
              (fun entry : string * disclosure =>
                 existsb (String.eqb (fst entry)) (placeholders (i_tree o)))
              (map (fun d => (digest P d, d)) chosen) = true) as Hused.
    { apply forallb_forall. intros [x d] Hin. simpl.
      apply in_map_iff in Hin. destruct Hin as (d' & E & Hin).
      inversion E; subst. apply filter_In in Hin. destruct Hin as [Hin _].
      apply existsb_exists. exists (digest P d). split.
      - now apply issue_claims_placeholders.
      - apply String.eqb_refl. }
    split; [|intros hb Hhb]; unfold spec_verifier; simpl;
      unfold o at 1; rewrite unverified_issuer_issued; rewrite Hcb; simpl;
      rewrite (signatures_verify P Hok); simpl;
      rewrite (within_validity P Hok);
      rewrite (build_index_ok P chosen Hnd); simpl;
      unfold o at 1;
      rewrite (resolve_issue_claims P cfg unsafe (truthy add_decoy_claims)
                 disclosed _ claims Hag); simpl;
      fold o; rewrite Hused; simpl; [reflexivity|].
    fold payload. now rewrite Hhb. }
  destruct hk as [k|].
  - destruct Hbinding as [Hn Ha].
    do 4 eexists.
    split; [reflexivity|]. split; [reflexivity|].
    split; [unfold spec_create_presentation; simpl; reflexivity|].
    split; [reflexivity|]. rewrite map_snd_entries. fold o chosen.
    repeat split; auto.
    apply Hbound. unfold check_holder_binding. simpl.
    rewrite (signatures_verify P Hok), (binding_fresh P Hok).
    now rewrite !py_eq_refl.
  - destruct Hbinding as [-> ->].
    do 4 eexists.
    split; [reflexivity|]. split; [reflexivity|].
    split; [unfold spec_create_presentation; simpl; reflexivity|].
    split; [reflexivity|]. rewrite map_snd_entries. fold o chosen.
    repeat split; auto.
Qed.
End Pipeline.

(** The three engines in sequence return what the presentation discloses. *)
Lemma issue_present_verify_view
      P cfg unsafe claims ik hk add_decoy_claims disclosed nonce aud cb :
  PrimitivesOk P ->
  cb (get_or_none claims "iss") = Ok (pub_of P ik) ->
  match hk with
  | None => nonce = None /\ aud = None
  | Some _ => wf_pyval (or_none nonce) = true /\ wf_pyval (or_none aud) = true
  end ->
  issue_present_verify P cfg unsafe claims ik hk add_decoy_claims disclosed
                       nonce aud cb
  = Ok (view_claims cfg disclosed claims).
Proof.
  intros Hok Hcb Hbinding.
  destruct (spec_pipeline P cfg Hok unsafe claims ik hk add_decoy_claims
              disclosed nonce aud cb Hcb Hbinding)
    as (io & h & h' & presentation & Hio & Hh & Hh' & Hpres & Hv & _).
  unfold issue_present_verify, bind.
  rewrite Hio. cbv beta iota. rewrite Hh. cbv beta iota.
  rewrite Hh'. cbv beta iota. rewrite Hpres. simpl. now rewrite Hv.
Qed.

(* ================================================================== *)
(** ** Full disclosure gives the claims back *)
(* ================================================================== *)

Lemma NoDup_app_disjoint {A : Type} (l l' : list A) :
  NoDup (l ++ l') -> forall x, In x l' -> ~ In x l.
Proof.
  induction l as [|a l IH]; simpl; intros Hnd x Hx Hin; [tauto|].
  inversion Hnd as [|? ? Hnotin Hnd']; subst.
  destruct Hin as [->|Hin].
  - apply Hnotin. apply in_or_app. now right.
  - now apply (IH Hnd' x).
Qed.

(** Two dictionaries with the same keys, in any order, and equal values
    under each key are equal. *)
Lemma py_eq_dict (a b : dict) :
  NoDup (map fst b) ->
  length a = length b ->
  (forall k v', In (k, v') a -> exists v, In (k, v) b /\ py_eq v' v = true) ->
  py_eq (PyDict a) (PyDict b) = true.
Proof.
  intros Hnd Hlen Hent. simpl. rewrite Hlen, Nat.eqb_refl. simpl.
  apply forallb_forall. intros [k v'] Hin. simpl.
  destruct (Hent k v' Hin) as (v & Hv & E).
  now rewrite (dict_get_in k v b Hnd Hv).
Qed.

Section ViewFacts.
Variable cfg : Config.
Variable disclosed : pyval.
(** The Holder selects every disclosable claim. *)
Hypothesis Hfull : forall k v, matches_selection cfg disclosed k v = true.

Lemma view_plain_entries p kvs k v' :
  In (k, v') (view_plain cfg disclosed p kvs) ->
  exists v, In (k, v) kvs /\ v' = view cfg disclosed (p ++ [Key k]) v.
Proof.
  induction kvs as [|[k0 x] l IH]; simpl; [tauto|].
  unfold view_plain. simpl. fold (view_plain cfg disclosed).
  destruct (policy cfg (p ++ [Key k0])); simpl.
  - intros H. destruct (IH H) as (v & Hv & E). eauto.
  - intros [H|H].
    + inversion H; subst. eauto.
    + destruct (IH H) as (v & Hv & E). eauto.
Qed.

Lemma view_disclosed_entries p kvs k v :
  In (k, v) (view_disclosed cfg disclosed p kvs) -> In (k, v) kvs.
Proof.
  induction kvs as [|[k0 x] l IH]; simpl; [tauto|].
  destruct (policy cfg (p ++ [Key k0]) && matches_selection cfg disclosed (Some k0) x);
    simpl; intuition.
Qed.

(** Under full disclosure an object keeps all its keys. *)
Lemma view_keys p kvs :
  Permutation
    (map fst (view_plain cfg disclosed p kvs ++ view_disclosed cfg disclosed p kvs))
    (map fst kvs).
Proof.
  induction kvs as [|[k x] l IH]; simpl; auto.
  unfold view_plain. simpl. fold (view_plain cfg disclosed).
  rewrite Hfull, andb_true_r.
  destruct (policy cfg (p ++ [Key k])); simpl.
  - rewrite map_app. simpl. rewrite map_app in IH.
    apply Permutation_sym. apply Permutation_cons_app.
    now apply Permutation_sym.
  - now constructor.
Qed.

(** What full disclosure must give on one value: an equal, well-formed
    value. *)
Let restores (x : pyval) : Prop :=
  forall p, wf_pyval x = true ->
            py_eq (view cfg disclosed p x) x = true
            /\ wf_pyval (view cfg disclosed p x) = true.

Lemma view_items_full p xs :
  Forall restores xs ->
  forallb wf_pyval xs = true ->
  forall i, py_eq (PyList (view_items cfg disclosed p i xs)) (PyList xs) = true
            /\ forallb wf_pyval (view_items cfg disclosed p i xs) = true.
Proof.
  induction xs as [|x l IHl]; intros IH Hwf i; auto.
  inversion IH as [|? ? Hx Hl]; subst.
  simpl in Hwf. apply andb_true_iff in Hwf. destruct Hwf as [Hwx Hwl].
  destruct (IHl Hl Hwl (S i)) as [IH1 IH2].
  unfold view_items. simpl. fold (view_items cfg disclosed).
  rewrite Hfull.
  destruct (policy cfg (p ++ [Idx i])); simpl.
  - rewrite py_eq_refl by assumption. rewrite Hwx, IH2. auto.
  - destruct (Hx (p ++ [Idx i]) Hwx) as [-> ->]. rewrite IH2. auto.
Qed.

Lemma view_members_full p kvs (front b : dict) :
  Forall (fun kv => restores (snd kv)) kvs ->
  Permutation (front ++ kvs) b ->
  forallb (fun kv => wf_pyval (snd kv)) b = true ->
  NoDup (map fst b) ->
  let a := dict_update (front ++ view_plain cfg disclosed p kvs)
                       (view_disclosed cfg disclosed p kvs) in
  py_eq (PyDict a) (PyDict b) = true /\ wf_pyval (PyDict a) = true.
Proof.
  intros IH Hb Hwf Hnd a.
  assert (forall kv, In kv (front ++ kvs) -> In kv b) as Hin_b
      by (intros kv; apply (Permutation_in _ Hb)).
  assert (Permutation
            (map fst ((front ++ view_plain cfg disclosed p kvs)
                        ++ view_disclosed cfg disclosed p kvs))
            (map fst b)) as Hperm.
  { eapply Permutation_trans; [|apply (Permutation_map fst Hb)].
    rewrite <- app_assoc, !map_app. apply Permutation_app_head.
    rewrite <- map_app. apply view_keys. }
  assert (NoDup (map fst ((front ++ view_plain cfg disclosed p kvs)
                            ++ view_disclosed cfg disclosed p kvs))) as Hnd'.
  { apply Permutation_sym in Hperm. now apply (Permutation_NoDup Hperm). }
  assert (a = (front ++ view_plain cfg disclosed p kvs)
                ++ view_disclosed cfg disclosed p kvs) as ->.
  { unfold a. rewrite map_app in Hnd'. apply dict_update_fresh.
    - eapply NoDup_app_remove_l; eauto.
    - intros k Hk. now apply (NoDup_app_disjoint _ _ Hnd'). }
  rewrite forallb_forall in Hwf. rewrite Forall_forall in IH.
  split.
  - apply py_eq_dict; auto.
    + apply Permutation_length in Hperm. now rewrite !length_map in Hperm.
    + intros k v' Hin. apply in_app_or in Hin. destruct Hin as [Hin|Hin].
      * apply in_app_or in Hin. destruct Hin as [Hin|Hin].
        -- exists v'. split; [apply Hin_b, in_or_app; now left|].
           apply py_eq_refl. apply (Hwf (k, v')). apply Hin_b, in_or_app. now left.
        -- apply view_plain_entries in Hin. destruct Hin as (v & Hv & ->).
           exists v. split; [apply Hin_b, in_or_app; now right|].
           apply (IH (k, v) Hv). apply (Hwf (k, v)).
           apply Hin_b, in_or_app. now right.
      * apply view_disclosed_entries in Hin.
        exists v'. split; [apply Hin_b, in_or_app; now right|].
        apply py_eq_refl. apply (Hwf (k, v')). apply Hin_b, in_or_app. now right.
  - simpl. apply andb_true_iff. split; [now apply nodup_keys_NoDup|].
    apply forallb_forall. intros [k v'] Hin. simpl.
    apply in_app_or in Hin. destruct Hin as [Hin|Hin].
    + apply in_app_or in Hin. destruct Hin as [Hin|Hin].
      * apply (Hwf (k, v')). apply Hin_b, in_or_app. now left.
      * apply view_plain_entries in Hin. destruct Hin as (v & Hv & ->).
        apply (IH (k, v) Hv). apply (Hwf (k, v)).
        apply Hin_b, in_or_app. now right.
    + apply view_disclosed_entries in Hin.
      apply (Hwf (k, v')). apply Hin_b, in_or_app. now right.
Qed.

(** Under full disclosure the view of a value equals the value. *)
Lemma view_full v : restores v.
Proof.
  induction v as [| b | z | s | xs IH | kvs IH] using pyval_rect';
    intros p Hwf; try (split; [now apply py_eq_refl|exact Hwf]).
  - now apply view_items_full.
  - simpl in Hwf. apply andb_true_iff in Hwf. destruct Hwf as [Hnd Hall].
    apply nodup_keys_NoDup in Hnd.
    apply (view_members_full p kvs [] kvs IH (Permutation_refl _) Hall Hnd).
Qed.

Lemma filter_split {A : Type} (f : A -> bool) (l : list A) :
  Permutation (filter f l ++ filter (fun x => negb (f x)) l) l.
Proof.
  induction l as [|a l IH]; simpl; auto.
  destruct (f a); simpl.
  - now constructor.
  - apply Permutation_sym. apply Permutation_cons_app. now apply Permutation_sym.
Qed.

(** Under full disclosure the view of the claims equals the claims. *)
Lemma view_claims_full (claims : dict) :
  wf_pyval (PyDict claims) = true ->
  py_eq (view_claims cfg disclosed claims) (PyDict claims) = true
  /\ wf_pyval (view_claims cfg disclosed claims) = true.
Proof.
  intros Hwf. simpl in Hwf. apply andb_true_iff in Hwf. destruct Hwf as [Hnd Hall].
  apply nodup_keys_NoDup in Hnd.
  unfold view_claims.
  apply (view_members_full []
           (filter (fun kv => negb (registered (fst kv))) claims)
           (filter (fun kv => registered (fst kv)) claims) claims); auto.
  - apply Forall_forall. intros kv _. apply view_full.
  - apply (filter_split (fun kv => registered (fst kv))).
Qed.
End ViewFacts.

(* ================================================================== *)
(** ** Every run, whether it returns or raises *)
(* ================================================================== *)

(** The engine calls of a run are those of the pipeline, up to the point the
    run reached; a run that made one has set the class attribute. *)
Lemma run_trace lib settings testcase_path type w r w' :
  generate_test_case_data lib settings testcase_path type w = (r, w') ->
  (calls w' = calls w /\ unsafe_randomness w' = unsafe_randomness w)
  \/ exists testcase keys claims trace,
      load_yaml_example lib testcase_path = Ok testcase
      /\ claims_of settings testcase = Ok claims
      /\ pipeline_trace lib settings testcase keys claims trace
      /\ calls w' = calls w ++ trace
      /\ unsafe_randomness w' = true.
Proof.
  unfold generate_test_case_data, bindM, lift. intros H.
  destruct (py_getitem settings "random_seed") as [seed|] eqn:Hseed;
    [|inversion H; subst; now left].
  destruct (py_getitem settings "key_settings") as [ks|] eqn:Hks;
    [|inversion H; subst; now left].
  destruct (get_jwk lib ks true seed) as [keys|] eqn:Hkeys;
    [|inversion H; subst; now left].
  destruct (load_yaml_example lib testcase_path) as [testcase|] eqn:Hload;
    [|inversion H; subst; now left].
  destruct (claims_of settings testcase) as [claims|] eqn:Hclaims;
    [|inversion H; subst; now left].
  right. exists testcase, keys, claims.
  unfold issue, present, verify, bindM, lift, set_unsafe_randomness in H.
  simpl in H. rewrite !if_holder_binding_key in H. simpl in H.
  unfold record_call in H. simpl in H.
  destruct (SDJWTIssuer lib true claims (issuer_key keys)
              (binding_key testcase keys)
              (get_or_false testcase "add_decoy_claims")) as [io|] eqn:Hio.
  2: { inversion H; subst. eexists. repeat split; auto. constructor. }
  destruct (SDJWTHolder lib (combined_sd_jwt_iid io)) as [h|] eqn:Hh; simpl in H.
  2: { inversion H; subst. simpl. rewrite <- app_assoc.
       eexists. repeat split; auto. now constructor. }
  destruct (match dict_get "holder_disclosed_claims" testcase with
            | Some x => Ok x
            | None => Raise (KeyError "holder_disclosed_claims")
            end) as [disclosed|] eqn:Hsel.
  2: { inversion H; subst. simpl. rewrite <- app_assoc.
       eexists. repeat split; auto. now constructor. }
  destruct (if_holder_binding testcase (py_getitem settings "holder_binding_nonce"))
    as [nonce|] eqn:Hnonce.
  2: { inversion H; subst. simpl. rewrite <- app_assoc.
       eexists. repeat split; auto. now constructor. }
  destruct (if_holder_binding testcase (verifier_id settings)) as [aud|] eqn:Haud;
    simpl in H.
  2: { inversion H; subst. simpl. rewrite <- app_assoc.
       eexists. repeat split; auto. now constructor. }
  destruct (create_presentation lib h disclosed nonce aud
              (binding_key testcase keys)) as [h'|] eqn:Hh'.
  2: { inversion H; subst. simpl. rewrite <- !app_assoc.
       eexists. repeat split; auto. simpl. now apply reached_presentation with (h := h). }
  destruct (combined_presentation h') as [presentation|] eqn:Hpres; simpl in H.
  2: { inversion H; subst. simpl. rewrite <- !app_assoc.
       eexists. repeat split; auto. simpl. now apply reached_presentation with (h := h). }
  assert (pipeline_trace lib settings testcase keys claims
            [issuer_call testcase keys claims; HolderCall (combined_sd_jwt_iid io);
             PresentationCall disclosed nonce aud (binding_key testcase keys);
             VerifierCall presentation (cb_get_issuer_key claims keys) aud nonce])
    as Htrace by (now apply reached_verifier with (h := h) (h' := h')).
  destruct (SDJWTVerifier lib presentation (cb_get_issuer_key claims keys) aud nonce)
    as [v|] eqn:Hv; simpl in H.
  2: { inversion H; subst. simpl. rewrite <- !app_assoc.
       eexists. repeat split; eauto. }
  destruct (get_verified_payload lib v) as [verified|] eqn:Hverified.
  2: { inversion H; subst. simpl. rewrite <- !app_assoc.
       eexists. repeat split; eauto. }
  destruct (_artifacts lib testcase type io h' presentation verified)
    as [items|] eqn:Hitems.
  2: { inversion H; subst. simpl. rewrite <- !app_assoc.
       eexists. repeat split; eauto. }
  unfold dir_exists in H. simpl in H.
  destruct (existsb (fpath_eqb (parent testcase_path)) (directories w)) eqn:Hdir.
  - rewrite write_artifacts_spec in H. inversion H; subst. simpl.
    rewrite <- !app_assoc. eexists. repeat split; eauto.
  - inversion H; subst. simpl. rewrite <- !app_assoc.
    eexists. repeat split; eauto.
Qed.

Lemma dict_set_has_key {V : Type} k k' (v : V) d :
  has_key k d = true -> has_key k (dict_set k' v d) = true.
Proof.
  unfold has_key. rewrite dict_get_set. now destruct (String.eqb k k').
Qed.

Lemma dict_update_has_key {V : Type} k (d e : list (string * V)) :
  has_key k d = true -> has_key k (dict_update d e) = true.
Proof.
  unfold dict_update. revert d.
  induction e as [|[k' v] r IH]; simpl; intros d H; auto.
  apply IH. now apply dict_set_has_key.
Qed.

(** What [claims_of] went through when it returns. *)
Lemma claims_of_inv settings testcase claims :
  claims_of settings testcase = Ok claims ->
  exists identifiers issuer iat exp user_claims uc,
    py_getitem settings "identifiers" = Ok identifiers
    /\ py_getitem identifiers "issuer" = Ok issuer
    /\ py_getitem settings "iat" = Ok iat
    /\ py_getitem settings "exp" = Ok exp
    /\ dict_get "user_claims" testcase = Some user_claims
    /\ update_pairs user_claims = Ok uc
    /\ claims = dict_update [("iss", issuer); ("iat", iat); ("exp", exp)] uc.
Proof.
  unfold claims_of. intros H.
  destruct (py_getitem settings "identifiers") as [identifiers|] eqn:E1;
    [|discriminate].
  simpl in H.
  destruct (py_getitem identifiers "issuer") as [issuer|] eqn:E2; [|discriminate].
  simpl in H.
  destruct (py_getitem settings "iat") as [iat|] eqn:E3; [|discriminate].
  simpl in H.
  destruct (py_getitem settings "exp") as [exp|] eqn:E4; [|discriminate].
  simpl in H.
  destruct (dict_get "user_claims" testcase) as [u|] eqn:E5; [|discriminate].
  cbn [bind] in H.
  destruct (update_pairs u) as [uc|] eqn:E6; [|discriminate].
  cbn [bind] in H. inversion H; subst.
  exists identifiers, issuer, iat, exp, u, uc. repeat split; auto.
Qed.

(* ================================================================== *)
(** ** The script on its own: claims, callback, class attribute, data flow *)
(* ================================================================== *)

Lemma issuer_call_in_trace lib settings testcase keys claims trace u c ik hk dc :
  pipeline_trace lib settings testcase keys claims trace ->
  In (IssuerCall u c ik hk dc) trace ->
  IssuerCall u c ik hk dc = issuer_call testcase keys claims.
Proof.
  intros Ht Hin.
  destruct Ht; simpl in Hin;
    repeat (destruct Hin as [Hin|Hin]; [try discriminate; now symmetry|]);
    destruct Hin.
Qed.

Lemma trace_starts_with_issuer lib settings testcase keys claims trace :
  pipeline_trace lib settings testcase keys claims trace ->
  exists rest,
    trace = issuer_call testcase keys claims :: rest
    /\ forall u c ik hk dc, ~ In (IssuerCall u c ik hk dc) rest.
Proof.
  intros Ht. destruct Ht; eexists; (split; [reflexivity|]);
    intros u c ik hk dc Hin; simpl in Hin;
    repeat (destruct Hin as [Hin|Hin]; [discriminate|]); destruct Hin.
Qed.

(** The callback, on the claims the script built, as a test against
    [claims["iss"]]. *)
Lemma cb_get_issuer_key_contract settings testcase claims keys :
  claims_of settings testcase = Ok claims ->
  exists iss,
    dict_get "iss" claims = Some iss
    /\ forall issuer,
        cb_get_issuer_key claims keys issuer
        = if py_eq issuer iss
          then Ok (issuer_public_key keys)
          else Raise (Exception "Unknown issuer: " issuer).
Proof.
  intros Hclaims.
  destruct (claims_of_inv _ _ _ Hclaims)
    as (identifiers & issuer0 & iat & exp & user_claims & uc
        & _ & _ & _ & _ & _ & _ & ->).
  assert (has_key "iss"
            (dict_update [("iss", issuer0); ("iat", iat); ("exp", exp)] uc) = true)
    as Hhas by (now apply dict_update_has_key).
  unfold has_key in Hhas.
  destruct (dict_get "iss"
              (dict_update [("iss", issuer0); ("iat", iat); ("exp", exp)] uc))
    as [iss|] eqn:Hiss; [|discriminate].
  exists iss. split; [reflexivity|].
  intros issuer. unfold cb_get_issuer_key, py_getitem. now rewrite Hiss.
Qed.

(** C3.  The issuer-key callback fails loudly.  For the claims the script
    built, [claims["iss"]] exists; the callback raises [Exception] on every
    issuer string that differs from it, returns the issuer's public key on
    the issuer string equal to it, and on any argument does one of the two:
    it never returns [None]. *)
Theorem cb_get_issuer_key_fails_loudly
        (settings : pyval) (testcase claims : dict) (keys : demo_keys) :
  claims_of settings testcase = Ok claims ->
  exists iss,
    dict_get "iss" claims = Some iss
    /\ (forall issuer : string,
           iss <> PyStr issuer ->
           cb_get_issuer_key claims keys (PyStr issuer)
           = Raise (Exception "Unknown issuer: " (PyStr issuer)))
    /\ (forall issuer : string,
           iss = PyStr issuer ->
           cb_get_issuer_key claims keys (PyStr issuer)
           = Ok (issuer_public_key keys))
    /\ (forall issuer : pyval,
           cb_get_issuer_key claims keys issuer = Ok (issuer_public_key keys)
           \/ cb_get_issuer_key claims keys issuer
              = Raise (Exception "Unknown issuer: " issuer)).
Proof.
  intros Hclaims.
  destruct (cb_get_issuer_key_contract settings testcase claims keys Hclaims)
    as (iss & Hiss & Hcb).
  exists iss. split; [exact Hiss|].
  repeat split.
  - intros issuer Hne. rewrite Hcb. destruct iss; simpl; auto.
    destruct (String.eqb issuer s) eqn:E; auto.
    apply String.eqb_eq in E. congruence.
  - intros issuer ->. rewrite Hcb. simpl. now rewrite String.eqb_refl.
  - intros issuer. rewrite Hcb. destruct (py_eq issuer iss); auto.
Qed.

Lemma cb_get_issuer_key_fails_loudly_witness :
  exists iss,
    dict_get "iss" Demo.claims = Some iss
    /\ (forall issuer : string,
           iss <> PyStr issuer ->
           cb_get_issuer_key Demo.claims Demo.keys (PyStr issuer)
           = Raise (Exception "Unknown issuer: " (PyStr issuer)))
    /\ (forall issuer : string,
           iss = PyStr issuer ->
           cb_get_issuer_key Demo.claims Demo.keys (PyStr issuer)
           = Ok (issuer_public_key Demo.keys))
    /\ (forall issuer : pyval,
           cb_get_issuer_key Demo.claims Demo.keys issuer
           = Ok (issuer_public_key Demo.keys)
           \/ cb_get_issuer_key Demo.claims Demo.keys issuer
              = Raise (Exception "Unknown issuer: " issuer)).
Proof.
  apply (cb_get_issuer_key_fails_loudly Demo.settings Demo.testcase).
  reflexivity.
Defined.

(** C6, as the specification words it, fails: a test case whose user claims
    carry an [iss] of their own gets that one, not the issuer of the
    settings. *)
Lemma registered_claims_from_settings_fails : ~ registered_claims_from_settings.
Proof.
  intros H.
  destruct (H Demo.settings Demo.testcase_own_iss
              (("iss", PyStr "https://other.example")
                 :: ("iat", PyInt 1683000000) :: ("exp", PyInt 1883000000)
                 :: Demo.user_claims)
              (PyDict [("issuer", PyStr "https://example.com/issuer");
                       ("verifier", PyStr "https://example.com/verifier")])
              (PyStr "https://example.com/issuer")
              (PyInt 1683000000) (PyInt 1883000000)
              eq_refl eq_refl eq_refl eq_refl eq_refl) as (Hiss & _).
  discriminate Hiss.
Qed.

(** [dict.update] on what a YAML file can give under [user_claims]: a
    mapping, a sequence of pairs, and what is neither. *)
Example update_pairs_of_pairs :
  update_pairs (PyList [PyList [PyStr "given_name"; PyStr "Ada"];
                        PyStr "ab";
                        PyList [PyStr "given_name"; PyStr "Eve"]])
  = Ok [("given_name", PyStr "Ada"); ("a", PyStr "b"); ("given_name", PyStr "Eve")].
Proof. reflexivity. Qed.

Example update_pairs_of_nothing :
  update_pairs (PyList []) = Ok [] /\ update_pairs (PyStr "") = Ok [].
Proof. split; reflexivity. Qed.

Example update_pairs_raises :
  update_pairs (PyStr "name")
  = Raise (ValueError "dictionary update sequence element has not length 2")
  /\ update_pairs (PyList [PyList [PyStr "a"]])
     = Raise (ValueError "dictionary update sequence element has not length 2")
  /\ update_pairs (PyList [PyInt 1])
     = Raise (TypeError
                "cannot convert dictionary update sequence element to a sequence")
  /\ update_pairs (PyList [PyList [PyList []; PyInt 1]])
     = Raise (TypeError "unhashable type")
  /\ update_pairs PyNone = Raise (TypeError "object is not iterable").
Proof. repeat split; reflexivity. Qed.

Example claims_of_pairs :
  claims_of Demo.settings
            [("user_claims", PyList [PyList [PyStr "sub"; PyStr "john"];
                                     PyList [PyStr "iat"; PyInt 7];
                                     PyList [PyStr "sub"; PyStr "jane"]])]
  = Ok [("iss", PyStr "https://example.com/issuer");
        ("iat", PyInt 7);
        ("exp", PyInt 1883000000);
        ("sub", PyStr "jane")].
Proof. reflexivity. Qed.

(** C6, amended.  The claim set handed to the Issuer is the dictionary
    [{iss, iat, exp}] of the settings updated with the user claims, be they
    a mapping or a sequence of pairs: it always has the keys [iss], [iat] and
    [exp], and under every key it holds the user claim of that name when
    there is one (the last one, should a sequence repeat the name) and the
    value of the settings otherwise.  The payload the Issuer of the
    specification signs for it carries [iss], [iat] and [exp] as plain claims
    with the values of the claim set. *)
Theorem issuer_receives_merged_claims
        lib settings testcase_path type w r w' trace u claims ik hk dc :
  generate_test_case_data lib settings testcase_path type w = (r, w') ->
  calls w' = calls w ++ trace ->
  In (IssuerCall u claims ik hk dc) trace ->
  exists testcase identifiers issuer iat exp user_claims uc,
    load_yaml_example lib testcase_path = Ok testcase
    /\ py_getitem settings "identifiers" = Ok identifiers
    /\ py_getitem identifiers "issuer" = Ok issuer
    /\ py_getitem settings "iat" = Ok iat
    /\ py_getitem settings "exp" = Ok exp
    /\ dict_get "user_claims" testcase = Some user_claims
    /\ update_pairs user_claims = Ok uc
    /\ claims = dict_update [("iss", issuer); ("iat", iat); ("exp", exp)] uc
    /\ has_key "iss" claims = true
    /\ has_key "iat" claims = true
    /\ has_key "exp" claims = true
    /\ (forall k,
          dict_get k claims
          = match dict_get k (rev uc) with
            | Some v => Some v
            | None => dict_get k [("iss", issuer); ("iat", iat); ("exp", exp)]
            end)
    /\ (NoDup (map fst uc) ->
        forall k,
          dict_get k claims
          = match dict_get k uc with
            | Some v => Some v
            | None => dict_get k [("iss", issuer); ("iat", iat); ("exp", exp)]
            end)
    /\ (forall P cfg io k,
           spec_issuer P cfg u claims ik hk dc = Ok io ->
           registered k = true ->
           payload_claim (sd_jwt_payload io) k
           = option_map PVal (dict_get k claims)).
Proof.
  intros Hrun Hcalls Hin.
  destruct (run_trace _ _ _ _ _ _ _ Hrun)
    as [[Hsame _]|(testcase & keys & claims0 & trace0 & Hload & Hclaims & Ht & Hc & _)].
  - rewrite Hsame in Hcalls. rewrite <- (app_nil_r (calls w)) in Hcalls at 1.
    apply app_inv_head in Hcalls. subst. destruct Hin.
  - rewrite Hc in Hcalls. apply app_inv_head in Hcalls. subst trace0.
    pose proof (issuer_call_in_trace _ _ _ _ _ _ _ _ _ _ _ Ht Hin) as E.
    inversion E; subst.
    destruct (claims_of_inv _ _ _ Hclaims)
      as (identifiers & issuer & iat & exp & user_claims & uc
          & H1 & H2 & H3 & H4 & H5 & H6 & ->).
    exists testcase, identifiers, issuer, iat, exp, user_claims, uc.
    repeat split; auto; try (now apply dict_update_has_key).
    + intros k. apply dict_get_update_last.
    + intros Hnd k. now apply dict_get_update.
    + intros P cfg io k Hio Hk. now apply (issued_registered_claims _ _ _ _ _ _ _ _ _ Hio).
Qed.

Lemma issuer_receives_merged_claims_witness :
  let claims := ("iss", PyStr "https://other.example")
                  :: ("iat", PyInt 1683000000) :: ("exp", PyInt 1883000000)
                  :: Demo.user_claims in
  exists testcase identifiers issuer iat exp user_claims uc,
    load_yaml_example (Demo.library Demo.testcase_own_iss) Demo.testcase_path
    = Ok testcase
    /\ py_getitem Demo.settings "identifiers" = Ok identifiers
    /\ py_getitem identifiers "issuer" = Ok issuer
    /\ py_getitem Demo.settings "iat" = Ok iat
    /\ py_getitem Demo.settings "exp" = Ok exp
    /\ dict_get "user_claims" testcase = Some user_claims
    /\ update_pairs user_claims = Ok uc
    /\ claims = dict_update [("iss", issuer); ("iat", iat); ("exp", exp)] uc
    /\ has_key "iss" claims = true
    /\ has_key "iat" claims = true
    /\ has_key "exp" claims = true
    /\ (forall k,
          dict_get k claims
          = match dict_get k (rev uc) with
            | Some v => Some v
            | None => dict_get k [("iss", issuer); ("iat", iat); ("exp", exp)]
            end)
    /\ (NoDup (map fst uc) ->
        forall k,
          dict_get k claims
          = match dict_get k uc with
            | Some v => Some v
            | None => dict_get k [("iss", issuer); ("iat", iat); ("exp", exp)]
            end)
    /\ (forall P cfg io k,
           spec_issuer P cfg true claims
                       "issuer-key" (Some "holder-key") (PyBool false) = Ok io ->
           registered k = true ->
           payload_claim (sd_jwt_payload io) k
           = option_map PVal (dict_get k claims)).
Proof.
  intros claims.
  pose (run := generate_test_case_data (Demo.library Demo.testcase_own_iss)
                 Demo.settings Demo.testcase_path "testcase" Demo.start).
  apply (issuer_receives_merged_claims
           (Demo.library Demo.testcase_own_iss) Demo.settings Demo.testcase_path
           "testcase" Demo.start (Ok tt) (snd run) (calls (snd run))
           true claims "issuer-key" (Some "holder-key") (PyBool false)).
  - vm_compute. reflexivity.
  - reflexivity.
  - vm_compute. left. reflexivity.
Defined.

(** C7, as the specification words it, fails: a run that starts with the
    class attribute off ends with it on. *)
Lemma no_process_wide_state_fails : ~ no_process_wide_state.
Proof.
  intros H.
  pose (run := generate_test_case_data (Demo.library Demo.testcase)
                 Demo.settings Demo.testcase_path "testcase" Demo.start).
  specialize (H (Demo.library Demo.testcase) Demo.settings Demo.testcase_path
                "testcase" Demo.start (snd run) (fst run)
                (surjective_pairing run)).
  vm_compute in H. discriminate H.
Qed.

(** C7, amended.  The randomness mode is not an argument of the Issuer: the
    script sets the class attribute [SDJWTIssuer.unsafe_randomness] before it
    constructs the Issuer.  A run that stopped before that made no engine
    call and left the attribute alone; any other run constructed the Issuer
    once, under the attribute set to [True] whatever it was before, with the
    claims, the keys and [add_decoy_claims] passed as arguments, and left the
    attribute set for the runs that follow. *)
Theorem unsafe_randomness_is_class_state
        lib settings testcase_path type w r w' :
  generate_test_case_data lib settings testcase_path type w = (r, w') ->
  (calls w' = calls w /\ unsafe_randomness w' = unsafe_randomness w)
  \/ (unsafe_randomness w' = true
      /\ exists testcase keys claims rest,
          load_yaml_example lib testcase_path = Ok testcase
          /\ claims_of settings testcase = Ok claims
          /\ calls w'
             = calls w
                 ++ IssuerCall true claims (issuer_key keys)
                      (binding_key testcase keys)
                      (get_or_false testcase "add_decoy_claims") :: rest
          /\ forall u c ik hk dc, ~ In (IssuerCall u c ik hk dc) rest).
Proof.
  intros Hrun.
  destruct (run_trace _ _ _ _ _ _ _ Hrun)
    as [Hsame|(testcase & keys & claims & trace & Hload & Hclaims & Ht & Hc & Hflag)].
  - now left.
  - right. split; auto.
    destruct (trace_starts_with_issuer _ _ _ _ _ _ Ht) as (rest & -> & Hrest).
    exists testcase, keys, claims, rest. auto.
Qed.

Lemma unsafe_randomness_is_class_state_witness :
  let run := generate_test_case_data (Demo.library Demo.testcase)
               Demo.settings Demo.testcase_path "testcase" Demo.start in
  (calls (snd run) = calls Demo.start
   /\ unsafe_randomness (snd run) = unsafe_randomness Demo.start)
  \/ (unsafe_randomness (snd run) = true
      /\ exists testcase keys claims rest,
          load_yaml_example (Demo.library Demo.testcase) Demo.testcase_path
          = Ok testcase
          /\ claims_of Demo.settings testcase = Ok claims
          /\ calls (snd run)
             = calls Demo.start
                 ++ IssuerCall true claims (issuer_key keys)
                      (binding_key testcase keys)
                      (get_or_false testcase "add_decoy_claims") :: rest
          /\ forall u c ik hk dc, ~ In (IssuerCall u c ik hk dc) rest).
Proof.
  intros run.
  apply (unsafe_randomness_is_class_state
           (Demo.library Demo.testcase) Demo.settings Demo.testcase_path
           "testcase" Demo.start (Ok tt) (snd run)).
  vm_compute. reflexivity.
Defined.

(** C2.  Data flows strictly along the pipeline.  A run that stops before
    the Issuer is built makes no engine call and raises.  Any other run goes
    through lines 46-88 stage by stage: the Issuer on the raw claims; the
    Holder on the [combined_sd_jwt_iid] of the object the Issuer returned;
    [create_presentation] on that Holder; the Verifier on the
    [combined_presentation] of the Holder after [create_presentation], with
    the script's own callback and the expected audience and nonce; the
    verified claim set from [get_verified_payload] of that Verifier.  The
    engine calls made are exactly those of the stages reached, a stage is
    skipped only because the one before raised, and the exception of a stage
    is the run's: a run that returns has made all four calls and obtained the
    verified claim set.  No call receives another engine's object. *)
Theorem pipeline_data_flow lib settings testcase_path type w r w' :
  generate_test_case_data lib settings testcase_path type w = (r, w') ->
  (w' = w
   /\ (exists e, r = Raise e)
   /\ forall keys testcase claims,
       ~ prepared lib settings testcase_path keys testcase claims)
  \/ exists testcase keys claims outcome trace,
      prepared lib settings testcase_path keys testcase claims
      /\ pipeline_run lib settings testcase keys claims outcome trace
      /\ calls w' = calls w ++ trace
      /\ (forall e, outcome = Raise e -> r = Raise e).
Proof.
  unfold generate_test_case_data, bindM, lift. intros H.
  destruct (py_getitem settings "random_seed") as [seed|] eqn:Hseed.
  2: { inversion H; subst. left. repeat split; eauto.
       intros ? ? ? ((? & ? & ? & ? & ?) & ? & ?). congruence. }
  destruct (py_getitem settings "key_settings") as [ks|] eqn:Hks.
  2: { inversion H; subst. left. repeat split; eauto.
       intros ? ? ? ((? & ? & ? & ? & ?) & ? & ?). congruence. }
  destruct (get_jwk lib ks true seed) as [keys|] eqn:Hkeys.
  2: { inversion H; subst. left. repeat split; eauto.
       intros ? ? ? ((? & ? & ? & ? & ?) & ? & ?). congruence. }
  destruct (load_yaml_example lib testcase_path) as [testcase|] eqn:Hload.
  2: { inversion H; subst. left. repeat split; eauto.
       intros ? ? ? ((? & ? & ? & ? & ?) & ? & ?). congruence. }
  destruct (claims_of settings testcase) as [claims|] eqn:Hclaims.
  2: { inversion H; subst. left. repeat split; eauto.
       intros ? ? ? ((? & ? & ? & ? & ?) & ? & ?). congruence. }
  assert (prepared lib settings testcase_path keys testcase claims) as Hprep.
  { split; [exists seed, ks; auto|auto]. }
  right. exists testcase, keys, claims.
  unfold issue, present, verify, bindM, lift, set_unsafe_randomness in H.
  cbn [fst snd] in H. rewrite !if_holder_binding_key in H.
  cbn [unsafe_randomness record_call calls directories files] in H.
  fold (binding_key testcase keys) in H.
  destruct (SDJWTIssuer lib true claims (issuer_key keys)
              (binding_key testcase keys)
              (get_or_false testcase "add_decoy_claims")) as [io|] eqn:Hio.
  2: { inversion H; subst. exists (Raise e). eexists.
       split; [exact Hprep|]. split; [now apply issuer_raised|].
       split; [reflexivity|]. intros e0 E. now inversion E. }
  destruct (SDJWTHolder lib (combined_sd_jwt_iid io)) as [h|] eqn:Hh;
    cbn [calls] in H.
  2: { inversion H; subst. exists (Raise e). eexists.
       split; [exact Hprep|]. split; [now apply holder_raised with (io := io)|].
       split; [unfold record_call; cbn [calls]; now rewrite <- ?app_assoc|].
       intros e0 E. now inversion E. }
  destruct (py_getitem (PyDict testcase) "holder_disclosed_claims")
    as [disclosed|] eqn:Hsel.
  2: { inversion H; subst. exists (Raise e). eexists.
       split; [exact Hprep|].
       split; [apply arguments_raised with (io := io) (h := h); auto; now rewrite Hsel|].
       split; [unfold record_call; cbn [calls]; now rewrite <- ?app_assoc|].
       intros e0 E. now inversion E. }
  destruct (if_holder_binding testcase (py_getitem settings "holder_binding_nonce"))
    as [nonce|] eqn:Hnonce.
  2: { inversion H; subst. exists (Raise e). eexists.
       split; [exact Hprep|].
       split; [apply arguments_raised with (io := io) (h := h); auto;
               now rewrite Hsel, Hnonce|].
       split; [unfold record_call; cbn [calls]; now rewrite <- ?app_assoc|].
       intros e0 E. now inversion E. }
  destruct (if_holder_binding testcase (verifier_id settings)) as [aud|] eqn:Haud.
  2: { inversion H; subst. exists (Raise e). eexists.
       split; [exact Hprep|].
       split; [apply arguments_raised with (io := io) (h := h); auto;
               now rewrite Hsel, Hnonce, Haud|].
       split; [unfold record_call; cbn [calls]; now rewrite <- ?app_assoc|].
       intros e0 E. now inversion E. }
  cbn [calls] in H.
  destruct (create_presentation lib h disclosed nonce aud
              (binding_key testcase keys)) as [h'|] eqn:Hh'.
  2: { inversion H; subst. exists (Raise e). eexists.
       split; [exact Hprep|].
       split; [apply presentation_raised with (io := io) (h := h) (disclosed := disclosed)
                 (nonce := nonce) (aud := aud); auto; now rewrite Hh'|].
       split; [unfold record_call; cbn [calls]; now rewrite <- ?app_assoc|].
       intros e0 E. now inversion E. }
  destruct (attr "combined_presentation" (combined_presentation h'))
    as [presentation|] eqn:Hpres.
  2: { inversion H; subst. exists (Raise e). eexists.
       split; [exact Hprep|].
       split; [apply presentation_raised with (io := io) (h := h) (disclosed := disclosed)
                 (nonce := nonce) (aud := aud); auto;
               rewrite Hh'; cbn [bind]; now rewrite Hpres|].
       split; [unfold record_call; cbn [calls]; now rewrite <- ?app_assoc|].
       intros e0 E. now inversion E. }
  assert (combined_presentation h' = Some presentation) as Hpres'.
  { destruct (combined_presentation h'); inversion Hpres; reflexivity. }
  cbn [calls unsafe_randomness directories files] in H.
  destruct (SDJWTVerifier lib presentation (cb_get_issuer_key claims keys) aud nonce)
    as [v|] eqn:Hv.
  2: { inversion H; subst. exists (Raise e). eexists.
       split; [exact Hprep|].
       split; [apply verifier_raised with (io := io) (h := h) (disclosed := disclosed)
                 (nonce := nonce) (aud := aud) (h' := h')
                 (presentation := presentation); auto;
               now rewrite Hv|].
       split; [unfold record_call; cbn [calls]; now rewrite <- ?app_assoc|].
       intros e0 E. now inversion E. }
  destruct (get_verified_payload lib v) as [verified|] eqn:Hverified.
  2: { inversion H; subst. exists (Raise e). eexists.
       split; [exact Hprep|].
       split; [apply verifier_raised with (io := io) (h := h) (disclosed := disclosed)
                 (nonce := nonce) (aud := aud) (h' := h')
                 (presentation := presentation); auto;
               rewrite Hv; cbn [bind]; now rewrite Hverified|].
       split; [unfold record_call; cbn [calls]; now rewrite <- ?app_assoc|].
       intros e0 E. now inversion E. }
  exists (Ok verified). eexists.
  split; [exact Hprep|].
  split; [now apply verifier_returned with (io := io) (h := h) (disclosed := disclosed)
            (nonce := nonce) (aud := aud) (h' := h')
            (presentation := presentation) (v := v)|].
  split; [|discriminate].
  destruct (_artifacts lib testcase type io h' presentation verified)
    as [items|].
  2: { inversion H; subst. unfold record_call. cbn [calls].
       now rewrite <- ?app_assoc. }
  unfold dir_exists in H. simpl in H.
  destruct (existsb (fpath_eqb (parent testcase_path)) (directories w)).
  - rewrite write_artifacts_spec in H. inversion H; subst. cbn [calls].
    now rewrite <- !app_assoc.
  - inversion H; subst. unfold record_call. cbn [calls].
    now rewrite <- ?app_assoc.
Qed.

Lemma pipeline_data_flow_witness :
  let lib := Demo.library Demo.testcase in
  let run := generate_test_case_data lib Demo.settings Demo.testcase_path
                                     "testcase" Demo.start in
  (snd run = Demo.start
   /\ (exists e, fst run = Raise e)
   /\ forall keys testcase claims,
       ~ prepared lib Demo.settings Demo.testcase_path keys testcase claims)
  \/ exists testcase keys claims outcome trace,
      prepared lib Demo.settings Demo.testcase_path keys testcase claims
      /\ pipeline_run lib Demo.settings testcase keys claims outcome trace
      /\ calls (snd run) = calls Demo.start ++ trace
      /\ (forall e, outcome = Raise e -> fst run = Raise e).
Proof.
  intros lib run.
  apply (pipeline_data_flow
           lib Demo.settings Demo.testcase_path "testcase" Demo.start
           (fst run) (snd run)).
  vm_compute. reflexivity.
Defined.

(* ================================================================== *)
(** ** The files a run writes *)
(* ================================================================== *)

Lemma fpath_eqb_eq p q : fpath_eqb p q = true <-> p = q.
Proof.
  unfold fpath_eqb. destruct (list_eq_dec string_dec p q); split; auto; discriminate.
Qed.

Lemma fpath_eqb_in_dir dir a b :
  fpath_eqb (dir ++ [a]) (dir ++ [b]) = String.eqb a b.
Proof.
  destruct (String.eqb a b) eqn:E.
  - apply String.eqb_eq in E. subst. now apply fpath_eqb_eq.
  - destruct (fpath_eqb (dir ++ [a]) (dir ++ [b])) eqn:F; auto.
    apply fpath_eqb_eq in F. apply app_inv_head in F. inversion F; subst.
    now rewrite String.eqb_refl in E.
Qed.

Lemma read_store p q c fs :
  read_file p (store_file q c fs)
  = if fpath_eqb p q then Some c else read_file p fs.
Proof.
  induction fs as [|[q' c'] r IH]; simpl.
  - reflexivity.
  - destruct (fpath_eqb q q') eqn:E; simpl.
    + apply fpath_eqb_eq in E. subst q'.
      destruct (fpath_eqb p q); reflexivity.
    + rewrite IH. destruct (fpath_eqb p q) eqn:F; auto.
      apply fpath_eqb_eq in F. subst q. now rewrite E.
Qed.

Lemma read_stored_other lib dir type items fs name :
  ~ In name (map fst (files_of lib type items)) ->
  read_file (dir ++ [name]) (store_artifacts lib dir type items fs)
  = read_file (dir ++ [name]) fs.
Proof.
  revert fs. induction items as [|[key item] rest IH]; intros fs Hnot; auto.
  destruct item as [|data desc ftype];
    cbn [files_of store_artifacts map fst] in *.
  - now apply IH.
  - rewrite IH by (intros Hx; apply Hnot; now right).
    rewrite read_store, fpath_eqb_in_dir.
    destruct (String.eqb name (key ++ "." ++ ftype)) eqn:E; auto.
    apply String.eqb_eq in E. exfalso. apply Hnot. left. now symmetry.
Qed.

(** A file name that the dictionary yields once holds, after the loop, the
    formatted data of its entry. *)
Lemma read_stored lib dir type items fs name content :
  NoDup (map fst (files_of lib type items)) ->
  In (name, content) (files_of lib type items) ->
  read_file (dir ++ [name]) (store_artifacts lib dir type items fs) = Some content.
Proof.
  revert fs. induction items as [|[key item] rest IH]; intros fs Hnd Hin.
  - destruct Hin.
  - destruct item as [|data desc ftype];
      cbn [files_of store_artifacts map fst] in *.
    + now apply IH.
    + inversion Hnd as [|? ? Hnotin Hnd']; subst.
      destruct Hin as [Hin|Hin].
      * inversion Hin; subst.
        rewrite read_stored_other by assumption.
        rewrite read_store, fpath_eqb_in_dir. now rewrite String.eqb_refl.
      * now apply IH.
Qed.

Lemma truthy_get_or_none d k :
  truthy (get_or_none d k) = truthy (get_or_false d k).
Proof.
  unfold get_or_none, get_or_false. now destruct (dict_get k d).
Qed.

(** The entries of [_artifacts] that every run holds, and the decoy entry of
    a run with decoys; no two entries share a file name. *)
Lemma artifacts_files lib testcase type io h presentation verified items :
  _artifacts lib testcase type io h presentation verified = Ok items ->
  NoDup (map fst (files_of lib type items))
  /\ In ("sd_jwt_payload.json",
         formatter lib type (DataPayload (sd_jwt_payload io)) "json")
        (files_of lib type items)
  /\ In ("sd_jwt_serialized.txt",
         formatter lib type (DataJws (serialized_sd_jwt io)) "txt")
        (files_of lib type items)
  /\ In ("combined_issuance.txt",
         formatter lib type (DataCombined (combined_sd_jwt_iid io)) "txt")
        (files_of lib type items)
  /\ In ("hb_jwt_payload.json",
         formatter lib type
           (if truthy (get_or_false testcase "holder_binding")
            then opt_data DataHbPayload (holder_binding_jwt_payload h)
            else DataNone) "json")
        (files_of lib type items)
  /\ In ("verified_contents.json", formatter lib type (DataJson verified) "json")
        (files_of lib type items)
  /\ (truthy (get_or_false testcase "add_decoy_claims") = true ->
      In (if String.eqb type "example"
          then ("decoy_digests.md",
                formatter lib type
                  (DataMarkdown (markdown_decoy_digests lib (decoy_digests io))) "md")
          else ("decoy_digests.json",
                formatter lib type (DataDigests (decoy_digests io)) "json"))
         (files_of lib type items))
  /\ Forall (fun entry => snd entry <> ItemNone) items
  /\ dict_get "hb_jwt_payload" items
     = Some (ItemTuple
               (if truthy (get_or_false testcase "holder_binding")
                then opt_data DataHbPayload (holder_binding_jwt_payload h)
                else DataNone)
               "Payload of the Holder Binding JWT" "json").
Proof.
  unfold _artifacts. intros H.
  destruct (py_getitem (PyDict testcase) "user_claims") as [uc|]; [|discriminate].
  simpl in H. rewrite truthy_get_or_none in H.
  destruct (String.eqb type "example") eqn:Etype;
    destruct (truthy (get_or_false testcase "add_decoy_claims")) eqn:Edec;
    simpl in H; inversion H; subst; clear H; simpl;
    (split; [apply nodup_keys_NoDup; reflexivity|]);
    repeat split; try tauto; try discriminate;
    repeat (constructor; [discriminate|]); constructor.
Qed.

(** C8.  After issuance the Issuer object gives the script what it writes
    out: in every run that returns, [combined_sd_jwt_iid] is what the Holder
    was built from and is written to [combined_issuance.txt]; [sd_jwt_payload]
    is written to [sd_jwt_payload.json] and [serialized_sd_jwt] to
    [sd_jwt_serialized.txt]; and when the test case asks for decoys,
    [decoy_digests] is written to [decoy_digests.json], or as Markdown to
    [decoy_digests.md] for an example. *)
Theorem issuer_object_feeds_artifacts lib settings testcase_path type w w' :
  generate_test_case_data lib settings testcase_path type w = (Ok tt, w') ->
  exists testcase keys claims io,
    load_yaml_example lib testcase_path = Ok testcase
    /\ claims_of settings testcase = Ok claims
    /\ SDJWTIssuer lib true claims (issuer_key keys) (binding_key testcase keys)
                   (get_or_false testcase "add_decoy_claims") = Ok io
    /\ In (HolderCall (combined_sd_jwt_iid io)) (calls w')
    /\ read_file (parent testcase_path ++ ["combined_issuance.txt"]) (files w')
       = Some (formatter lib type (DataCombined (combined_sd_jwt_iid io)) "txt")
    /\ read_file (parent testcase_path ++ ["sd_jwt_payload.json"]) (files w')
       = Some (formatter lib type (DataPayload (sd_jwt_payload io)) "json")
    /\ read_file (parent testcase_path ++ ["sd_jwt_serialized.txt"]) (files w')
       = Some (formatter lib type (DataJws (serialized_sd_jwt io)) "txt")
    /\ (truthy (get_or_false testcase "add_decoy_claims") = true ->
        if String.eqb type "example"
        then read_file (parent testcase_path ++ ["decoy_digests.md"]) (files w')
             = Some (formatter lib type
                       (DataMarkdown (markdown_decoy_digests lib (decoy_digests io)))
                       "md")
        else read_file (parent testcase_path ++ ["decoy_digests.json"]) (files w')
             = Some (formatter lib type (DataDigests (decoy_digests io)) "json")).
Proof.
  intros Hrun.
  destruct (run_ok_inv _ _ _ _ _ _ Hrun) as (testcase & keys & claims & Hdone).
  destruct Hdone as [_ Hload Hclaims Hstages].
  destruct Hstages as (io & h & disclosed & nonce & aud & h' & presentation & v
                       & verified & items & Hio & _ & _ & _ & _ & _ & _ & _ & _
                       & Hitems & _ & ->).
  destruct (artifacts_files _ _ _ _ _ _ _ _ Hitems)
    as (Hnd & Hpayload & Hjws & Hcombined & _ & _ & Hdecoys & _).
  exists testcase, keys, claims, io. simpl.
  repeat split; auto.
  - apply in_or_app. right. right. now left.
  - now apply read_stored.
  - now apply read_stored.
  - now apply read_stored.
  - intros Hyes. specialize (Hdecoys Hyes).
    destruct (String.eqb type "example"); now apply read_stored.
Qed.

Lemma issuer_object_feeds_artifacts_witness :
  let w' := snd (generate_test_case_data (Demo.library Demo.testcase)
                   Demo.settings Demo.testcase_path "testcase" Demo.start) in
  exists testcase keys claims io,
    load_yaml_example (Demo.library Demo.testcase) Demo.testcase_path = Ok testcase
    /\ claims_of Demo.settings testcase = Ok claims
    /\ SDJWTIssuer (Demo.library Demo.testcase) true claims (issuer_key keys)
                   (binding_key testcase keys)
                   (get_or_false testcase "add_decoy_claims") = Ok io
    /\ In (HolderCall (combined_sd_jwt_iid io)) (calls w')
    /\ read_file (parent Demo.testcase_path ++ ["combined_issuance.txt"]) (files w')
       = Some (formatter (Demo.library Demo.testcase) "testcase"
                 (DataCombined (combined_sd_jwt_iid io)) "txt")
    /\ read_file (parent Demo.testcase_path ++ ["sd_jwt_payload.json"]) (files w')
       = Some (formatter (Demo.library Demo.testcase) "testcase"
                 (DataPayload (sd_jwt_payload io)) "json")
    /\ read_file (parent Demo.testcase_path ++ ["sd_jwt_serialized.txt"]) (files w')
       = Some (formatter (Demo.library Demo.testcase) "testcase"
                 (DataJws (serialized_sd_jwt io)) "txt")
    /\ (truthy (get_or_false testcase "add_decoy_claims") = true ->
        if String.eqb "testcase" "example"
        then read_file (parent Demo.testcase_path ++ ["decoy_digests.md"]) (files w')
             = Some (formatter (Demo.library Demo.testcase) "testcase"
                       (DataMarkdown
                          (markdown_decoy_digests (Demo.library Demo.testcase)
                             (decoy_digests io)))
                       "md")
        else read_file (parent Demo.testcase_path ++ ["decoy_digests.json"]) (files w')
             = Some (formatter (Demo.library Demo.testcase) "testcase"
                       (DataDigests (decoy_digests io)) "json")).
Proof.
  intros w'.
  apply (issuer_object_feeds_artifacts
           (Demo.library Demo.testcase) Demo.settings Demo.testcase_path
           "testcase" Demo.start w').
  vm_compute. reflexivity.
Defined.

(** C9.  Without holder binding the run still writes [hb_jwt_payload.json],
    holding the formatted [None]: the entry of [_artifacts] is a tuple whose
    data is [None], no entry of the dictionary is [None] itself, so the
    loop's test skips nothing. *)
Theorem hb_jwt_payload_written_without_binding
        lib settings testcase_path type w w' testcase :
  generate_test_case_data lib settings testcase_path type w = (Ok tt, w') ->
  load_yaml_example lib testcase_path = Ok testcase ->
  truthy (get_or_none testcase "holder_binding") = false ->
  read_file (parent testcase_path ++ ["hb_jwt_payload.json"]) (files w')
  = Some (formatter lib type DataNone "json")
  /\ exists io h presentation verified items,
      _artifacts lib testcase type io h presentation verified = Ok items
      /\ files w' = store_artifacts lib (parent testcase_path) type items (files w)
      /\ dict_get "hb_jwt_payload" items
         = Some (ItemTuple DataNone "Payload of the Holder Binding JWT" "json")
      /\ Forall (fun entry => snd entry <> ItemNone) items.
Proof.
  intros Hrun Hload Hoff.
  destruct (run_ok_inv _ _ _ _ _ _ Hrun) as (testcase0 & keys & claims & Hdone).
  destruct Hdone as [_ Hload0 Hclaims Hstages].
  rewrite Hload in Hload0. inversion Hload0; subst testcase0.
  destruct Hstages as (io & h & disclosed & nonce & aud & h' & presentation & v
                       & verified & items & _ & _ & _ & _ & _ & _ & _ & _ & _
                       & Hitems & _ & ->).
  destruct (artifacts_files _ _ _ _ _ _ _ _ Hitems)
    as (Hnd & _ & _ & _ & Hhb & _ & _ & Hall & Hentry).
  rewrite truthy_get_or_none in Hoff. rewrite Hoff in Hhb, Hentry.
  simpl. split.
  - now apply read_stored.
  - exists io, h', presentation, verified, items. auto.
Qed.

Lemma hb_jwt_payload_written_without_binding_witness :
  let w' := snd (generate_test_case_data (Demo.library Demo.testcase)
                   Demo.settings Demo.testcase_path "testcase" Demo.start) in
  read_file (parent Demo.testcase_path ++ ["hb_jwt_payload.json"]) (files w')
  = Some (formatter (Demo.library Demo.testcase) "testcase" DataNone "json")
  /\ exists io h presentation verified items,
      _artifacts (Demo.library Demo.testcase) Demo.testcase "testcase"
                 io h presentation verified = Ok items
      /\ files w' = store_artifacts (Demo.library Demo.testcase)
                      (parent Demo.testcase_path) "testcase" items
                      (files Demo.start)
      /\ dict_get "hb_jwt_payload" items
         = Some (ItemTuple DataNone "Payload of the Holder Binding JWT" "json")
      /\ Forall (fun entry => snd entry <> ItemNone) items.
Proof.
  intros w'.
  apply (hb_jwt_payload_written_without_binding
           (Demo.library Demo.testcase) Demo.settings Demo.testcase_path
           "testcase" Demo.start w' Demo.testcase).
  - vm_compute. reflexivity.
  - reflexivity.
  - reflexivity.
Defined.

(* ================================================================== *)
(** ** Issuance without decoys *)
(* ================================================================== *)

Section NoDecoys.
Variable P : Primitives.
Variable cfg : Config.
Variable unsafe : bool.

Lemma issue_value_no_decoys v :
  forall p n, i_decoys (issue_value P cfg unsafe false p v n) = [].
Proof.
  induction v as [| b | z | s | xs IH | kvs IH] using pyval_rect';
    intros p n; try reflexivity.
  - rewrite issue_value_list.
    assert (forall i n ts ds dcs n',
               issue_items P cfg unsafe false p i xs n = (ts, ds, dcs, n') ->
               dcs = []) as Hitems.
    { clear n. induction xs as [|x l IHl]; intros i n ts ds dcs n' E.
      - now inversion E.
      - inversion IH as [|? ? Hx Hl]; subst.
        rewrite issue_items_cons in E.
        destruct (policy cfg (p ++ [Idx i])); simpl in E.
        + destruct (issue_items P cfg unsafe false p (S i) l (S n))
            as [[[ts0 ds0] dcs0] n0] eqn:E0.
          inversion E; subst. apply (IHl Hl _ _ _ _ _ _ E0).
        + destruct (issue_items P cfg unsafe false p (S i) l
                      (i_next (issue_value P cfg unsafe false (p ++ [Idx i]) x n)))
            as [[[ts0 ds0] dcs0] n0] eqn:E0.
          inversion E; subst. rewrite Hx.
          apply (IHl Hl _ _ _ _ _ _ E0). }
    destruct (issue_items P cfg unsafe false p 0 xs n) as [[[ts ds] dcs] n1] eqn:E.
    simpl. now rewrite (Hitems _ _ _ _ _ _ E).
  - rewrite issue_value_dict.
    assert (forall n plain sd ds dcs n',
               issue_members P cfg unsafe false p kvs n = (plain, sd, ds, dcs, n') ->
               dcs = []) as Hmembers.
    { clear n. induction kvs as [|[k x] l IHl]; intros n plain sd ds dcs n' E.
      - now inversion E.
      - inversion IH as [|? ? Hx Hl]; subst. simpl in Hx.
        rewrite issue_members_cons in E.
        destruct (policy cfg (p ++ [Key k])); simpl in E.
        + destruct (issue_members P cfg unsafe false p l (S n))
            as [[[[pl0 sd0] ds0] dcs0] n0] eqn:E0.
          inversion E; subst. apply (IHl Hl _ _ _ _ _ _ E0).
        + destruct (issue_members P cfg unsafe false p l
                      (i_next (issue_value P cfg unsafe false (p ++ [Key k]) x n)))
            as [[[[pl0 sd0] ds0] dcs0] n0] eqn:E0.
          inversion E; subst. rewrite Hx.
          apply (IHl Hl _ _ _ _ _ _ E0). }
    destruct (issue_members P cfg unsafe false p kvs n)
      as [[[[plain sd] ds] dcs] n1] eqn:E.
    simpl. now rewrite (Hmembers _ _ _ _ _ _ E).
Qed.

(** Claims issued without [add_decoy_claims] carry no decoy. *)
Lemma issue_claims_no_decoys claims :
  i_decoys (issue_claims P cfg unsafe false claims) = [].
Proof.
  destruct (issue_claims_as_value P cfg unsafe false claims) as (_ & -> & _).
  apply issue_value_no_decoys.
Qed.
End NoDecoys.

(* ================================================================== *)
(** ** Well-formed inputs give well-formed claims *)
(* ================================================================== *)

Lemma wf_dict_get (d : dict) k v :
  wf_pyval (PyDict d) = true -> dict_get k d = Some v -> wf_pyval v = true.
Proof.
  simpl. rewrite andb_true_iff. intros [_ Hall] Hget.
  apply dict_get_some_in in Hget. rewrite forallb_forall in Hall.
  apply (Hall (k, v) Hget).
Qed.

Lemma wf_getitem v k x :
  wf_pyval v = true -> py_getitem v k = Ok x -> wf_pyval x = true.
Proof.
  destruct v; simpl; try discriminate. intros Hwf H.
  destruct (dict_get k kvs) as [y|] eqn:E; inversion H; subst.
  now apply (wf_dict_get kvs k).
Qed.

Lemma wf_dict_set (d : dict) k v :
  wf_pyval (PyDict d) = true -> wf_pyval v = true ->
  wf_pyval (PyDict (dict_set k v d)) = true.
Proof.
  simpl. rewrite !andb_true_iff. intros [Hnd Hall] Hv.
  apply nodup_keys_NoDup in Hnd. split.
  - apply nodup_keys_NoDup.
    induction d as [|[k' v'] r IH]; simpl.
    + constructor; [intros []|constructor].
    + simpl in Hnd, Hall. apply andb_true_iff in Hall. destruct Hall as [Hv' Hall].
      inversion Hnd as [|? ? Hnotin Hnd']; subst.
      destruct (String.eqb k k') eqn:E; simpl.
      * now constructor.
      * constructor; auto. rewrite dict_set_keys_in. intros [->|Hin]; auto.
        now rewrite String.eqb_refl in E.
  - clear Hnd. induction d as [|[k' v'] r IH]; simpl.
    + now rewrite Hv.
    + simpl in Hall. apply andb_true_iff in Hall. destruct Hall as [Hv' Hall].
      destruct (String.eqb k k'); simpl.
      * now rewrite Hv, Hall.
      * now rewrite Hv', IH.
Qed.

Lemma wf_dict_update (d e : dict) :
  wf_pyval (PyDict d) = true ->
  forallb (fun kv => wf_pyval (snd kv)) e = true ->
  wf_pyval (PyDict (dict_update d e)) = true.
Proof.
  unfold dict_update. revert d.
  induction e as [|[k v] r IH]; intros d Hd He; auto.
  simpl in He. apply andb_true_iff in He. destruct He as [Hv Hr].
  simpl. apply IH; auto. now apply wf_dict_set.
Qed.

Lemma wf_update_pair x kv :
  wf_pyval x = true -> update_pair x = Ok kv -> wf_pyval (snd kv) = true.
Proof.
  intros Hwf H. destruct x as [| | |s|xs|kvs]; try discriminate.
  - destruct s as [|a [|b [|c s]]]; try discriminate.
    inversion H; subst. reflexivity.
  - destruct xs as [|k [|v [|z xs]]]; try discriminate.
    simpl in H. destruct (dict_key k) as [key|]; [|discriminate].
    inversion H; subst. simpl in *.
    apply andb_true_iff in Hwf. destruct Hwf as [_ Hwf].
    apply andb_true_iff in Hwf. tauto.
  - destruct kvs as [|[k1 v1] [|[k2 v2] [|z kvs]]]; try discriminate.
    inversion H; subst. reflexivity.
Qed.

Lemma wf_update_sequence xs uc :
  forallb wf_pyval xs = true -> update_sequence xs = Ok uc ->
  forallb (fun kv => wf_pyval (snd kv)) uc = true.
Proof.
  revert uc. induction xs as [|x xs IH]; intros uc Hwf H.
  - inversion H; subst. reflexivity.
  - cbn [update_sequence] in H. cbn [forallb] in Hwf.
    apply andb_true_iff in Hwf. destruct Hwf as [Hx Hxs].
    destruct (update_pair x) as [kv|] eqn:Ekv; [|discriminate].
    cbn [bind] in H.
    destruct (update_sequence xs) as [kvs|]; [|discriminate].
    cbn [bind] in H. inversion H; subst. cbn [forallb].
    rewrite (wf_update_pair _ _ Hx Ekv). now apply IH.
Qed.

(** The pairs of a well-formed value hold well-formed values. *)
Lemma wf_update_pairs x uc :
  wf_pyval x = true -> update_pairs x = Ok uc ->
  forallb (fun kv => wf_pyval (snd kv)) uc = true.
Proof.
  intros Hwf H. destruct x as [| | |s|xs|kvs]; try discriminate.
  - destruct s; try discriminate. inversion H; subst. reflexivity.
  - now apply (wf_update_sequence xs).
  - inversion H; subst. simpl in Hwf. apply andb_true_iff in Hwf. tauto.
Qed.

(** The claims the script builds from well-formed settings and a well-formed
    test case are well formed. *)
Lemma wf_claims_of settings testcase claims :
  wf_pyval settings = true ->
  wf_pyval (PyDict testcase) = true ->
  claims_of settings testcase = Ok claims ->
  wf_pyval (PyDict claims) = true.
Proof.
  intros Hs Ht Hc.
  destruct (claims_of_inv _ _ _ Hc)
    as (identifiers & issuer & iat & exp & user_claims & uc
        & H1 & H2 & H3 & H4 & H5 & H6 & ->).
  pose proof (wf_getitem _ _ _ Hs H1) as Wid.
  pose proof (wf_getitem _ _ _ Wid H2) as Wiss.
  pose proof (wf_getitem _ _ _ Hs H3) as Wiat.
  pose proof (wf_getitem _ _ _ Hs H4) as Wexp.
  pose proof (wf_dict_get _ _ _ Ht H5) as Wuc.
  pose proof (wf_update_pairs _ _ Wuc H6) as Wpairs.
  apply wf_dict_update; auto.
  simpl. now rewrite Wiss, Wiat, Wexp.
Qed.

Lemma demo_primitives_ok : PrimitivesOk Demo.primitives.
Proof.
  constructor; simpl; auto.
  - intros unsafe i j H. inversion H as [E]. clear H. revert j E.
    induction i as [|i IH]; destruct j as [|j]; simpl; intros E;
      try discriminate; auto.
    inversion E. f_equal. auto.
  - intros s k v s' k' v' H. now inversion H.
  - intros k body. apply String.eqb_refl.
Qed.

(* ================================================================== *)
(** ** The scenarios of the specification, on the small instance *)
(* ================================================================== *)

(** Section 8: with [given_name] and [family_name] disclosable and only
    [given_name] disclosed, the Verifier returns [iss], [sub] and
    [given_name], and no [family_name]. *)
Example scenario_partial_disclosure :
  issue_present_verify Demo.primitives Demo.config true Demo.scenario_claims
    "issuer-key" None (PyBool true) Demo.scenario_selection None None
    (Demo.scenario_cb "issuer-key")
  = Ok (PyDict [("iss", PyStr "issuer1"); ("sub", PyStr "u1");
                ("given_name", PyStr "Alice")]).
Proof. reflexivity. Qed.

(** Section 8: the issuer's key swapped for an unrelated one. *)
Example scenario_swapped_key :
  issue_present_verify Demo.primitives Demo.config true Demo.scenario_claims
    "issuer-key" None (PyBool true) Demo.scenario_selection None None
    (Demo.scenario_cb "unrelated-key")
  = Raise (EngineError InvalidSignatureError).
Proof. reflexivity. Qed.

(** Section 8: a Disclosure whose salt was altered before presentation. *)
Example scenario_tampered_salt :
  (c <- Demo.scenario_presentation ;;
   spec_verifier Demo.primitives (Demo.tampered c)
                 (Demo.scenario_cb "issuer-key") None None)%py
  = Raise (EngineError UnresolvedDigestError).
Proof. reflexivity. Qed.

(** Section 8: two Disclosures over the same salt, name and value. *)
Example scenario_duplicate_disclosure :
  build_index Demo.primitives
    [ {| d_salt := "s"; d_key := Some "given_name"; d_value := PyStr "Alice" |};
      {| d_salt := "s"; d_key := Some "given_name"; d_value := PyStr "Alice" |} ]
  = Raise (EngineError DuplicateDigestError).
Proof. reflexivity. Qed.

(** The payload of the scenario: the plain claims, and a placeholder list
    with the two real digests followed by two decoys. *)
Example scenario_payload :
  (io <- spec_issuer Demo.primitives Demo.config true Demo.scenario_claims
                     "issuer-key" None (PyBool true) ;;
   Ok (p_claims (sd_jwt_payload io), decoy_digests io))%py
  = Ok (PObj [("iss", PVal (PyStr "issuer1")); ("sub", PVal (PyStr "u1"))]
             ["#u"; "#ua"; "#uaa"; "#uaaaa"],
        ["#uaa"; "#uaaaa"]).
Proof. reflexivity. Qed.

(** A presentation that binds the Holder, verified against the expected
    audience and nonce, and against a wrong nonce. *)
Example scenario_holder_binding :
  issue_present_verify Demo.primitives Demo.config true Demo.scenario_claims
    "issuer-key" (Some "holder-key") (PyBool false) Demo.scenario_selection
    (Some (PyStr "n-1")) (Some (PyStr "verifier1"))
    (Demo.scenario_cb "issuer-key")
  = Ok (PyDict [("iss", PyStr "issuer1"); ("sub", PyStr "u1");
                ("given_name", PyStr "Alice")])
  /\ (io <- spec_issuer Demo.primitives Demo.config true Demo.scenario_claims
                        "issuer-key" (Some "holder-key") (PyBool false) ;;
      h <- spec_holder Demo.primitives (combined_sd_jwt_iid io) ;;
      h' <- spec_create_presentation Demo.primitives Demo.config h
              Demo.scenario_selection (Some (PyStr "n-1"))
              (Some (PyStr "verifier1")) (Some "holder-key") ;;
      c <- attr "combined_presentation" (combined_presentation h') ;;
      spec_verifier Demo.primitives c (Demo.scenario_cb "issuer-key")
                    (Some (PyStr "verifier1")) (Some (PyStr "n-2")))%py
     = Raise (EngineError HolderBindingError).
Proof. split; reflexivity. Qed.

(* ================================================================== *)
(** ** The engines: round trip and decoys *)
(* ================================================================== *)

(** C1.  Round trip.  For every claim set and every disclosure policy (and
    every decoy placement), issuing, presenting with a selection that every
    Disclosure matches, and verifying returns a claim set equal to the one
    issued: Python's [==] holds between the two, and what is returned is a
    well-formed value.  The standing assumptions are those on the
    primitives, that the callback resolves the credential's issuer to the
    issuer's public key, and that nonce and audience go with the Holder's
    key. *)
Theorem issue_present_verify_roundtrip
        (P : Primitives) (cfg : Config) (unsafe : bool) (claims : dict)
        (ik : jwk) (hk : option jwk) (add_decoy_claims disclosed : pyval)
        (nonce aud : option pyval) (cb : pyval -> result jwk) :
  PrimitivesOk P ->
  wf_pyval (PyDict claims) = true ->
  (forall k v, matches_selection cfg disclosed k v = true) ->
  cb (get_or_none claims "iss") = Ok (pub_of P ik) ->
  match hk with
  | None => nonce = None /\ aud = None
  | Some _ => wf_pyval (or_none nonce) = true /\ wf_pyval (or_none aud) = true
  end ->
  exists verified,
    issue_present_verify P cfg unsafe claims ik hk add_decoy_claims disclosed
                         nonce aud cb = Ok verified
    /\ py_eq verified (PyDict claims) = true
    /\ wf_pyval verified = true.
Proof.
  intros Hok Hwf Hfull Hcb Hbinding.
  destruct (view_claims_full cfg disclosed Hfull claims Hwf) as [Heq Hwf'].
  exists (view_claims cfg disclosed claims).
  repeat split; auto.
  now apply issue_present_verify_view.
Qed.

Lemma issue_present_verify_roundtrip_witness :
  exists verified,
    issue_present_verify Demo.primitives Demo.everything true Demo.claims
                         "issuer-key" None (PyBool true) PyNone None None
                         (cb_get_issuer_key Demo.claims Demo.keys) = Ok verified
    /\ py_eq verified (PyDict Demo.claims) = true
    /\ wf_pyval verified = true.
Proof.
  apply (issue_present_verify_roundtrip
           Demo.primitives Demo.everything true Demo.claims "issuer-key" None
           (PyBool true) PyNone None None
           (cb_get_issuer_key Demo.claims Demo.keys)).
  - exact demo_primitives_ok.
  - reflexivity.
  - intros k v. reflexivity.
  - reflexivity.
  - split; reflexivity.
Defined.

(** C4.  Decoys never reach the verified claim set.  Whatever the decoy
    placement and whether or not [add_decoy_claims] is set, the decoy
    digests the Issuer lists in [decoy_digests] have no Disclosure: none is
    a key of the Holder's index and none is the digest of a Disclosure of
    the presentation.  The claim set the Verifier returns is the one it
    returns for the same claims issued without decoys, where [decoy_digests]
    is empty. *)
Theorem decoys_never_verified
        (P : Primitives) (cfg : Config) (unsafe : bool) (claims : dict)
        (ik : jwk) (hk : option jwk) (add_decoy_claims disclosed : pyval)
        (nonce aud : option pyval) (cb : pyval -> result jwk) :
  PrimitivesOk P ->
  cb (get_or_none claims "iss") = Ok (pub_of P ik) ->
  match hk with
  | None => nonce = None /\ aud = None
  | Some _ => wf_pyval (or_none nonce) = true /\ wf_pyval (or_none aud) = true
  end ->
  exists io h h' presentation verified io0,
    spec_issuer P cfg unsafe claims ik hk add_decoy_claims = Ok io
    /\ spec_holder P (combined_sd_jwt_iid io) = Ok h
    /\ spec_create_presentation P cfg h disclosed nonce aud hk = Ok h'
    /\ combined_presentation h' = Some presentation
    /\ (forall x, In x (decoy_digests io) ->
                  dict_get x (_hash_to_decoded_disclosure h') = None
                  /\ ~ In x (map (digest P) (c_disclosures presentation)))
    /\ issue_present_verify P cfg unsafe claims ik hk add_decoy_claims disclosed
                            nonce aud cb = Ok verified
    /\ spec_issuer P cfg unsafe claims ik hk (PyBool false) = Ok io0
    /\ decoy_digests io0 = []
    /\ issue_present_verify P cfg unsafe claims ik hk (PyBool false) disclosed
                            nonce aud cb = Ok verified.
Proof.
  intros Hok Hcb Hbinding.
  destruct (spec_pipeline P cfg Hok unsafe claims ik hk add_decoy_claims
              disclosed nonce aud cb Hcb Hbinding)
    as (io & h & h' & presentation & Hio & Hh & Hh' & Hpres & _
        & Hsel & Hindex & Hdisj & _).
  exists io, h, h', presentation, (view_claims cfg disclosed claims).
  eexists. repeat split; auto.
  - rewrite Hindex. apply dict_get_not_in.
    rewrite map_map. simpl. now apply Hdisj.
  - rewrite Hsel. intros Hin. apply (Hdisj x H).
    apply in_map_iff in Hin. destruct Hin as (d & E & Hin).
    apply filter_In in Hin. rewrite <- E. apply in_map. tauto.
  - now apply issue_present_verify_view.
  - simpl. apply issue_claims_no_decoys.
  - now apply issue_present_verify_view.
Qed.

Lemma decoys_never_verified_witness :
  exists io h h' presentation verified io0,
    spec_issuer Demo.primitives Demo.config true Demo.claims
                "issuer-key" None (PyBool true) = Ok io
    /\ spec_holder Demo.primitives (combined_sd_jwt_iid io) = Ok h
    /\ spec_create_presentation Demo.primitives Demo.config h
         (PyDict [("given_name", PyBool true)]) None None None = Ok h'
    /\ combined_presentation h' = Some presentation
    /\ (forall x, In x (decoy_digests io) ->
                  dict_get x (_hash_to_decoded_disclosure h') = None
                  /\ ~ In x (map (digest Demo.primitives)
                                 (c_disclosures presentation)))
    /\ issue_present_verify Demo.primitives Demo.config true Demo.claims
         "issuer-key" None (PyBool true) (PyDict [("given_name", PyBool true)])
         None None (cb_get_issuer_key Demo.claims Demo.keys) = Ok verified
    /\ spec_issuer Demo.primitives Demo.config true Demo.claims
                   "issuer-key" None (PyBool false) = Ok io0
    /\ decoy_digests io0 = []
    /\ issue_present_verify Demo.primitives Demo.config true Demo.claims
         "issuer-key" None (PyBool false) (PyDict [("given_name", PyBool true)])
         None None (cb_get_issuer_key Demo.claims Demo.keys) = Ok verified.
Proof.
  apply (decoys_never_verified
           Demo.primitives Demo.config true Demo.claims "issuer-key" None
           (PyBool true) (PyDict [("given_name", PyBool true)]) None None
           (cb_get_issuer_key Demo.claims Demo.keys)).
  - exact demo_primitives_ok.
  - reflexivity.
  - split; reflexivity.
Defined.

(* ================================================================== *)
(** ** Runs over the engines of the specification *)
(* ================================================================== *)

(** A run whose stages all return writes its artifacts and returns. *)
Lemma run_forward lib settings testcase_path type w
      seed key_settings keys testcase claims io h disclosed nonce aud h'
      presentation v verified :
  py_getitem settings "random_seed" = Ok seed ->
  py_getitem settings "key_settings" = Ok key_settings ->
  get_jwk lib key_settings true seed = Ok keys ->
  load_yaml_example lib testcase_path = Ok testcase ->
  claims_of settings testcase = Ok claims ->
  SDJWTIssuer lib true claims (issuer_key keys) (binding_key testcase keys)
              (get_or_false testcase "add_decoy_claims") = Ok io ->
  SDJWTHolder lib (combined_sd_jwt_iid io) = Ok h ->
  py_getitem (PyDict testcase) "holder_disclosed_claims" = Ok disclosed ->
  if_holder_binding testcase (py_getitem settings "holder_binding_nonce") = Ok nonce ->
  if_holder_binding testcase (verifier_id settings) = Ok aud ->
  create_presentation lib h disclosed nonce aud (binding_key testcase keys) = Ok h' ->
  combined_presentation h' = Some presentation ->
  SDJWTVerifier lib presentation (cb_get_issuer_key claims keys) aud nonce = Ok v ->
  get_verified_payload lib v = Ok verified ->
  existsb (fpath_eqb (parent testcase_path)) (directories w) = true ->
  exists items,
    _artifacts lib testcase type io h' presentation verified = Ok items
    /\ generate_test_case_data lib settings testcase_path type w
       = (Ok tt,
          {| unsafe_randomness := true;
             directories := directories w;
             files := store_artifacts lib (parent testcase_path) type items (files w);
             calls := calls w ++
                      [issuer_call testcase keys claims;
                       HolderCall (combined_sd_jwt_iid io);
                       PresentationCall disclosed nonce aud (binding_key testcase keys);
                       VerifierCall presentation (cb_get_issuer_key claims keys)
                                    aud nonce] |}).
Proof.
  intros Hseed Hks Hkeys Hload Hclaims Hio Hh Hsel Hnonce Haud Hh' Hpres Hv
         Hverified Hdir.
  destruct (claims_of_inv _ _ _ Hclaims)
    as (identifiers & issuer & iat & exp & user_claims & uc
        & _ & _ & _ & _ & Huc & _).
  assert (exists items,
             _artifacts lib testcase type io h' presentation verified = Ok items)
    as [items Hitems].
  { unfold _artifacts. simpl. rewrite Huc. simpl. eexists. reflexivity. }
  exists items. split; auto.
  unfold generate_test_case_data, bindM, lift.
  rewrite Hseed, Hks, Hkeys, Hload, Hclaims.
  unfold issue, present, verify, bindM, lift, set_unsafe_randomness.
  simpl. rewrite !if_holder_binding_key. simpl.
  rewrite Hio, Hh. simpl in Hsel. simpl. rewrite Hsel, Hnonce, Haud. simpl.
  rewrite Hh', Hpres. simpl. rewrite Hv. simpl. rewrite Hverified, Hitems.
  unfold dir_exists. simpl. rewrite Hdir.
  rewrite write_artifacts_spec. simpl.
  unfold record_call. simpl. rewrite <- !app_assoc. reflexivity.
Qed.

Lemma if_holder_binding_inv {A : Type} testcase (x : result A) o :
  if_holder_binding testcase x = Ok o ->
  (truthy (get_or_false testcase "holder_binding") = false /\ o = None)
  \/ (truthy (get_or_false testcase "holder_binding") = true
      /\ exists a, x = Ok a /\ o = Some a).
Proof.
  unfold if_holder_binding.
  destruct (truthy (get_or_false testcase "holder_binding")).
  - destruct x as [a|]; simpl; intros H; inversion H; subst.
    right. split; auto. exists a. auto.
  - intros H. inversion H. now left.
Qed.

(** The callback accepts the [iss] claim of the claims it closes over. *)
Lemma cb_accepts_own_issuer settings testcase claims keys :
  claims_of settings testcase = Ok claims ->
  wf_pyval (PyDict claims) = true ->
  cb_get_issuer_key claims keys (get_or_none claims "iss")
  = Ok (issuer_public_key keys).
Proof.
  intros Hclaims Hwf.
  destruct (cb_get_issuer_key_contract settings testcase claims keys Hclaims)
    as (iss & Hiss & Hok).
  unfold get_or_none. rewrite Hiss, Hok.
  rewrite py_eq_refl; auto. now apply (wf_dict_get claims "iss").
Qed.

Section SpecRun.
Variable P : Primitives.
Variable cfg : Config.
Variable tools : Library.
Hypothesis Hok : PrimitivesOk P.

Let lib := with_spec_engines P cfg tools.

(** On well-formed settings and test case, with the issuer's public key
    matching its signing key, a run over the engines of the specification
    goes through, and the Verifier returns what the presentation
    discloses. *)
Lemma spec_run settings testcase_path type w
      seed key_settings keys testcase claims disclosed nonce aud :
  wf_pyval settings = true ->
  wf_pyval (PyDict testcase) = true ->
  py_getitem settings "random_seed" = Ok seed ->
  py_getitem settings "key_settings" = Ok key_settings ->
  get_jwk tools key_settings true seed = Ok keys ->
  issuer_public_key keys = pub_of P (issuer_key keys) ->
  load_yaml_example tools testcase_path = Ok testcase ->
  claims_of settings testcase = Ok claims ->
  py_getitem (PyDict testcase) "holder_disclosed_claims" = Ok disclosed ->
  if_holder_binding testcase (py_getitem settings "holder_binding_nonce")
  = Ok nonce ->
  if_holder_binding testcase (verifier_id settings) = Ok aud ->
  existsb (fpath_eqb (parent testcase_path)) (directories w) = true ->
  exists io h h' presentation items,
    spec_issuer P cfg true claims (issuer_key keys) (binding_key testcase keys)
                (get_or_false testcase "add_decoy_claims") = Ok io
    /\ spec_holder P (combined_sd_jwt_iid io) = Ok h
    /\ spec_create_presentation P cfg h disclosed nonce aud
                                (binding_key testcase keys) = Ok h'
    /\ combined_presentation h' = Some presentation
    /\ spec_verifier P presentation (cb_get_issuer_key claims keys) aud nonce
       = Ok {| verified_claims := view_claims cfg disclosed claims |}
    /\ is_some (c_hb_jwt presentation) = is_some (binding_key testcase keys)
    /\ _artifacts lib testcase type io h' presentation
                  (view_claims cfg disclosed claims) = Ok items
    /\ generate_test_case_data lib settings testcase_path type w
       = (Ok tt,
          {| unsafe_randomness := true;
             directories := directories w;
             files := store_artifacts lib (parent testcase_path) type items
                                      (files w);
             calls := calls w ++
                      [issuer_call testcase keys claims;
                       HolderCall (combined_sd_jwt_iid io);
                       PresentationCall disclosed nonce aud
                                        (binding_key testcase keys);
                       VerifierCall presentation (cb_get_issuer_key claims keys)
                                    aud nonce] |}).
Proof.
  intros Hws Hwt Hseed Hks Hkeys Hpub Hload Hclaims Hsel Hnonce Haud Hdir.
  pose proof (wf_claims_of _ _ _ Hws Hwt Hclaims) as Hwc.
  assert (cb_get_issuer_key claims keys (get_or_none claims "iss")
          = Ok (pub_of P (issuer_key keys))) as Hcb.
  { rewrite <- Hpub. now apply (cb_accepts_own_issuer settings testcase). }
  assert (match binding_key testcase keys with
          | None => nonce = None /\ aud = None
          | Some _ => wf_pyval (or_none nonce) = true
                      /\ wf_pyval (or_none aud) = true
          end) as Hbinding.
  { unfold binding_key.
    destruct (if_holder_binding_inv _ _ _ Hnonce) as [[Hoff ->]|[Hon (x & Hx & ->)]];
      destruct (if_holder_binding_inv _ _ _ Haud) as [[Hoff' ->]|[Hon' (y & Hy & ->)]];
      try congruence.
    - now rewrite Hoff.
    - rewrite Hon. simpl. split.
      + now apply (wf_getitem settings "holder_binding_nonce").
      + unfold verifier_id in Hy.
        destruct (py_getitem settings "identifiers") as [ids|] eqn:E;
          [|discriminate].
        simpl in Hy. apply (wf_getitem ids "verifier"); auto.
        now apply (wf_getitem settings "identifiers"). }
  destruct (spec_pipeline P cfg Hok true claims (issuer_key keys)
              (binding_key testcase keys)
              (get_or_false testcase "add_decoy_claims")
              disclosed nonce aud (cb_get_issuer_key claims keys) Hcb Hbinding)
    as (io & h & h' & presentation & Hio & Hh & Hh' & Hpres & Hv
        & _ & _ & _ & Hhb & _).
  destruct (run_forward lib settings testcase_path type w
              seed key_settings keys testcase claims io h disclosed nonce aud h'
              presentation _ (view_claims cfg disclosed claims)
              Hseed Hks Hkeys Hload Hclaims Hio Hh Hsel Hnonce Haud Hh' Hpres Hv
              eq_refl Hdir)
    as (items & Hitems & Hrun).
  exists io, h, h', presentation, items. repeat split; auto.
Qed.
End SpecRun.

(** Without holder binding in the test case, no engine call of a run carries
    a Holder key, a nonce or an audience, whatever the library. *)
Lemma calls_without_binding lib settings testcase_path type w r w' testcase trace :
  load_yaml_example lib testcase_path = Ok testcase ->
  truthy (get_or_false testcase "holder_binding") = false ->
  generate_test_case_data lib settings testcase_path type w = (r, w') ->
  calls w' = calls w ++ trace ->
  Forall binding_free trace.
Proof.
  intros Hload Hoff Hrun Hcalls.
  destruct (run_trace _ _ _ _ _ _ _ Hrun)
    as [[Hsame _]|(testcase0 & keys & claims & trace0 & Hload0 & _ & Ht & Hc & _)].
  - rewrite Hsame in Hcalls. rewrite <- (app_nil_r (calls w)) in Hcalls at 1.
    apply app_inv_head in Hcalls. subst. constructor.
  - rewrite Hc in Hcalls. apply app_inv_head in Hcalls. subst trace0.
    rewrite Hload in Hload0. inversion Hload0; subst testcase0.
    assert (binding_key testcase keys = None) as Hkey
        by (unfold binding_key; now rewrite Hoff).
    assert (forall A (x : result A) o, if_holder_binding testcase x = Ok o -> o = None)
      as Hnone.
    { intros A x o. unfold if_holder_binding. rewrite Hoff. congruence. }
    destruct Ht; unfold issuer_call; rewrite Hkey;
      repeat match goal with
             | H : if_holder_binding _ _ = Ok _ |- _ => apply Hnone in H; subst
             end;
      repeat constructor.
Qed.

(** C5.  Absence of holder binding is a valid state.  For a test case
    without holder binding, [create_presentation] receives [None] for nonce,
    audience and Holder key, the Verifier is constructed with [None] for the
    expected audience and nonce, the presentation carries no Holder-Binding
    Object, and verification succeeds: [get_verified_payload] returns the
    claim set the presentation discloses, which the run writes to
    [verified_contents.json].  The absent arguments are the script's doing:
    with any library in place of the engines, no call of a run on this test
    case carries a Holder key, a nonce or an audience. *)
Theorem verification_succeeds_without_binding
        (P : Primitives) (cfg : Config) (tools : Library)
        settings testcase_path type w seed key_settings keys testcase claims
        disclosed :
  PrimitivesOk P ->
  wf_pyval settings = true ->
  wf_pyval (PyDict testcase) = true ->
  py_getitem settings "random_seed" = Ok seed ->
  py_getitem settings "key_settings" = Ok key_settings ->
  get_jwk tools key_settings true seed = Ok keys ->
  issuer_public_key keys = pub_of P (issuer_key keys) ->
  load_yaml_example tools testcase_path = Ok testcase ->
  claims_of settings testcase = Ok claims ->
  py_getitem (PyDict testcase) "holder_disclosed_claims" = Ok disclosed ->
  truthy (get_or_false testcase "holder_binding") = false ->
  existsb (fpath_eqb (parent testcase_path)) (directories w) = true ->
  exists w' io presentation,
    generate_test_case_data (with_spec_engines P cfg tools) settings
                            testcase_path type w = (Ok tt, w')
    /\ calls w'
       = calls w ++
         [IssuerCall true claims (issuer_key keys) None
                     (get_or_false testcase "add_decoy_claims");
          HolderCall (combined_sd_jwt_iid io);
          PresentationCall disclosed None None None;
          VerifierCall presentation (cb_get_issuer_key claims keys) None None]
    /\ c_hb_jwt presentation = None
    /\ (v <- SDJWTVerifier (with_spec_engines P cfg tools) presentation
               (cb_get_issuer_key claims keys) None None ;;
        get_verified_payload (with_spec_engines P cfg tools) v)%py
       = Ok (view_claims cfg disclosed claims)
    /\ read_file (parent testcase_path ++ ["verified_contents.json"]) (files w')
       = Some (formatter (with_spec_engines P cfg tools) type
                 (DataJson (view_claims cfg disclosed claims)) "json")
    /\ (forall any type0 w0 r0 w0' trace,
           load_yaml_example any testcase_path = Ok testcase ->
           generate_test_case_data any settings testcase_path type0 w0 = (r0, w0') ->
           calls w0' = calls w0 ++ trace ->
           Forall binding_free trace).
Proof.
  intros Hok Hws Hwt Hseed Hks Hkeys Hpub Hload Hclaims Hsel Hoff Hdir.
  assert (forall A (x : result A), if_holder_binding testcase x = Ok None) as Hnone.
  { intros A x. unfold if_holder_binding. now rewrite Hoff. }
  destruct (spec_run P cfg tools Hok settings testcase_path type w
              seed key_settings keys testcase claims disclosed None None
              Hws Hwt Hseed Hks Hkeys Hpub Hload Hclaims Hsel
              (Hnone _ _) (Hnone _ _) Hdir)
    as (io & h & h' & presentation & items & Hio & Hh & Hh' & Hpres & Hv & Hhb
        & Hitems & Hrun).
  assert (binding_key testcase keys = None) as Hkey
      by (unfold binding_key; now rewrite Hoff).
  rewrite Hkey in *.
  eexists _, io, presentation. split; [exact Hrun|]. simpl.
  destruct (artifacts_files _ _ _ _ _ _ _ _ Hitems)
    as (Hnd & _ & _ & _ & _ & Hverified & _).
  repeat split.
  - unfold issuer_call. now rewrite Hkey.
  - destruct (c_hb_jwt presentation); [discriminate|reflexivity].
  - now rewrite Hv.
  - now apply read_stored.
  - intros any type0 w0 r0 w0' trace Hload0 Hrun0 Hcalls0.
    now apply (calls_without_binding any settings testcase_path type0 w0 r0 w0'
                 testcase trace).
Qed.

Lemma verification_succeeds_without_binding_witness :
  exists w' io presentation,
    generate_test_case_data
      (with_spec_engines Demo.primitives Demo.config (Demo.tools_for Demo.testcase))
      Demo.settings Demo.testcase_path "testcase" Demo.start = (Ok tt, w')
    /\ calls w'
       = calls Demo.start ++
         [IssuerCall true Demo.claims (issuer_key Demo.keys) None
                     (get_or_false Demo.testcase "add_decoy_claims");
          HolderCall (combined_sd_jwt_iid io);
          PresentationCall (PyDict [("given_name", PyBool true)]) None None None;
          VerifierCall presentation (cb_get_issuer_key Demo.claims Demo.keys)
                       None None]
    /\ c_hb_jwt presentation = None
    /\ (v <- SDJWTVerifier
               (with_spec_engines Demo.primitives Demo.config
                  (Demo.tools_for Demo.testcase))
               presentation (cb_get_issuer_key Demo.claims Demo.keys) None None ;;
        get_verified_payload
          (with_spec_engines Demo.primitives Demo.config
             (Demo.tools_for Demo.testcase)) v)%py
       = Ok (view_claims Demo.config (PyDict [("given_name", PyBool true)])
               Demo.claims)
    /\ read_file (parent Demo.testcase_path ++ ["verified_contents.json"]) (files w')
       = Some (formatter
                 (with_spec_engines Demo.primitives Demo.config
                    (Demo.tools_for Demo.testcase)) "testcase"
                 (DataJson (view_claims Demo.config
                              (PyDict [("given_name", PyBool true)]) Demo.claims))
                 "json")
    /\ (forall any type0 w0 r0 w0' trace,
           load_yaml_example any Demo.testcase_path = Ok Demo.testcase ->
           generate_test_case_data any Demo.settings Demo.testcase_path type0 w0
           = (r0, w0') ->
           calls w0' = calls w0 ++ trace ->
           Forall binding_free trace).
Proof.
  apply (verification_succeeds_without_binding
           Demo.primitives Demo.config (Demo.tools_for Demo.testcase)
           Demo.settings Demo.testcase_path "testcase" Demo.start
           (PyInt 0) (PyDict [("key_size", PyInt 256)]) Demo.keys
           Demo.testcase Demo.claims (PyDict [("given_name", PyBool true)])).
  - exact demo_primitives_ok.
  - reflexivity.
  - reflexivity.
  - reflexivity.
  - reflexivity.
  - reflexivity.
  - reflexivity.
  - reflexivity.
  - reflexivity.
  - reflexivity.
  - reflexivity.
  - reflexivity.
Defined.

(** C10.  A test case's own [iss] wins.  When the user claims carry an
    [iss], the claim set handed to the Issuer holds that value under [iss];
    the callback returns the issuer's public key on it and raises on the
    issuer of the settings when the two differ; and the run verifies: the
    Verifier, given that callback, returns the claim set the presentation
    discloses. *)
Theorem user_iss_overrides_issuer
        (P : Primitives) (cfg : Config) (tools : Library)
        settings testcase_path type w seed key_settings keys testcase claims
        uc iss disclosed nonce aud :
  PrimitivesOk P ->
  wf_pyval settings = true ->
  wf_pyval (PyDict testcase) = true ->
  py_getitem settings "random_seed" = Ok seed ->
  py_getitem settings "key_settings" = Ok key_settings ->
  get_jwk tools key_settings true seed = Ok keys ->
  issuer_public_key keys = pub_of P (issuer_key keys) ->
  load_yaml_example tools testcase_path = Ok testcase ->
  claims_of settings testcase = Ok claims ->
  dict_get "user_claims" testcase = Some (PyDict uc) ->
  dict_get "iss" uc = Some iss ->
  py_getitem (PyDict testcase) "holder_disclosed_claims" = Ok disclosed ->
  if_holder_binding testcase (py_getitem settings "holder_binding_nonce")
  = Ok nonce ->
  if_holder_binding testcase (verifier_id settings) = Ok aud ->
  existsb (fpath_eqb (parent testcase_path)) (directories w) = true ->
  dict_get "iss" claims = Some iss
  /\ cb_get_issuer_key claims keys iss = Ok (issuer_public_key keys)
  /\ (forall identifiers issuer,
         py_getitem settings "identifiers" = Ok identifiers ->
         py_getitem identifiers "issuer" = Ok issuer ->
         py_eq issuer iss = false ->
         cb_get_issuer_key claims keys issuer
         = Raise (Exception "Unknown issuer: " issuer))
  /\ exists w' io presentation,
      generate_test_case_data (with_spec_engines P cfg tools) settings
                              testcase_path type w = (Ok tt, w')
      /\ calls w'
         = calls w ++
           [IssuerCall true claims (issuer_key keys) (binding_key testcase keys)
                       (get_or_false testcase "add_decoy_claims");
            HolderCall (combined_sd_jwt_iid io);
            PresentationCall disclosed nonce aud (binding_key testcase keys);
            VerifierCall presentation (cb_get_issuer_key claims keys) aud nonce]
      /\ (v <- SDJWTVerifier (with_spec_engines P cfg tools) presentation
                 (cb_get_issuer_key claims keys) aud nonce ;;
          get_verified_payload (with_spec_engines P cfg tools) v)%py
         = Ok (view_claims cfg disclosed claims).
Proof.
  intros Hok Hws Hwt Hseed Hks Hkeys Hpub Hload Hclaims Huc Hiss Hsel Hnonce Haud
         Hdir.
  assert (dict_get "iss" claims = Some iss) as Hget.
  { destruct (claims_of_inv _ _ _ Hclaims)
      as (identifiers & issuer & iat & exp & user_claims & uc'
          & _ & _ & _ & _ & Huc' & Hpairs & ->).
    rewrite Huc in Huc'. inversion Huc'; subst user_claims.
    inversion Hpairs; subst uc'.
    pose proof (wf_dict_get _ _ _ Hwt Huc) as Wuc.
    simpl in Wuc. apply andb_true_iff in Wuc. destruct Wuc as [Hnd _].
    apply nodup_keys_NoDup in Hnd.
    rewrite dict_get_update by assumption. now rewrite Hiss. }
  destruct (cb_get_issuer_key_contract settings testcase claims keys Hclaims)
    as (iss' & Hiss' & Hcb).
  rewrite Hget in Hiss'. inversion Hiss'; subst iss'.
  pose proof (wf_claims_of _ _ _ Hws Hwt Hclaims) as Hwc.
  split; auto. split.
  { rewrite Hcb, py_eq_refl; auto. now apply (wf_dict_get claims "iss"). }
  split.
  { intros identifiers issuer _ _ Hne. now rewrite Hcb, Hne. }
  destruct (spec_run P cfg tools Hok settings testcase_path type w
              seed key_settings keys testcase claims disclosed nonce aud
              Hws Hwt Hseed Hks Hkeys Hpub Hload Hclaims Hsel Hnonce Haud Hdir)
    as (io & h & h' & presentation & items & Hio & Hh & Hh' & Hpres & Hv & Hhb
        & Hitems & Hrun).
  eexists _, io, presentation. split; [exact Hrun|]. simpl.
  split; [reflexivity|]. now rewrite Hv.
Qed.

Lemma user_iss_overrides_issuer_witness :
  dict_get "iss" (("iss", PyStr "https://other.example")
                    :: ("iat", PyInt 1683000000) :: ("exp", PyInt 1883000000)
                    :: Demo.user_claims)
  = Some (PyStr "https://other.example")
  /\ cb_get_issuer_key (("iss", PyStr "https://other.example")
                          :: ("iat", PyInt 1683000000) :: ("exp", PyInt 1883000000)
                          :: Demo.user_claims)
                       Demo.keys (PyStr "https://other.example")
     = Ok (issuer_public_key Demo.keys)
  /\ (forall identifiers issuer,
         py_getitem Demo.settings "identifiers" = Ok identifiers ->
         py_getitem identifiers "issuer" = Ok issuer ->
         py_eq issuer (PyStr "https://other.example") = false ->
         cb_get_issuer_key (("iss", PyStr "https://other.example")
                              :: ("iat", PyInt 1683000000)
                              :: ("exp", PyInt 1883000000) :: Demo.user_claims)
                           Demo.keys issuer
         = Raise (Exception "Unknown issuer: " issuer))
  /\ exists w' io presentation,
      generate_test_case_data
        (with_spec_engines Demo.primitives Demo.config
           (Demo.tools_for Demo.testcase_own_iss))
        Demo.settings Demo.testcase_path "example" Demo.start = (Ok tt, w')
      /\ calls w'
         = calls Demo.start ++
           [IssuerCall true
                       (("iss", PyStr "https://other.example")
                          :: ("iat", PyInt 1683000000)
                          :: ("exp", PyInt 1883000000) :: Demo.user_claims)
                       (issuer_key Demo.keys)
                       (binding_key Demo.testcase_own_iss Demo.keys)
                       (get_or_false Demo.testcase_own_iss "add_decoy_claims");
            HolderCall (combined_sd_jwt_iid io);
            PresentationCall (PyDict [("given_name", PyBool true)])
                             (Some (PyStr "1234567890"))
                             (Some (PyStr "https://example.com/verifier"))
                             (binding_key Demo.testcase_own_iss Demo.keys);
            VerifierCall presentation
                         (cb_get_issuer_key
                            (("iss", PyStr "https://other.example")
                               :: ("iat", PyInt 1683000000)
                               :: ("exp", PyInt 1883000000) :: Demo.user_claims)
                            Demo.keys)
                         (Some (PyStr "https://example.com/verifier"))
                         (Some (PyStr "1234567890"))]
      /\ (v <- SDJWTVerifier
                 (with_spec_engines Demo.primitives Demo.config
                    (Demo.tools_for Demo.testcase_own_iss))
                 presentation
                 (cb_get_issuer_key
                    (("iss", PyStr "https://other.example")
                       :: ("iat", PyInt 1683000000)
                       :: ("exp", PyInt 1883000000) :: Demo.user_claims)
                    Demo.keys)
                 (Some (PyStr "https://example.com/verifier"))
                 (Some (PyStr "1234567890")) ;;
          get_verified_payload
            (with_spec_engines Demo.primitives Demo.config
               (Demo.tools_for Demo.testcase_own_iss)) v)%py
         = Ok (view_claims Demo.config (PyDict [("given_name", PyBool true)])
                 (("iss", PyStr "https://other.example")
                    :: ("iat", PyInt 1683000000)
                    :: ("exp", PyInt 1883000000) :: Demo.user_claims)).
Proof.
  apply (user_iss_overrides_issuer
           Demo.primitives Demo.config (Demo.tools_for Demo.testcase_own_iss)
           Demo.settings Demo.testcase_path "example" Demo.start
           (PyInt 0) (PyDict [("key_size", PyInt 256)]) Demo.keys
           Demo.testcase_own_iss
           (("iss", PyStr "https://other.example")
              :: ("iat", PyInt 1683000000) :: ("exp", PyInt 1883000000)
              :: Demo.user_claims)
           (("iss", PyStr "https://other.example") :: Demo.user_claims)
           (PyStr "https://other.example")
           (PyDict [("given_name", PyBool true)])
           (Some (PyStr "1234567890"))
           (Some (PyStr "https://example.com/verifier"))).
  - exact demo_primitives_ok.
  - reflexivity.
  - reflexivity.
  - reflexivity.
  - reflexivity.
  - reflexivity.
  - reflexivity.
  - reflexivity.
  - reflexivity.
  - reflexivity.
  - reflexivity.
  - reflexivity.
  - reflexivity.
  - reflexivity.
  - reflexivity.
Defined.


(* ================================================================== *)
(** ** Runs that stop on the way *)
(* ================================================================== *)

(** Unfold a run whose keys, test case and claims are known. *)
Ltac run_prepared Hprep :=
  let seed := fresh "seed" in
  let ks := fresh "ks" in
  let Hseed := fresh "Hseed" in
  let Hks := fresh "Hks" in
  let Hkeys := fresh "Hkeys" in
  let Hload := fresh "Hload" in
  let Hclaims := fresh "Hclaims" in
  destruct Hprep as ((seed & ks & Hseed & Hks & Hkeys) & Hload & Hclaims);
  unfold generate_test_case_data, bindM, lift;
  rewrite Hseed, Hks, Hkeys, Hload, Hclaims;
  unfold issue, present, verify, bindM, lift, set_unsafe_randomness;
  simpl; rewrite ?if_holder_binding_key; simpl.

Lemma completed_prepared lib settings testcase keys claims testcase_path type w w' :
  completed lib settings testcase keys claims testcase_path type w w' ->
  prepared lib settings testcase_path keys testcase claims.
Proof.
  intros [Hjwk Hload Hclaims _]. repeat split; auto.
Qed.

(** The Issuer's exception is the run's: the class attribute stays set, the
    Issuer call is the only one made, and nothing is written. *)
Theorem issuer_exception_propagates
        lib settings testcase_path type w keys testcase claims e :
  prepared lib settings testcase_path keys testcase claims ->
  SDJWTIssuer lib true claims (issuer_key keys) (binding_key testcase keys)
              (get_or_false testcase "add_decoy_claims") = Raise e ->
  generate_test_case_data lib settings testcase_path type w
  = (Raise e,
     {| unsafe_randomness := true;
        directories := directories w;
        files := files w;
        calls := calls w ++ [issuer_call testcase keys claims] |}).
Proof.
  intros Hprep Hio. run_prepared Hprep. now rewrite Hio.
Qed.

Lemma issuer_exception_propagates_witness :
  generate_test_case_data (Demo.tools_for Demo.testcase) Demo.settings
                          Demo.testcase_path "testcase" Demo.start
  = (Raise (EngineError SigningError),
     {| unsafe_randomness := true;
        directories := directories Demo.start;
        files := files Demo.start;
        calls := calls Demo.start
                 ++ [issuer_call Demo.testcase Demo.keys Demo.claims] |}).
Proof.
  apply (issuer_exception_propagates
           (Demo.tools_for Demo.testcase) Demo.settings Demo.testcase_path
           "testcase" Demo.start Demo.keys Demo.testcase Demo.claims
           (EngineError SigningError)).
  - repeat split; try reflexivity.
    exists (PyInt 0), (PyDict [("key_size", PyInt 256)]).
    repeat split; reflexivity.
  - reflexivity.
Defined.

(** A test case without [holder_disclosed_claims] fails with [KeyError] only
    after the Issuer and the Holder were built: both calls are made, the
    class attribute is set, [create_presentation] is never called and
    nothing is written. *)
Theorem missing_selection_raises_after_issuance
        lib settings testcase_path type w keys testcase claims io h :
  prepared lib settings testcase_path keys testcase claims ->
  SDJWTIssuer lib true claims (issuer_key keys) (binding_key testcase keys)
              (get_or_false testcase "add_decoy_claims") = Ok io ->
  SDJWTHolder lib (combined_sd_jwt_iid io) = Ok h ->
  dict_get "holder_disclosed_claims" testcase = None ->
  generate_test_case_data lib settings testcase_path type w
  = (Raise (KeyError "holder_disclosed_claims"),
     {| unsafe_randomness := true;
        directories := directories w;
        files := files w;
        calls := calls w ++ [issuer_call testcase keys claims;
                             HolderCall (combined_sd_jwt_iid io)] |}).
Proof.
  intros Hprep Hio Hh Hnone. run_prepared Hprep.
  rewrite Hio, Hh. simpl. rewrite Hnone. simpl.
  unfold record_call. simpl. now rewrite <- app_assoc.
Qed.

Lemma missing_selection_raises_after_issuance_witness :
  exists io,
    generate_test_case_data (Demo.library DemoRuns.testcase_no_selection)
                            Demo.settings Demo.testcase_path "testcase" Demo.start
    = (Raise (KeyError "holder_disclosed_claims"),
       {| unsafe_randomness := true;
          directories := directories Demo.start;
          files := files Demo.start;
          calls := calls Demo.start
                   ++ [issuer_call DemoRuns.testcase_no_selection Demo.keys
                                   Demo.claims;
                       HolderCall (combined_sd_jwt_iid io)] |}).
Proof.
  eexists.
  eapply (missing_selection_raises_after_issuance
            (Demo.library DemoRuns.testcase_no_selection) Demo.settings
            Demo.testcase_path "testcase" Demo.start Demo.keys
            DemoRuns.testcase_no_selection Demo.claims).
  - repeat split; try reflexivity.
    exists (PyInt 0), (PyDict [("key_size", PyInt 256)]).
    repeat split; reflexivity.
  - reflexivity.
  - reflexivity.
  - reflexivity.
Defined.

(** A test case without [user_claims] fails with [KeyError] before anything
    else happens: no engine is called, the class attribute is not touched
    and nothing is written. *)
Theorem missing_user_claims_raises_first
        lib settings testcase_path type w seed key_settings keys testcase
        identifiers issuer iat exp :
  py_getitem settings "random_seed" = Ok seed ->
  py_getitem settings "key_settings" = Ok key_settings ->
  get_jwk lib key_settings true seed = Ok keys ->
  load_yaml_example lib testcase_path = Ok testcase ->
  py_getitem settings "identifiers" = Ok identifiers ->
  py_getitem identifiers "issuer" = Ok issuer ->
  py_getitem settings "iat" = Ok iat ->
  py_getitem settings "exp" = Ok exp ->
  dict_get "user_claims" testcase = None ->
  generate_test_case_data lib settings testcase_path type w
  = (Raise (KeyError "user_claims"), w).
Proof.
  intros Hseed Hks Hkeys Hload Hid Hiss Hiat Hexp Hnone.
  unfold generate_test_case_data, bindM, lift.
  rewrite Hseed, Hks, Hkeys, Hload.
  unfold claims_of. rewrite Hid. simpl. rewrite Hiss. simpl.
  rewrite Hiat. simpl. rewrite Hexp. simpl. now rewrite Hnone.
Qed.

Lemma missing_user_claims_raises_first_witness :
  generate_test_case_data (Demo.library DemoRuns.testcase_no_claims)
                          Demo.settings Demo.testcase_path "testcase" Demo.start
  = (Raise (KeyError "user_claims"), Demo.start).
Proof.
  apply (missing_user_claims_raises_first
           (Demo.library DemoRuns.testcase_no_claims) Demo.settings
           Demo.testcase_path "testcase" Demo.start
           (PyInt 0) (PyDict [("key_size", PyInt 256)]) Demo.keys
           DemoRuns.testcase_no_claims
           (PyDict [("issuer", PyStr "https://example.com/issuer");
                    ("verifier", PyStr "https://example.com/verifier")])
           (PyStr "https://example.com/issuer")
           (PyInt 1683000000) (PyInt 1883000000));
    reflexivity.
Defined.

(** When the Verifier raises, the run raises the same exception and writes
    nothing: not even the artifacts of issuance and presentation, which were
    already at hand. *)
Theorem verifier_exception_leaves_no_artifact
        lib settings testcase_path type w keys testcase claims
        io h disclosed nonce aud h' presentation e :
  prepared lib settings testcase_path keys testcase claims ->
  SDJWTIssuer lib true claims (issuer_key keys) (binding_key testcase keys)
              (get_or_false testcase "add_decoy_claims") = Ok io ->
  SDJWTHolder lib (combined_sd_jwt_iid io) = Ok h ->
  py_getitem (PyDict testcase) "holder_disclosed_claims" = Ok disclosed ->
  if_holder_binding testcase (py_getitem settings "holder_binding_nonce") = Ok nonce ->
  if_holder_binding testcase (verifier_id settings) = Ok aud ->
  create_presentation lib h disclosed nonce aud (binding_key testcase keys) = Ok h' ->
  combined_presentation h' = Some presentation ->
  SDJWTVerifier lib presentation (cb_get_issuer_key claims keys) aud nonce = Raise e ->
  generate_test_case_data lib settings testcase_path type w
  = (Raise e,
     {| unsafe_randomness := true;
        directories := directories w;
        files := files w;
        calls := calls w ++
                 [issuer_call testcase keys claims;
                  HolderCall (combined_sd_jwt_iid io);
                  PresentationCall disclosed nonce aud (binding_key testcase keys);
                  VerifierCall presentation (cb_get_issuer_key claims keys)
                               aud nonce] |}).
Proof.
  intros Hprep Hio Hh Hsel Hnonce Haud Hh' Hpres Hv. run_prepared Hprep.
  rewrite Hio, Hh. simpl in Hsel. simpl. rewrite Hsel, Hnonce, Haud. simpl.
  rewrite Hh', Hpres. simpl. rewrite Hv. simpl.
  unfold record_call. simpl. now rewrite <- !app_assoc.
Qed.

Lemma verifier_exception_leaves_no_artifact_witness :
  exists io presentation,
    generate_test_case_data (DemoRuns.rejecting Demo.testcase) Demo.settings
                            Demo.testcase_path "testcase" Demo.start
    = (Raise (EngineError InvalidSignatureError),
       {| unsafe_randomness := true;
          directories := directories Demo.start;
          files := files Demo.start;
          calls := calls Demo.start ++
                   [issuer_call Demo.testcase Demo.keys Demo.claims;
                    HolderCall (combined_sd_jwt_iid io);
                    PresentationCall (PyDict [("given_name", PyBool true)])
                                     None None
                                     (binding_key Demo.testcase Demo.keys);
                    VerifierCall presentation
                                 (cb_get_issuer_key Demo.claims Demo.keys)
                                 None None] |}).
Proof.
  do 2 eexists.
  eapply (verifier_exception_leaves_no_artifact
            (DemoRuns.rejecting Demo.testcase) Demo.settings
            Demo.testcase_path "testcase" Demo.start Demo.keys
            Demo.testcase Demo.claims).
  - repeat split; try reflexivity.
    exists (PyInt 0), (PyDict [("key_size", PyInt 256)]).
    repeat split; reflexivity.
  - reflexivity.
  - reflexivity.
  - reflexivity.
  - reflexivity.
  - reflexivity.
  - reflexivity.
  - reflexivity.
  - reflexivity.
Defined.

(* ================================================================== *)
(** ** What a run leaves alone *)
(* ================================================================== *)

(** A run that raises has written nothing and created no directory. *)
Lemma run_raise_keeps_files lib settings testcase_path type w e w' :
  generate_test_case_data lib settings testcase_path type w = (Raise e, w') ->
  files w' = files w /\ directories w' = directories w.
Proof.
  unfold generate_test_case_data, bindM, lift. intros H.
  destruct (py_getitem settings "random_seed") as [seed|];
    [|inversion H; subst; now split].
  destruct (py_getitem settings "key_settings") as [ks|];
    [|inversion H; subst; now split].
  destruct (get_jwk lib ks true seed) as [keys|];
    [|inversion H; subst; now split].
  destruct (load_yaml_example lib testcase_path) as [testcase|];
    [|inversion H; subst; now split].
  destruct (claims_of settings testcase) as [claims|];
    [|inversion H; subst; now split].
  unfold issue, present, verify, bindM, lift, set_unsafe_randomness in H.
  simpl in H. rewrite !if_holder_binding_key in H. simpl in H.
  unfold record_call in H. simpl in H.
  destruct (SDJWTIssuer lib true claims (issuer_key keys)
              (binding_key testcase keys)
              (get_or_false testcase "add_decoy_claims")) as [io|];
    [|inversion H; subst; now split].
  destruct (SDJWTHolder lib (combined_sd_jwt_iid io)) as [h|]; simpl in H;
    [|inversion H; subst; now split].
  destruct (match dict_get "holder_disclosed_claims" testcase with
            | Some x => Ok x
            | None => Raise (KeyError "holder_disclosed_claims")
            end) as [disclosed|];
    [|inversion H; subst; now split].
  destruct (if_holder_binding testcase (py_getitem settings "holder_binding_nonce"))
    as [nonce|]; [|inversion H; subst; now split].
  destruct (if_holder_binding testcase (verifier_id settings)) as [aud|];
    simpl in H; [|inversion H; subst; now split].
  destruct (create_presentation lib h disclosed nonce aud
              (binding_key testcase keys)) as [h'|];
    [|inversion H; subst; now split].
  destruct (combined_presentation h') as [presentation|]; simpl in H;
    [|inversion H; subst; now split].
  destruct (SDJWTVerifier lib presentation (cb_get_issuer_key claims keys) aud nonce)
    as [v|]; simpl in H; [|inversion H; subst; now split].
  destruct (get_verified_payload lib v) as [verified|];
    [|inversion H; subst; now split].
  destruct (_artifacts lib testcase type io h' presentation verified)
    as [items|]; [|inversion H; subst; now split].
  unfold dir_exists in H. simpl in H.
  destruct (existsb (fpath_eqb (parent testcase_path)) (directories w)).
  - rewrite write_artifacts_spec in H. discriminate H.
  - inversion H; subst. now split.
Qed.

(** Lines 159-179.  Where the directory of the test case file does not
    exist, a run does not return, writes no file and creates no directory. *)
Theorem missing_output_directory_writes_nothing
        lib settings testcase_path type w r w' :
  existsb (fpath_eqb (parent testcase_path)) (directories w) = false ->
  generate_test_case_data lib settings testcase_path type w = (r, w') ->
  (exists e, r = Raise e)
  /\ files w' = files w
  /\ directories w' = directories w.
Proof.
  intros Hdir Hrun. destruct r as [[]|e].
  - destruct (run_ok_inv _ _ _ _ _ _ Hrun) as (testcase & keys & claims & Hdone).
    destruct Hdone as [_ _ _ Hstages].
    destruct Hstages as (io & h & disclosed & nonce & aud & h' & presentation & v
                         & verified & items & _ & _ & _ & _ & _ & _ & _ & _ & _
                         & _ & Hfound & _).
    congruence.
  - split; [now exists e|].
    now apply (run_raise_keeps_files _ _ _ _ _ _ _ Hrun).
Qed.

Lemma missing_output_directory_writes_nothing_witness :
  let run := generate_test_case_data (Demo.library Demo.testcase)
               Demo.settings Demo.testcase_path "testcase"
               DemoRuns.start_without_directory in
  (exists e, fst run = Raise e)
  /\ files (snd run) = files DemoRuns.start_without_directory
  /\ directories (snd run) = directories DemoRuns.start_without_directory.
Proof.
  intros run.
  apply (missing_output_directory_writes_nothing
           (Demo.library Demo.testcase) Demo.settings Demo.testcase_path
           "testcase" DemoRuns.start_without_directory (fst run) (snd run)).
  - reflexivity.
  - vm_compute. reflexivity.
Defined.

Lemma parent_in_dir (dir : fpath) (name : string) : parent (dir ++ [name]) = dir.
Proof. unfold parent. apply removelast_last. Qed.

(** The loop writes nowhere but at the names of its dictionary. *)
Lemma read_stored_elsewhere lib dir type items fs p :
  (forall name, In name (map fst (files_of lib type items)) -> p <> dir ++ [name]) ->
  read_file p (store_artifacts lib dir type items fs) = read_file p fs.
Proof.
  revert fs. induction items as [|[key item] rest IH]; intros fs Hout; auto.
  destruct item as [|data desc ftype];
    cbn [files_of store_artifacts map fst] in *.
  - now apply IH.
  - rewrite IH by (intros name Hn; apply Hout; now right).
    rewrite read_store.
    destruct (fpath_eqb p (dir ++ [(key ++ "." ++ ftype)%string])) eqn:E; auto.
    apply fpath_eqb_eq in E. exfalso. apply (Hout (key ++ "." ++ ftype)%string); auto.
    now left.
Qed.

(** The file names of an [_artifacts] dictionary. *)
Lemma artifacts_names lib testcase type io h presentation verified items :
  _artifacts lib testcase type io h presentation verified = Ok items ->
  map fst (files_of lib type items)
  = artifact_file_names type (truthy (get_or_false testcase "add_decoy_claims")).
Proof.
  unfold _artifacts, artifact_file_names. intros H.
  destruct (py_getitem (PyDict testcase) "user_claims") as [uc|]; [|discriminate].
  simpl in H.
  destruct (String.eqb type "example") eqn:Etype;
    destruct (truthy (get_or_false testcase "add_decoy_claims")) eqn:Edec;
    simpl in H; inversion H; subst; reflexivity.
Qed.

(** A run, whatever its outcome, changes no file but the artifact files of
    the test case's own directory, and creates no directory.  The artifact
    files are the eight fixed ones, [disclosures.md] for an example, and one
    decoy file when the test case asks for decoys. *)
Theorem run_changes_only_its_artifacts
        lib settings testcase_path type w r w' p :
  generate_test_case_data lib settings testcase_path type w = (r, w') ->
  (forall testcase name,
      load_yaml_example lib testcase_path = Ok testcase ->
      In name (artifact_file_names
                 type (truthy (get_or_false testcase "add_decoy_claims"))) ->
      p <> parent testcase_path ++ [name]) ->
  read_file p (files w') = read_file p (files w)
  /\ directories w' = directories w.
Proof.
  intros Hrun Hout. destruct r as [[]|e].
  - destruct (run_ok_inv _ _ _ _ _ _ Hrun) as (testcase & keys & claims & Hdone).
    destruct Hdone as [_ Hload _ Hstages].
    destruct Hstages as (io & h & disclosed & nonce & aud & h' & presentation & v
                         & verified & items & _ & _ & _ & _ & _ & _ & _ & _ & _
                         & Hitems & _ & ->).
    simpl. split; auto.
    apply read_stored_elsewhere. intros name Hname.
    rewrite (artifacts_names _ _ _ _ _ _ _ _ Hitems) in Hname.
    now apply (Hout testcase).
  - destruct (run_raise_keeps_files _ _ _ _ _ _ _ Hrun) as [-> ->]. now split.
Qed.

Lemma run_changes_only_its_artifacts_witness :
  let w' := snd (generate_test_case_data (Demo.library Demo.testcase)
                   Demo.settings Demo.testcase_path "testcase" Demo.start) in
  read_file ["testcases"; "demo"; "decoy_digests.md"] (files w')
  = read_file ["testcases"; "demo"; "decoy_digests.md"] (files Demo.start)
  /\ directories w' = directories Demo.start.
Proof.
  intros w'.
  apply (run_changes_only_its_artifacts
           (Demo.library Demo.testcase) Demo.settings Demo.testcase_path
           "testcase" Demo.start (Ok tt) w').
  - vm_compute. reflexivity.
  - intros testcase name Hload Hname. inversion Hload; subst testcase.
    vm_compute in Hname.
    repeat (destruct Hname as [<-|Hname]; [discriminate|]). destruct Hname.
Defined.

(* ================================================================== *)
(** ** The other artifacts *)
(* ================================================================== *)

Lemma artifacts_more_files lib testcase type io h presentation verified items :
  _artifacts lib testcase type io h presentation verified = Ok items ->
  exists uc,
    dict_get "user_claims" testcase = Some uc
    /\ In ("user_claims.json", formatter lib type (DataJson uc) "json")
          (files_of lib type items)
    /\ In ("hb_jwt_serialized.txt",
           formatter lib type
             (opt_data DataJws (serialized_holder_binding_jwt h)) "txt")
          (files_of lib type items)
    /\ In ("combined_presentation.txt",
           formatter lib type (DataCombined presentation) "txt")
          (files_of lib type items)
    /\ (String.eqb type "example" = true ->
        In ("disclosures.md",
            formatter lib type
              (DataMarkdown
                 (markdown_disclosures lib (_hash_to_decoded_disclosure h)
                                       (_hash_to_disclosure h))) "md")
           (files_of lib type items)).
Proof.
  unfold _artifacts. intros H. simpl in H.
  destruct (dict_get "user_claims" testcase) as [uc|]; [|discriminate].
  simpl in H. exists uc. split; auto.
  destruct (String.eqb type "example") eqn:Etype;
    destruct (truthy (get_or_false testcase "add_decoy_claims")) eqn:Edec;
    simpl in H; inversion H; subst; clear H; simpl;
    repeat split; try tauto; try discriminate.
Qed.

(** A run that returns, with the Holder it presented and what it wrote. *)
Lemma run_ok_presented lib settings testcase_path type w w' :
  generate_test_case_data lib settings testcase_path type w = (Ok tt, w') ->
  exists testcase io h' presentation verified items cb aud nonce,
    presented lib settings testcase_path testcase h'
    /\ combined_presentation h' = Some presentation
    /\ _artifacts lib testcase type io h' presentation verified = Ok items
    /\ files w' = store_artifacts lib (parent testcase_path) type items (files w)
    /\ In (VerifierCall presentation cb aud nonce) (calls w').
Proof.
  intros Hrun.
  destruct (run_ok_inv _ _ _ _ _ _ Hrun) as (testcase & keys & claims & Hdone).
  pose proof (completed_prepared _ _ _ _ _ _ _ _ _ Hdone) as Hprep.
  destruct Hdone as [_ _ _ Hstages].
  destruct Hstages as (io & h & disclosed & nonce & aud & h' & presentation & v
                       & verified & items & Hio & Hh & Hsel & Hnonce & Haud & Hh'
                       & Hpres & _ & _ & Hitems & _ & ->).
  exists testcase, io, h', presentation, verified, items,
         (cb_get_issuer_key claims keys), aud, nonce.
  cbn [files calls]. repeat split; auto.
  - exists keys, claims, io, h, disclosed, nonce, aud. repeat split; auto;
      apply Hprep.
  - apply in_or_app. right. do 3 right. now left.
Qed.

(** A run has one Holder: what [presented] names is determined by the
    library, the settings and the test case file. *)
Lemma presented_unique lib settings testcase_path testcase1 testcase2 h1 h2 :
  presented lib settings testcase_path testcase1 h1 ->
  presented lib settings testcase_path testcase2 h2 ->
  testcase1 = testcase2 /\ h1 = h2.
Proof.
  intros (keys1 & claims1 & io1 & g1 & d1 & n1 & a1
          & ((s1 & k1 & A1 & B1 & C1) & D1 & E1) & F1 & G1 & H1 & I1 & J1 & K1)
         (keys2 & claims2 & io2 & g2 & d2 & n2 & a2
          & ((s2 & k2 & A2 & B2 & C2) & D2 & E2) & F2 & G2 & H2 & I2 & J2 & K2).
  assert (s1 = s2) by congruence. subst s2.
  assert (k1 = k2) by congruence. subst k2.
  assert (keys1 = keys2) by congruence. subst keys2.
  assert (testcase1 = testcase2) by congruence. subst testcase2.
  assert (claims1 = claims2) by congruence. subst claims2.
  assert (io1 = io2) by congruence. subst io2.
  assert (g1 = g2) by congruence. subst g2.
  assert (d1 = d2) by congruence. subst d2.
  assert (n1 = n2) by congruence. subst n2.
  assert (a1 = a2) by congruence. subst a2.
  split; congruence.
Qed.

(** The Holder's artifacts are read off the Holder after
    [create_presentation].  In a run that returns, let [h'] be the object
    [create_presentation] returned, on the Holder built from the
    [combined_sd_jwt_iid] of the run's Issuer ([presented]): then
    [combined_presentation.txt] holds the [combined_presentation] of [h'],
    which is also what the Verifier was given; [hb_jwt_serialized.txt] holds
    its [serialized_holder_binding_jwt]; and, when the test case asks for
    holder binding, [hb_jwt_payload.json] holds its
    [holder_binding_jwt_payload]. *)
Theorem holder_artifacts_written lib settings testcase_path type w w' :
  generate_test_case_data lib settings testcase_path type w = (Ok tt, w') ->
  exists testcase h' presentation cb aud nonce,
    presented lib settings testcase_path testcase h'
    /\ combined_presentation h' = Some presentation
    /\ In (VerifierCall presentation cb aud nonce) (calls w')
    /\ read_file (parent testcase_path ++ ["combined_presentation.txt"]) (files w')
       = Some (formatter lib type (DataCombined presentation) "txt")
    /\ read_file (parent testcase_path ++ ["hb_jwt_serialized.txt"]) (files w')
       = Some (formatter lib type
                 (opt_data DataJws (serialized_holder_binding_jwt h')) "txt")
    /\ (truthy (get_or_false testcase "holder_binding") = true ->
        read_file (parent testcase_path ++ ["hb_jwt_payload.json"]) (files w')
        = Some (formatter lib type
                  (opt_data DataHbPayload (holder_binding_jwt_payload h')) "json")).
Proof.
  intros Hrun.
  destruct (run_ok_presented _ _ _ _ _ _ Hrun)
    as (testcase & io & h' & presentation & verified & items & cb & aud & nonce
        & Hh' & Hpres & Hitems & Hfiles & Hcall).
  destruct (artifacts_files _ _ _ _ _ _ _ _ Hitems)
    as (Hnd & _ & _ & _ & Hhb & _).
  destruct (artifacts_more_files _ _ _ _ _ _ _ _ Hitems)
    as (uc & _ & _ & Hser & Hcp & _).
  exists testcase, h', presentation, cb, aud, nonce.
  rewrite Hfiles. repeat split; auto.
  - now apply read_stored.
  - now apply read_stored.
  - intros Hon. rewrite Hon in Hhb. now apply read_stored.
Qed.

Lemma holder_artifacts_written_witness :
  let lib := Demo.library Demo.testcase_own_iss in
  let w' := snd (generate_test_case_data lib Demo.settings Demo.testcase_path
                                         "example" Demo.start) in
  exists testcase h' presentation cb aud nonce,
    presented lib Demo.settings Demo.testcase_path testcase h'
    /\ combined_presentation h' = Some presentation
    /\ In (VerifierCall presentation cb aud nonce) (calls w')
    /\ read_file (parent Demo.testcase_path ++ ["combined_presentation.txt"])
                 (files w')
       = Some (formatter lib "example" (DataCombined presentation) "txt")
    /\ read_file (parent Demo.testcase_path ++ ["hb_jwt_serialized.txt"]) (files w')
       = Some (formatter lib "example"
                 (opt_data DataJws (serialized_holder_binding_jwt h')) "txt")
    /\ (truthy (get_or_false testcase "holder_binding") = true ->
        read_file (parent Demo.testcase_path ++ ["hb_jwt_payload.json"]) (files w')
        = Some (formatter lib "example"
                  (opt_data DataHbPayload (holder_binding_jwt_payload h')) "json")).
Proof.
  intros lib w'.
  apply (holder_artifacts_written
           lib Demo.settings Demo.testcase_path "example" Demo.start w').
  vm_compute. reflexivity.
Defined.

(** [user_claims.json] holds the user claims as the test case file gives
    them, without the registered claims merged in, and
    [verified_contents.json] holds what [get_verified_payload] returned for
    the Verifier the run built. *)
Theorem input_and_verified_artifacts_written
        lib settings testcase_path type w w' :
  generate_test_case_data lib settings testcase_path type w = (Ok tt, w') ->
  exists testcase uc presentation cb aud nonce v verified,
    load_yaml_example lib testcase_path = Ok testcase
    /\ dict_get "user_claims" testcase = Some uc
    /\ In (VerifierCall presentation cb aud nonce) (calls w')
    /\ SDJWTVerifier lib presentation cb aud nonce = Ok v
    /\ get_verified_payload lib v = Ok verified
    /\ read_file (parent testcase_path ++ ["user_claims.json"]) (files w')
       = Some (formatter lib type (DataJson uc) "json")
    /\ read_file (parent testcase_path ++ ["verified_contents.json"]) (files w')
       = Some (formatter lib type (DataJson verified) "json").
Proof.
  intros Hrun.
  destruct (run_ok_inv _ _ _ _ _ _ Hrun) as (testcase & keys & claims & Hdone).
  destruct Hdone as [_ Hload _ Hstages].
  destruct Hstages as (io & h & disclosed & nonce & aud & h' & presentation & v
                       & verified & items & _ & _ & _ & _ & _ & _ & _ & Hv
                       & Hverified & Hitems & _ & ->).
  destruct (artifacts_files _ _ _ _ _ _ _ _ Hitems)
    as (Hnd & _ & _ & _ & _ & Hver & _).
  destruct (artifacts_more_files _ _ _ _ _ _ _ _ Hitems)
    as (uc & Huc & Hfile & _).
  exists testcase, uc, presentation, (cb_get_issuer_key claims keys), aud, nonce,
    v, verified.
  simpl. repeat split; auto.
  - apply in_or_app. right. do 3 right. now left.
  - now apply read_stored.
  - now apply read_stored.
Qed.

Lemma input_and_verified_artifacts_written_witness :
  let w' := snd (generate_test_case_data (Demo.library Demo.testcase)
                   Demo.settings Demo.testcase_path "testcase" Demo.start) in
  exists testcase uc presentation cb aud nonce v verified,
    load_yaml_example (Demo.library Demo.testcase) Demo.testcase_path = Ok testcase
    /\ dict_get "user_claims" testcase = Some uc
    /\ In (VerifierCall presentation cb aud nonce) (calls w')
    /\ SDJWTVerifier (Demo.library Demo.testcase) presentation cb aud nonce = Ok v
    /\ get_verified_payload (Demo.library Demo.testcase) v = Ok verified
    /\ read_file (parent Demo.testcase_path ++ ["user_claims.json"]) (files w')
       = Some (formatter (Demo.library Demo.testcase) "testcase"
                 (DataJson uc) "json")
    /\ read_file (parent Demo.testcase_path ++ ["verified_contents.json"]) (files w')
       = Some (formatter (Demo.library Demo.testcase) "testcase"
                 (DataJson verified) "json").
Proof.
  intros w'.
  apply (input_and_verified_artifacts_written
           (Demo.library Demo.testcase) Demo.settings Demo.testcase_path
           "testcase" Demo.start w').
  vm_compute. reflexivity.
Defined.

(** Only the type [example] gets the Markdown file.  In a run that returns,
    let [h'] be the Holder after [create_presentation] ([presented]): a run
    of type [example] writes [disclosures.md], formatted by
    [format_for_example], from the [_hash_to_decoded_disclosure] and the
    [_hash_to_disclosure] of [h']; a run of any other type leaves
    [disclosures.md] as it was. *)
Theorem disclosures_written_for_examples_only
        lib settings testcase_path type w w' :
  generate_test_case_data lib settings testcase_path type w = (Ok tt, w') ->
  exists testcase h',
    presented lib settings testcase_path testcase h'
    /\ read_file (parent testcase_path ++ ["disclosures.md"]) (files w')
       = if String.eqb type "example"
         then Some (format_for_example lib
                      (DataMarkdown
                         (markdown_disclosures lib (_hash_to_decoded_disclosure h')
                                               (_hash_to_disclosure h'))) "md")
         else read_file (parent testcase_path ++ ["disclosures.md"]) (files w).
Proof.
  intros Hrun.
  destruct (run_ok_presented _ _ _ _ _ _ Hrun)
    as (testcase & io & h' & presentation & verified & items & cb & aud & nonce
        & Hh' & _ & Hitems & Hfiles & _).
  destruct (artifacts_files _ _ _ _ _ _ _ _ Hitems) as (Hnd & _).
  destruct (artifacts_more_files _ _ _ _ _ _ _ _ Hitems)
    as (uc & _ & _ & _ & _ & Hmd).
  pose proof (artifacts_names _ _ _ _ _ _ _ _ Hitems) as Hnames.
  exists testcase, h'. split; auto. rewrite Hfiles.
  destruct (String.eqb type "example") eqn:Etype.
  - specialize (Hmd eq_refl). unfold formatter in Hmd. rewrite Etype in Hmd.
    now apply read_stored.
  - apply read_stored_other. rewrite Hnames.
    unfold artifact_file_names. rewrite Etype.
    destruct (truthy (get_or_false testcase "add_decoy_claims")); simpl;
      intros Hin; repeat (destruct Hin as [Hin|Hin]; [discriminate|]);
      destruct Hin.
Qed.

Lemma disclosures_written_for_examples_only_witness :
  let lib := Demo.library Demo.testcase in
  let w' := snd (generate_test_case_data lib Demo.settings Demo.testcase_path
                                         "example" Demo.start) in
  exists testcase h',
    presented lib Demo.settings Demo.testcase_path testcase h'
    /\ read_file (parent Demo.testcase_path ++ ["disclosures.md"]) (files w')
       = if String.eqb "example" "example"
         then Some (format_for_example lib
                      (DataMarkdown
                         (markdown_disclosures lib (_hash_to_decoded_disclosure h')
                                               (_hash_to_disclosure h'))) "md")
         else read_file (parent Demo.testcase_path ++ ["disclosures.md"])
                        (files Demo.start).
Proof.
  intros lib w'.
  apply (disclosures_written_for_examples_only
           lib Demo.settings Demo.testcase_path "example" Demo.start w').
  vm_compute. reflexivity.
Defined.

(* ================================================================== *)
(** ** What a run reads *)
(* ================================================================== *)

(** The class attribute as the run finds it plays no part: the script sets
    it before the Issuer is built, so the outcome, the files and the engine
    calls are the same whatever earlier runs left there. *)
Theorem run_ignores_flag_left_behind lib settings testcase_path type w b :
  let here := generate_test_case_data lib settings testcase_path type w in
  let there := generate_test_case_data lib settings testcase_path type
                                       (with_flag b w) in
  fst there = fst here
  /\ files (snd there) = files (snd here)
  /\ calls (snd there) = calls (snd here)
  /\ directories (snd there) = directories (snd here).
Proof.
  unfold generate_test_case_data, bindM, lift. simpl.
  destruct (py_getitem settings "random_seed") as [seed|]; [|simpl; auto].
  destruct (py_getitem settings "key_settings") as [ks|]; [|simpl; auto].
  destruct (get_jwk lib ks true seed) as [keys|]; [|simpl; auto].
  destruct (load_yaml_example lib testcase_path) as [testcase|]; [|simpl; auto].
  destruct (claims_of settings testcase) as [claims|]; [|simpl; auto].
  unfold issue, present, verify, bindM, lift, set_unsafe_randomness.
  simpl. rewrite !if_holder_binding_key. simpl.
  unfold record_call. simpl.
  destruct (SDJWTIssuer lib true claims (issuer_key keys)
              (binding_key testcase keys)
              (get_or_false testcase "add_decoy_claims")) as [io|];
    [|simpl; auto].
  destruct (SDJWTHolder lib (combined_sd_jwt_iid io)) as [h|]; simpl;
    [|simpl; auto].
  destruct (match dict_get "holder_disclosed_claims" testcase with
            | Some x => Ok x
            | None => Raise (KeyError "holder_disclosed_claims")
            end) as [disclosed|]; [|simpl; auto].
  destruct (if_holder_binding testcase (py_getitem settings "holder_binding_nonce"))
    as [nonce|]; [|simpl; auto].
  destruct (if_holder_binding testcase (verifier_id settings)) as [aud|];
    simpl; [|simpl; auto].
  destruct (create_presentation lib h disclosed nonce aud
              (binding_key testcase keys)) as [h'|]; [|simpl; auto].
  destruct (combined_presentation h') as [presentation|]; simpl; [|simpl; auto].
  destruct (SDJWTVerifier lib presentation (cb_get_issuer_key claims keys) aud nonce)
    as [v|]; simpl; [|simpl; auto].
  destruct (get_verified_payload lib v) as [verified|]; [|simpl; auto].
  destruct (_artifacts lib testcase type io h' presentation verified)
    as [items|]; [|simpl; auto].
  unfold dir_exists. simpl.
  destruct (existsb (fpath_eqb (parent testcase_path)) (directories w));
    [|simpl; auto].
  rewrite !write_artifacts_spec. simpl. auto.
Qed.

(** The settings a run reads: two settings with the same values under
    [random_seed], [key_settings], [identifiers], [iat], [exp] and
    [holder_binding_nonce] give the same run. *)
Lemma run_settings_ext lib s1 s2 testcase_path type w :
  py_getitem s1 "random_seed" = py_getitem s2 "random_seed" ->
  py_getitem s1 "key_settings" = py_getitem s2 "key_settings" ->
  (forall tc, claims_of s1 tc = claims_of s2 tc) ->
  (forall tc, load_yaml_example lib testcase_path = Ok tc ->
              if_holder_binding tc (py_getitem s1 "holder_binding_nonce")
              = if_holder_binding tc (py_getitem s2 "holder_binding_nonce")) ->
  (forall tc, load_yaml_example lib testcase_path = Ok tc ->
              if_holder_binding tc (verifier_id s1)
              = if_holder_binding tc (verifier_id s2)) ->
  generate_test_case_data lib s1 testcase_path type w
  = generate_test_case_data lib s2 testcase_path type w.
Proof.
  intros Hseed Hks Hclaims Hnonce Haud.
  unfold generate_test_case_data, bindM, lift. rewrite Hseed, Hks.
  destruct (py_getitem s2 "random_seed") as [seed|]; auto.
  destruct (py_getitem s2 "key_settings") as [ks|]; auto.
  destruct (get_jwk lib ks true seed) as [keys|]; auto.
  destruct (load_yaml_example lib testcase_path) as [testcase|] eqn:Hload; auto.
  rewrite Hclaims.
  destruct (claims_of s2 testcase) as [claims|]; auto.
  unfold issue, present, verify, bindM, lift.
  rewrite (Hnonce testcase eq_refl), (Haud testcase eq_refl). reflexivity.
Qed.

Lemma claims_of_ext s1 s2 tc :
  py_getitem s1 "identifiers" = py_getitem s2 "identifiers" ->
  py_getitem s1 "iat" = py_getitem s2 "iat" ->
  py_getitem s1 "exp" = py_getitem s2 "exp" ->
  claims_of s1 tc = claims_of s2 tc.
Proof.
  intros H1 H2 H3. unfold claims_of. now rewrite H1, H2, H3.
Qed.

(** Of the settings a run reads six entries and nothing else: settings that
    agree under [random_seed], [key_settings], [identifiers], [iat], [exp]
    and [holder_binding_nonce] give the same outcome and the same final
    state. *)
Theorem run_reads_six_settings lib s1 s2 testcase_path type w :
  (forall k,
      In k ["random_seed"; "key_settings"; "identifiers"; "iat"; "exp";
            "holder_binding_nonce"] ->
      py_getitem s1 k = py_getitem s2 k) ->
  generate_test_case_data lib s1 testcase_path type w
  = generate_test_case_data lib s2 testcase_path type w.
Proof.
  intros Hsame.
  apply run_settings_ext.
  - apply Hsame. simpl. tauto.
  - apply Hsame. simpl. tauto.
  - intros tc. apply claims_of_ext; apply Hsame; simpl; tauto.
  - intros tc _. rewrite (Hsame "holder_binding_nonce"); auto. simpl. tauto.
  - intros tc _. unfold verifier_id. rewrite (Hsame "identifiers"); auto.
    simpl. tauto.
Qed.

Lemma run_reads_six_settings_witness :
  generate_test_case_data (Demo.library Demo.testcase)
    (PyDict [("unused", PyStr "anything");
             ("random_seed", PyInt 0);
             ("key_settings", PyDict [("key_size", PyInt 256)]);
             ("identifiers", PyDict [("issuer", PyStr "https://example.com/issuer");
                                     ("verifier", PyStr "https://example.com/verifier")]);
             ("iat", PyInt 1683000000);
             ("exp", PyInt 1883000000);
             ("holder_binding_nonce", PyStr "1234567890")])
    Demo.testcase_path "testcase" Demo.start
  = generate_test_case_data (Demo.library Demo.testcase) Demo.settings
                            Demo.testcase_path "testcase" Demo.start.
Proof.
  apply (run_reads_six_settings (Demo.library Demo.testcase)).
  intros k Hk. simpl in Hk.
  repeat (destruct Hk as [<-|Hk]; [reflexivity|]). destruct Hk.
Defined.

(** The settings for holder binding are looked up only when the test case
    asks for it: without holder binding, the nonce is never read, so
    settings that agree on the other five entries give the same run, with or
    without a [holder_binding_nonce]. *)
Theorem nonce_unread_without_binding lib s1 s2 testcase_path type w testcase :
  load_yaml_example lib testcase_path = Ok testcase ->
  truthy (get_or_false testcase "holder_binding") = false ->
  (forall k,
      In k ["random_seed"; "key_settings"; "identifiers"; "iat"; "exp"] ->
      py_getitem s1 k = py_getitem s2 k) ->
  generate_test_case_data lib s1 testcase_path type w
  = generate_test_case_data lib s2 testcase_path type w.
Proof.
  intros Hload Hoff Hsame.
  assert (forall A tc (x y : result A),
             load_yaml_example lib testcase_path = Ok tc ->
             if_holder_binding tc x = if_holder_binding tc y) as Hlazy.
  { intros A tc x y Htc. rewrite Hload in Htc. inversion Htc; subst tc.
    unfold if_holder_binding. now rewrite Hoff. }
  apply run_settings_ext; auto.
  - apply Hsame. simpl. tauto.
  - apply Hsame. simpl. tauto.
  - intros tc. apply claims_of_ext; apply Hsame; simpl; tauto.
Qed.

Lemma nonce_unread_without_binding_witness :
  generate_test_case_data (Demo.library Demo.testcase)
                          DemoRuns.settings_without_nonce
                          Demo.testcase_path "testcase" Demo.start
  = generate_test_case_data (Demo.library Demo.testcase) Demo.settings
                            Demo.testcase_path "testcase" Demo.start.
Proof.
  apply (nonce_unread_without_binding
           (Demo.library Demo.testcase) DemoRuns.settings_without_nonce
           Demo.settings Demo.testcase_path "testcase" Demo.start Demo.testcase).
  - reflexivity.
  - reflexivity.
  - intros k Hk. simpl in Hk.
    repeat (destruct Hk as [<-|Hk]; [reflexivity|]). destruct Hk.
Defined.

(* ================================================================== *)
(** ** The order of the claims *)
(* ================================================================== *)

Lemma dict_set_keys {V} k (v : V) d :
  map fst (dict_set k v d)
  = if key_in (map fst d) k then map fst d else map fst d ++ [k].
Proof.
  unfold key_in. induction d as [|[k' v'] r IH]; simpl; auto.
  destruct (String.eqb k k'); simpl; auto.
  rewrite IH. now destruct (existsb (String.eqb k) (map fst r)).
Qed.

Lemma key_in_spec ks k : key_in ks k = true <-> In k ks.
Proof.
  unfold key_in. rewrite existsb_exists. split.
  - intros (x & Hx & E). apply String.eqb_eq in E. now subst.
  - intros H. exists k. split; auto. apply String.eqb_refl.
Qed.

Lemma dict_update_keys {V} (e d : list (string * V)) :
  NoDup (map fst e) ->
  map fst (dict_update d e)
  = map fst d ++ filter (fun k => negb (key_in (map fst d) k)) (map fst e).
Proof.
  unfold dict_update. revert d.
  induction e as [|[k v] e IH]; intros d Hnd; simpl.
  - now rewrite app_nil_r.
  - inversion Hnd as [|? ? Hk Hnd']; subst.
    rewrite IH by assumption. rewrite dict_set_keys.
    destruct (key_in (map fst d) k) eqn:Ek; simpl.
    + reflexivity.
    + rewrite <- app_assoc. simpl. do 2 f_equal.
      apply filter_ext_in. intros x Hx. f_equal.
      unfold key_in. rewrite existsb_app. simpl.
      destruct (String.eqb x k) eqn:Exk.
      * apply String.eqb_eq in Exk. subst. contradiction.
      * now rewrite !orb_false_r.
Qed.

(** Lines 36-42.  The claims handed to the Issuer list [iss], [iat] and
    [exp] first, in that order, and then the user claims in the order of the
    test case file, the three names left out there. *)
Theorem claims_key_order settings testcase claims uc :
  claims_of settings testcase = Ok claims ->
  py_getitem (PyDict testcase) "user_claims" = Ok (PyDict uc) ->
  NoDup (map fst uc) ->
  map fst claims
  = ["iss"; "iat"; "exp"] ++ filter (fun k => negb (registered k)) (map fst uc).
Proof.
  intros Hclaims Huc Hnd. unfold claims_of in Hclaims.
  destruct (py_getitem settings "identifiers") as [ids|]; [|discriminate].
  simpl in Hclaims.
  destruct (py_getitem ids "issuer") as [issuer|]; [|discriminate].
  simpl in Hclaims.
  destruct (py_getitem settings "iat") as [iat|]; [|discriminate].
  simpl in Hclaims.
  destruct (py_getitem settings "exp") as [exp|]; [|discriminate].
  simpl in Hclaims.
  simpl in Huc. rewrite Huc in Hclaims. simpl in Hclaims.
  inversion Hclaims; subst claims.
  now rewrite dict_update_keys.
Qed.

Lemma claims_key_order_witness :
  map fst Demo.claims
  = ["iss"; "iat"; "exp"]
      ++ filter (fun k => negb (registered k)) (map fst Demo.user_claims).
Proof.
  apply (claims_key_order Demo.settings Demo.testcase Demo.claims Demo.user_claims).
  - reflexivity.
  - reflexivity.
  - vm_compute. repeat constructor; simpl; intuition discriminate.
Defined.

(* ================================================================== *)
(** ** The main block *)
(* ================================================================== *)

(** A run, whatever its outcome, leaves the files of other directories and
    the set of directories as they were. *)
Lemma run_keeps_other_directories lib settings testcase_path type w r w' p :
  generate_test_case_data lib settings testcase_path type w = (r, w') ->
  parent p <> parent testcase_path ->
  read_file p (files w') = read_file p (files w)
  /\ directories w' = directories w.
Proof.
  intros Hrun Hout. destruct r as [[]|e].
  - destruct (run_ok_inv _ _ _ _ _ _ Hrun) as (testcase & keys & claims & Hdone).
    destruct Hdone as [_ Hload _ Hstages].
    destruct Hstages as (io & h & disclosed & nonce & aud & h' & presentation & v
                         & verified & items & _ & _ & _ & _ & _ & _ & _ & _ & _
                         & Hitems & _ & ->).
    simpl. split; auto.
    apply read_stored_elsewhere. intros name _ ->.
    apply Hout. apply parent_in_dir.
  - destruct (run_raise_keeps_files _ _ _ _ _ _ _ Hrun) as [-> ->]. now split.
Qed.

Lemma run_cases_keeps_other_directories lib settings type cases :
  forall w r w' p,
    run_cases lib settings type cases w = (r, w') ->
    (forall c, In c cases -> parent p <> parent c) ->
    read_file p (files w') = read_file p (files w)
    /\ directories w' = directories w.
Proof.
  induction cases as [|c rest IH]; intros w r w' p Hrun Hout.
  - inversion Hrun; subst. now split.
  - simpl in Hrun. unfold bindM in Hrun.
    destruct (generate_test_case_data lib settings c type w) as [[[]|e] w1] eqn:Hc.
    + destruct (run_keeps_other_directories _ _ _ _ _ _ _ p Hc) as [Hf Hd].
      { apply Hout. now left. }
      destruct (IH _ _ _ p Hrun) as [Hf' Hd'].
      { intros c' Hc'. apply Hout. now right. }
      split; congruence.
    + inversion Hrun; subst.
      apply (run_keeps_other_directories _ _ _ _ _ _ _ p Hc).
      apply Hout. now left.
Qed.

(** Lines 229-231.  The loop stops at the first test case that fails: the
    exception of that run is the outcome, the state stays as that run left
    it, and the test cases after it are not run. *)
Theorem loop_stops_at_first_failure
        lib settings type done failing rest w w1 e w2 :
  run_cases lib settings type done w = (Ok tt, w1) ->
  generate_test_case_data lib settings failing type w1 = (Raise e, w2) ->
  run_cases lib settings type (done ++ failing :: rest) w = (Raise e, w2).
Proof.
  revert w. induction done as [|c done' IH]; intros w Hdone Hfail.
  - inversion Hdone; subst. simpl. unfold bindM. now rewrite Hfail.
  - simpl in *. unfold bindM in *.
    destruct (generate_test_case_data lib settings c type w) as [[[]|e'] wc];
      [|discriminate].
    now apply IH.
Qed.

Lemma loop_stops_at_first_failure_witness :
  let w1 := snd (run_cases DemoRuns.by_path Demo.settings "testcase"
                           [["work"; "a"; "specification.yml"]] DemoRuns.start) in
  let w2 := snd (generate_test_case_data DemoRuns.by_path Demo.settings
                   ["work"; "b"; "specification.yml"] "testcase" w1) in
  run_cases DemoRuns.by_path Demo.settings "testcase"
            ([["work"; "a"; "specification.yml"]]
               ++ ["work"; "b"; "specification.yml"]
               :: [["work"; "a"; "specification.yml"]])
            DemoRuns.start
  = (Raise (KeyError "user_claims"), w2).
Proof.
  intros w1 w2.
  apply (loop_stops_at_first_failure
           DemoRuns.by_path Demo.settings "testcase"
           [["work"; "a"; "specification.yml"]]
           ["work"; "b"; "specification.yml"]
           [["work"; "a"; "specification.yml"]]
           DemoRuns.start w1 (KeyError "user_claims") w2).
  - vm_compute. reflexivity.
  - vm_compute. reflexivity.
Defined.

(** Lines 215-219.  Without [settings.yml] in the working directory the main
    block exits with a message that names the file, before the settings are
    loaded and before any test case is touched: the state is as it was. *)
Theorem main_exits_without_settings_file lib host basedir args w :
  existsb (fpath_eqb (basedir ++ ["settings.yml"])) (directories w) = false ->
  read_file (basedir ++ ["settings.yml"]) (files w) = None ->
  main lib host basedir args w
  = (Raise (SystemExit ("Settings file '"
                          ++ show_fpath (basedir ++ ["settings.yml"])%list
                          ++ "' does not exist.")%string), w).
Proof.
  intros Hdir Hfile. unfold main, bindM, path_exists, lift.
  now rewrite Hdir, Hfile.
Qed.

Lemma main_exits_without_settings_file_witness :
  main DemoRuns.by_path DemoRuns.host DemoRuns.basedir
       {| arg_type := "testcase"; arg_directories := ["a"] |}
       DemoRuns.start_without_settings
  = (Raise (SystemExit "Settings file 'work/settings.yml' does not exist."),
     DemoRuns.start_without_settings).
Proof.
  apply (main_exits_without_settings_file
           DemoRuns.by_path DemoRuns.host DemoRuns.basedir
           {| arg_type := "testcase"; arg_directories := ["a"] |}
           DemoRuns.start_without_settings).
  - reflexivity.
  - reflexivity.
Defined.

(** [basedir / d] as [pathlib] computes it: a relative name is appended,
    an absolute one replaces the base with its root kept, empty pieces and
    single dots go, [..] stays. *)
Example join_path_as_pathlib :
  let base := [""; "tmp"; "work"] in
  join_path base "a" = [""; "tmp"; "work"; "a"]
  /\ join_path base "./a//b/" = [""; "tmp"; "work"; "a"; "b"]
  /\ join_path base "" = base
  /\ join_path base "a/../b" = [""; "tmp"; "work"; "a"; ".."; "b"]
  /\ join_path base "/tmp/other/a" = [""; "tmp"; "other"; "a"]
  /\ join_path base "//x/y" = [""; ""; "x"; "y"]
  /\ join_path base "///x/y" = [""; "x"; "y"]
  /\ show_fpath (join_path base "/tmp/other/a" ++ ["specification.yml"])
     = "/tmp/other/a/specification.yml".
Proof. repeat split; reflexivity. Qed.

(** Lines 215-231.  Called with directory names, the main block changes no
    file outside the directories [basedir / d] of the names given, whatever
    its outcome, and creates no directory.  Paths are taken without [..], so
    that two lists of components are two places. *)
Theorem main_writes_only_in_given_directories
        lib host basedir args w r w' p :
  arg_directories args <> [] ->
  main lib host basedir args w = (r, w') ->
  no_dotdot p = true ->
  (forall d, In d (arg_directories args) ->
             no_dotdot (join_path basedir d) = true
             /\ parent p <> join_path basedir d) ->
  read_file p (files w') = read_file p (files w)
  /\ directories w' = directories w.
Proof.
  intros Hargs Hmain _ Hout. unfold main, bindM, path_exists, lift in Hmain.
  destruct (negb _).
  - inversion Hmain; subst. now split.
  - destruct (load_yaml_settings host (basedir ++ ["settings.yml"])) as [settings|e].
    + apply (run_cases_keeps_other_directories _ _ _ _ _ _ _ p Hmain).
      intros c Hc. unfold case_paths in Hc.
      destruct (arg_directories args) as [|d ds] eqn:Eds; [contradiction|].
      apply in_map_iff in Hc. destruct Hc as (d' & <- & Hd').
      rewrite parent_in_dir. now apply Hout.
    + inversion Hmain; subst. now split.
Qed.

Lemma main_writes_only_in_given_directories_witness :
  let args := {| arg_type := "testcase";
                 arg_directories := ["a"; "./b/"; "/srv/cases/c"] |} in
  let w' := snd (main DemoRuns.by_path DemoRuns.host DemoRuns.basedir args
                      DemoRuns.start) in
  read_file ["work"; "settings.yml"] (files w')
  = read_file ["work"; "settings.yml"] (files DemoRuns.start)
  /\ directories w' = directories DemoRuns.start.
Proof.
  intros args w'.
  apply (main_writes_only_in_given_directories
           DemoRuns.by_path DemoRuns.host DemoRuns.basedir args DemoRuns.start
           (fst (main DemoRuns.by_path DemoRuns.host DemoRuns.basedir args
                      DemoRuns.start)) w').
  - discriminate.
  - vm_compute. reflexivity.
  - reflexivity.
  - intros d Hd. simpl in Hd.
    repeat (destruct Hd as [<-|Hd];
            [split; [reflexivity|vm_compute; discriminate]|]).
    destruct Hd.
Defined.
